(** * Dual-strategy detection and recommendation engine

    A shallow embedding of the detection and recommendation services of the
    infrastructure optimizer (Django application, Python) and the properties
    of its specification that concern them.

    Conventions of the embedding.
    - A Python [float] read from the database is a finite binary fraction,
      hence a rational: measured values are in [Q] and comparisons with the
      integer thresholds are the exact ones Python performs.  NaN is not
      a value of the model.
    - A Python [int] is in [Z]; a [str] is a [string] holding its UTF-8
      bytes.  All the markers the code searches for are ASCII.
    - A [dict] with string keys is a [gmap string _]; the values decoded
      from a completion are in [json].
    - A Python call that may raise returns an [outcome]; [try]/[except] is
      [try_except].
    - What belongs to the interpreter or to a library and not to the
      repository (the JSON decoder, [str.strip], [str.join], [str()],
      float formatting and float multiplication, the client constructor of
      the completion SDK, the field coercions of the ORM) is a field of
      the record [runtime]; every definition that uses one takes the
      runtime as its first argument. *)

From Stdlib Require Import ZArith QArith String Ascii List Lia.
From stdpp Require Import gmap strings list fin_maps pretty.

#[local] Set Warnings "-register-all".
#[local] Open Scope string_scope.
#[local] Open Scope list_scope.
#[local] Open Scope Z_scope.

(** ** Python values and exceptions *)

Inductive exc : Type :=
| JSONDecodeError
| AttributeError
| TypeError
| ValueError
| KeyError
| IntegrityError
| DatabaseError
| ValidationError
| OpenAIError
| RecursionError.

Inductive outcome (A : Type) : Type :=
| Ok (a : A)
| Raise (e : exc).

Arguments Ok {A} a.
Arguments Raise {A} e.

#[global] Instance outcome_ret : MRet outcome := fun A a => Ok a.
#[global] Instance outcome_bind : MBind outcome := fun A B k x =>
  match x with
  | Ok a => k a
  | Raise e => Raise e
  end.

(** [try: body except Exception: handler] *)
Definition try_except {A : Type} (body : outcome A) (handler : exc -> outcome A) : outcome A :=
  match body with
  | Ok a => Ok a
  | Raise e => handler e
  end.

Definition is_ok {A : Type} (x : outcome A) : bool :=
  match x with
  | Ok _ => true
  | Raise _ => false
  end.

(** The values [json.loads] produces. *)
Inductive json : Type :=
| JNull
| JBool (b : bool)
| JInt (n : Z)
| JFloat (q : Q)
| JStr (s : string)
| JArr (l : list json)
| JObj (m : gmap string json).

(** Python truth value, as tested by [if x] and [not x]. *)
Definition truthy (v : json) : bool :=
  match v with
  | JNull => false
  | JBool b => b
  | JInt n => negb (n =? 0)
  | JFloat q => negb (Qeq_bool q 0)
  | JStr s => negb (String.eqb s "")
  | JArr l => match l with [] => false | _ => true end
  | JObj m => negb (bool_decide (m = ∅))
  end.

(** Truth value of an [Optional] result: [None] is false. *)
Definition truthy_opt (o : option json) : bool :=
  match o with
  | None => false
  | Some v => truthy v
  end.

(** A value a function returns, seen as an [Optional]: Python's [None] is
    the absent result. *)
Definition py_optional (v : json) : option json :=
  match v with
  | JNull => None
  | _ => Some v
  end.

(** [v.get(k, d)]: only a dict has the method. *)
Definition py_get (v : json) (k : string) (d : json) : outcome json :=
  match v with
  | JObj m => Ok (default d (m !! k))
  | _ => Raise AttributeError
  end.

(** [v.copy()]: dicts and lists have it. *)
Definition py_copy (v : json) : outcome json :=
  match v with
  | JObj m => Ok (JObj m)
  | JArr l => Ok (JArr l)
  | _ => Raise AttributeError
  end.

(** [v.update(d)] and [v[k] = x] on a dict. *)
Definition py_update (v : json) (d : gmap string json) : outcome json :=
  match v with
  | JObj m => Ok (JObj (d ∪ m))
  | _ => Raise AttributeError
  end.

Definition py_setitem (v : json) (k : string) (x : json) : outcome json :=
  match v with
  | JObj m => Ok (JObj (<[k := x]> m))
  | _ => Raise TypeError
  end.

(** Python comparisons on measured values. *)
Definition Qgt_bool (a b : Q) : bool := negb (Qle_bool a b).
Definition Qge_bool (a b : Q) : bool := Qle_bool b a.

(** ** The interpreter and the libraries *)

Record runtime : Type := {
  (** [json.loads]: the value decoded, or what the decoder raises:
      [JSONDecodeError] on a text that is not JSON, [ValueError] on an
      integer literal of more digits than the interpreter converts,
      [RecursionError] on a nesting deeper than its stack. *)
  json_loads : string -> outcome json;
  (** [str.strip()] *)
  str_strip : string -> string;
  (** [sep.join(v)] *)
  str_join : string -> json -> outcome string;
  (** [str(v)] of a value that is not a [str] *)
  py_str : json -> string;
  (** the characters of a [str], as iterating over it yields them *)
  str_chars : string -> list string;
  (** [len(s)] and [s.lower()] of a [str] *)
  str_len : string -> Z;
  str_lower : string -> string;
  (** [f"{x}"] and [f"{x:.2f}"] of a float *)
  float_str : Q -> string;
  float_2f : Q -> string;
  (** [x * 100] and [x + y] in floating point *)
  float_mul100 : Q -> Q;
  float_add : Q -> Q -> Q;
  (** the client constructor of the SDK, on endpoint, key and version *)
  AzureOpenAI : option string -> option string -> option string -> outcome unit;
  (** what the ORM stores in a boolean and in an integer column *)
  bool_field : json -> outcome bool;
  int_field : json -> outcome Z
}.

(** The text an f-string puts for [v]: a [str] as it is, any other value
    through [str()]. *)
Definition py_format (rt : runtime) (v : json) : string :=
  match v with
  | JStr s => s
  | _ => py_str rt v
  end.

(** ** The stored records (ingestion/models.py) *)

Record InfrastructureMetrics : Type := {
  id : nat;
  cpu_usage : Q;
  memory_usage : Q;
  latency_ms : Q;
  disk_usage : Q;
  network_in_kbps : Q;
  network_out_kbps : Q;
  io_wait : Q;
  thread_count : Z;
  active_connections : Z;
  error_rate : Q;
  uptime_seconds : Z;
  temperature_celsius : Q;
  power_consumption_watts : Q;
  service_status : list (string * string);
  is_anomalous : bool;
  analysis_completed : bool
}.

Definition degraded_status (status : string) : bool :=
  bool_decide (status ∈ ["degraded"; "offline"; "error"]).

(** [InfrastructureMetrics.has_degraded_services] *)
Definition has_degraded_services (m : InfrastructureMetrics) : bool :=
  match service_status m with
  | [] => false
  | _ => existsb (fun kv => degraded_status kv.2) (service_status m)
  end.

(** Assignment of the two status attributes of a snapshot. *)
Definition set_status (m : InfrastructureMetrics) (anomalous completed : bool)
  : InfrastructureMetrics :=
  {| id := id m; cpu_usage := cpu_usage m; memory_usage := memory_usage m;
     latency_ms := latency_ms m; disk_usage := disk_usage m;
     network_in_kbps := network_in_kbps m; network_out_kbps := network_out_kbps m;
     io_wait := io_wait m; thread_count := thread_count m;
     active_connections := active_connections m; error_rate := error_rate m;
     uptime_seconds := uptime_seconds m; temperature_celsius := temperature_celsius m;
     power_consumption_watts := power_consumption_watts m;
     service_status := service_status m;
     is_anomalous := anomalous; analysis_completed := completed |}.

Record AnomalyDetection : Type := {
  metrics_id : nat;
  cpu_anomaly : bool;
  memory_anomaly : bool;
  latency_anomaly : bool;
  disk_anomaly : bool;
  io_anomaly : bool;
  error_rate_anomaly : bool;
  temperature_anomaly : bool;
  power_anomaly : bool;
  service_anomaly : bool;
  anomaly_summary : string;
  severity_score : Z;
  analysis_method : string
}.

(** [AnomalyDetection.total_anomalies] and [AnomalyDetection.is_critical] *)
Definition total_anomalies (a : AnomalyDetection) : Z :=
  Z.b2z (cpu_anomaly a) + Z.b2z (memory_anomaly a) + Z.b2z (latency_anomaly a)
  + Z.b2z (disk_anomaly a) + Z.b2z (io_anomaly a) + Z.b2z (error_rate_anomaly a)
  + Z.b2z (temperature_anomaly a) + Z.b2z (power_anomaly a) + Z.b2z (service_anomaly a).

Definition is_critical (a : AnomalyDetection) : bool := 7 <=? severity_score a.

(** ** Threshold detector (analysis/services/classic/detector.py) *)

Module ClassicAnomalyDetector.

(** The float [0.05], exactly. *)
Definition float_0_05 : Q := 3602879701896397 # 72057594037927936.

Definition default_thresholds : gmap string Q :=
  <["cpu_usage" := 80 # 1]> (
  <["memory_usage" := 85 # 1]> (
  <["latency_ms" := 500 # 1]> (
  <["disk_usage" := 90 # 1]> (
  <["io_wait" := 20 # 1]> (
  <["error_rate" := float_0_05]> (
  <["temperature_celsius" := 75 # 1]> (
  <["power_consumption_watts" := 400 # 1]> ∅))))))).

(** [__init__]: the thresholds of the settings, or the defaults. *)
Definition init (ANOMALY_THRESHOLDS : option (gmap string Q)) : gmap string Q :=
  default default_thresholds ANOMALY_THRESHOLDS.

(** [self.thresholds.get(key, dflt)] *)
Definition threshold (thresholds : gmap string Q) (key : string) (dflt : Q) : Q :=
  default dflt (thresholds !! key).

Definition detect_anomalies (thresholds : gmap string Q) (metrics : InfrastructureMetrics)
  : gmap string bool :=
  let anomalies : gmap string bool := ∅ in
  let cpu_threshold := threshold thresholds "cpu_usage" (80 # 1) in
  let anomalies := <["cpu_anomaly" := Qgt_bool (cpu_usage metrics) cpu_threshold]> anomalies in
  let memory_threshold := threshold thresholds "memory_usage" (85 # 1) in
  let anomalies := <["memory_anomaly" := Qgt_bool (memory_usage metrics) memory_threshold]> anomalies in
  let latency_threshold := threshold thresholds "latency_ms" (500 # 1) in
  let anomalies := <["latency_anomaly" := Qgt_bool (latency_ms metrics) latency_threshold]> anomalies in
  let disk_threshold := threshold thresholds "disk_usage" (90 # 1) in
  let anomalies := <["disk_anomaly" := Qgt_bool (disk_usage metrics) disk_threshold]> anomalies in
  let io_threshold := threshold thresholds "io_wait" (20 # 1) in
  let anomalies := <["io_anomaly" := Qgt_bool (io_wait metrics) io_threshold]> anomalies in
  let error_threshold := threshold thresholds "error_rate" float_0_05 in
  let anomalies := <["error_rate_anomaly" := Qgt_bool (error_rate metrics) error_threshold]> anomalies in
  let temp_threshold := threshold thresholds "temperature_celsius" (75 # 1) in
  let anomalies := <["temperature_anomaly" := Qgt_bool (temperature_celsius metrics) temp_threshold]> anomalies in
  let power_threshold := threshold thresholds "power_consumption_watts" (400 # 1) in
  let anomalies := <["power_anomaly" := Qgt_bool (power_consumption_watts metrics) power_threshold]> anomalies in
  let anomalies := <["service_anomaly" := has_degraded_services metrics]> anomalies in
  anomalies.

Definition weights : gmap string Z :=
  <["cpu_anomaly" := 2]> (
  <["memory_anomaly" := 2]> (
  <["disk_anomaly" := 3]> (
  <["latency_anomaly" := 2]> (
  <["io_anomaly" := 1]> (
  <["error_rate_anomaly" := 3]> (
  <["temperature_anomaly" := 2]> (
  <["power_anomaly" := 1]> (
  <["service_anomaly" := 3]> ∅)))))))).

(** One turn of the loop over [anomalies.items()]. *)
Definition add_weight (anomaly_type : string) (detected : bool) (score : Z) : Z :=
  match weights !! anomaly_type with
  | Some w => if detected then score + w else score
  | None => score
  end.

Definition calculate_severity_score (anomalies : gmap string bool) : Z :=
  let score := map_fold add_weight 0 anomalies in
  Z.min score 10.

(** [any(anomalies.values())] *)
Definition any_values (anomalies : gmap string bool) : bool :=
  map_fold (fun _ detected acc => detected || acc) false anomalies.

End ClassicAnomalyDetector.

(** ** The store

    Each ORM call is one committed statement: the detectors open no
    transaction.  [metrics] of a result is a one-to-one field, so the table
    of results refuses a second row for the same snapshot.  A statement may
    also fail for reasons of its own (connection lost, disk full), which
    [faults] injects. *)

Record database : Type := {
  metrics_table : gmap nat InfrastructureMetrics;
  anomaly_table : list AnomalyDetection
}.

Record faults : Type := {
  create_fails : bool;
  save_fails : bool
}.

Definition no_faults : faults := {| create_fails := false; save_fails := false |}.

(** [metrics.anomaly_detection], the reverse accessor of the one-to-one field *)
Definition anomaly_detection_of (db : database) (metrics : InfrastructureMetrics)
  : option AnomalyDetection :=
  List.find (fun r => Nat.eqb (metrics_id r) (id metrics)) (anomaly_table db).

(** [AnomalyDetection.objects.create(...)] *)
Definition objects_create (f : faults) (row : AnomalyDetection) (db : database)
  : outcome database :=
  if create_fails f then Raise DatabaseError
  else if existsb (fun r => Nat.eqb (metrics_id r) (metrics_id row)) (anomaly_table db)
  then Raise IntegrityError
  else Ok {| metrics_table := metrics_table db;
             anomaly_table := anomaly_table db ++ [row] |}.

(** [metrics.save()] *)
Definition metrics_save (f : faults) (metrics : InfrastructureMetrics) (db : database)
  : outcome database :=
  if save_fails f then Raise DatabaseError
  else Ok {| metrics_table := <[id metrics := metrics]> (metrics_table db);
             anomaly_table := anomaly_table db |}.

(** [existing_analysis.delete()] *)
Definition anomaly_delete (row : AnomalyDetection) (db : database) : database :=
  {| metrics_table := metrics_table db;
     anomaly_table :=
       List.filter (fun r => negb (Nat.eqb (metrics_id r) (metrics_id row))) (anomaly_table db) |}.

(** The status pair a snapshot has in the store. *)
Definition stored_status (db : database) (i : nat) : option (bool * bool) :=
  (fun m => (is_anomalous m, analysis_completed m)) <$> metrics_table db !! i.

(** ** Threshold detector, continued: summary and analysis *)

Module ClassicAnalysis.
Import ClassicAnomalyDetector.

Definition flag (anomalies : gmap string bool) (key : string) : bool :=
  default false (anomalies !! key).

(** [anomalies.get(key)] used as a condition *)
Definition when_flag (anomalies : gmap string bool) (key : string) (msg : string)
  : list string :=
  if flag anomalies key then [msg] else [].

Definition degraded_services (metrics : InfrastructureMetrics) : list string :=
  (fun kv => kv.1) <$> List.filter (fun kv => degraded_status kv.2) (service_status metrics).

Definition generate_summary (rt : runtime) (anomalies : gmap string bool)
  (metrics : InfrastructureMetrics) : string :=
  let anomaly_messages :=
    when_flag anomalies "cpu_anomaly"
      ("CPU élevé: " +:+ float_str rt (cpu_usage metrics) +:+ "%")
    ++ when_flag anomalies "memory_anomaly"
      ("Mémoire élevée: " +:+ float_str rt (memory_usage metrics) +:+ "%")
    ++ when_flag anomalies "latency_anomaly"
      ("Latence: " +:+ float_str rt (latency_ms metrics) +:+ "ms")
    ++ when_flag anomalies "disk_anomaly"
      ("Disque critique: " +:+ float_str rt (disk_usage metrics) +:+ "%")
    ++ when_flag anomalies "io_anomaly"
      ("I/O wait élevé: " +:+ float_str rt (io_wait metrics) +:+ "%")
    ++ when_flag anomalies "error_rate_anomaly"
      ("Erreurs: " +:+ float_2f rt (float_mul100 rt (error_rate metrics)) +:+ "%")
    ++ when_flag anomalies "temperature_anomaly"
      ("Température: " +:+ float_str rt (temperature_celsius metrics) +:+ "°C")
    ++ when_flag anomalies "power_anomaly"
      ("Consommation: " +:+ float_str rt (power_consumption_watts metrics) +:+ "W")
    ++ (if flag anomalies "service_anomaly" then
          match degraded_services metrics with
          | [] => []
          | ds => ["Services dégradés: " +:+ String.concat ", " (take 3 ds)]
          end
        else []) in
  match anomaly_messages with
  | [] => "Aucune anomalie détectée par analyse classique"
  | _ => "Analyse classique - Seuils dépassés: " +:+ String.concat "; " anomaly_messages
  end.

(** The row [objects.create(metrics=metrics, **anomalies, ...)] inserts. *)
Definition new_row (metrics : InfrastructureMetrics) (anomalies : gmap string bool)
  (summary : string) (score : Z) (method : string) : AnomalyDetection :=
  {| metrics_id := id metrics;
     cpu_anomaly := flag anomalies "cpu_anomaly";
     memory_anomaly := flag anomalies "memory_anomaly";
     latency_anomaly := flag anomalies "latency_anomaly";
     disk_anomaly := flag anomalies "disk_anomaly";
     io_anomaly := flag anomalies "io_anomaly";
     error_rate_anomaly := flag anomalies "error_rate_anomaly";
     temperature_anomaly := flag anomalies "temperature_anomaly";
     power_anomaly := flag anomalies "power_anomaly";
     service_anomaly := flag anomalies "service_anomaly";
     anomaly_summary := summary;
     severity_score := score;
     analysis_method := method |}.

(** [analyze_metrics]: the result returned and the store left behind.  The
    handler of the [try] logs and returns [None]; what was committed before
    the exception stays. *)
Definition analyze_metrics (rt : runtime) (thresholds : gmap string Q) (f : faults)
  (metrics : InfrastructureMetrics) (db : database) : option AnomalyDetection * database :=
  let anomalies := detect_anomalies thresholds metrics in
  let severity_score := calculate_severity_score anomalies in
  let summary := generate_summary rt anomalies metrics in
  let anomaly_detection := new_row metrics anomalies summary severity_score "classic" in
  match objects_create f anomaly_detection db with
  | Raise _ => (None, db)
  | Ok db1 =>
      let metrics1 := set_status metrics (any_values anomalies) true in
      match metrics_save f metrics1 db1 with
      | Raise _ => (None, db1)
      | Ok db2 => (Some anomaly_detection, db2)
      end
  end.

End ClassicAnalysis.

(** ** Operations on [str] that the code uses with ASCII markers *)

Definition str_rev (s : string) : string :=
  string_of_list_ascii (List.rev (list_ascii_of_string s)).

(** [s.startswith(p)], [s.endswith(p)] *)
Definition str_startswith (s p : string) : bool := String.prefix p s.
Definition str_endswith (s p : string) : bool := String.prefix (str_rev p) (str_rev s).

(** [s[n:]], [s[:-n]] and [s[a:b]] *)
Definition str_drop (n : nat) (s : string) : string :=
  string_of_list_ascii (drop n (list_ascii_of_string s)).
Definition str_drop_end (n : nat) (s : string) : string :=
  str_rev (str_drop n (str_rev s)).
Definition str_slice (a b : Z) (s : string) : string :=
  String.substring (Z.to_nat a) (Z.to_nat (b - a)) s.

(** [s.find(c)] and [s.rfind(c)] for a one-character [c]: -1 when absent. *)
Fixpoint find_from (c : ascii) (s : string) (i : Z) : Z :=
  match s with
  | EmptyString => -1
  | String a s' => if Ascii.eqb a c then i else find_from c s' (i + 1)
  end.

Definition str_find (s : string) (c : ascii) : Z := find_from c s 0.

Fixpoint rfind_from (c : ascii) (s : string) (i : Z) (last : Z) : Z :=
  match s with
  | EmptyString => last
  | String a s' => rfind_from c s' (i + 1) (if Ascii.eqb a c then i else last)
  end.

Definition str_rfind (s : string) (c : ascii) : Z := rfind_from c s 0 (-1).

(** [needle in s] *)
Fixpoint str_contains (needle s : string) : bool :=
  String.prefix needle s ||
  match s with
  | EmptyString => false
  | String _ s' => str_contains needle s'
  end.

(** ** Django settings

    An attribute of the settings module is absent, or holds [None] or a
    string. *)

(** [getattr(settings, name, None)] and [getattr(settings, name, dflt)] *)
Definition getattr_none (settings : gmap string (option string)) (name : string)
  : option string :=
  default None (settings !! name).

Definition getattr_default (settings : gmap string (option string)) (name : string)
  (dflt : string) : option string :=
  default (Some dflt) (settings !! name).

(** [settings.NAME] *)
Definition getattr_strict (settings : gmap string (option string)) (name : string)
  : outcome (option string) :=
  match settings !! name with
  | Some v => Ok v
  | None => Raise AttributeError
  end.

(** Truth value of an optional string: [None] and [''] are false. *)
Definition truthy_str (v : option string) : bool :=
  match v with
  | None => false
  | Some s => negb (String.eqb s "")
  end.

(** ** The engine of the AI detector (analysis/services/llm/engine.py) *)

Module LLMAnalysisEngine.

Definition required_settings : list string :=
  ["AZURE_OPENAI_ENDPOINT"; "AZURE_OPENAI_API_KEY"; "AZURE_OPENAI_DEPLOYMENT_NAME"].

(** [_initialize_azure_client]: the value left in [self.azure_client]. *)
Definition _initialize_azure_client (rt : runtime) (settings : gmap string (option string))
  : option unit :=
  let missing_settings :=
    List.filter (fun setting => negb (truthy_str (getattr_none settings setting)))
      required_settings in
  match missing_settings with
  | _ :: _ => None
  | [] =>
      let client :=
        endpoint ← getattr_strict settings "AZURE_OPENAI_ENDPOINT";
        api_key ← getattr_strict settings "AZURE_OPENAI_API_KEY";
        api_version ← getattr_strict settings "AZURE_OPENAI_API_VERSION";
        AzureOpenAI rt endpoint api_key api_version in
      match client with
      | Ok c => Some c
      | Raise _ => None
      end
  end.

(** [is_available] *)
Definition is_available (azure_client : option unit) : bool :=
  match azure_client with
  | Some _ => true
  | None => false
  end.

Definition _clean_json_response (rt : runtime) (content : string) : string :=
  let content :=
    if str_startswith content "```json" then str_drop 7 content
    else if str_startswith content "```" then str_drop 3 content
    else content in
  let content :=
    if str_endswith content "```" then str_drop_end 3 content else content in
  str_strip rt content.

(** [call_llm_analysis]: [reply] is what the completion request gives for
    the prompt, the content of the first choice or an exception.  Both
    handlers of the [try] return [None], whatever the decoder raises. *)
Definition call_llm_analysis (rt : runtime) (azure_client : option unit)
  (reply : outcome string) : option json :=
  match azure_client with
  | None => None
  | Some _ =>
      match reply with
      | Raise _ => None
      | Ok content =>
          let content := str_strip rt content in
          let content := _clean_json_response rt content in
          match json_loads rt content with
          | Ok parsed_response => py_optional parsed_response
          | Raise _ => None
          end
      end
  end.

End LLMAnalysisEngine.

(** The replies of the completion service to the three prompts built from
    one snapshot. *)
Record replies : Type := {
  anomaly_detection_reply : outcome string;
  severity_assessment_reply : outcome string;
  correlation_analysis_reply : outcome string
}.

(** ** AI detector (analysis/services/llm/detector.py) *)

Module LLMAnomalyDetector.

(** [f"{' & '.join(corr.get('metrics_pair', []))}: {corr.get('explanation', ...)}"] *)
Definition correlation_desc (rt : runtime) (corr : json) : outcome json :=
  pair ← py_get corr "metrics_pair" (JArr []);
  joined ← str_join rt " & " pair;
  explanation ← py_get corr "explanation" (JStr "corrélation détectée");
  Ok (JStr (joined +:+ ": " +:+ py_format rt explanation)).

(** The values a [for] loop draws from [v].  From a dict it draws the keys;
    the loops below stop at the first of them, so that their order plays no
    part. *)
Definition py_iter (rt : runtime) (v : json) : outcome (list json) :=
  match v with
  | JArr l => Ok l
  | JStr s => Ok (JStr <$> str_chars rt s)
  | JObj m => Ok ((fun kv => JStr kv.1) <$> map_to_list m)
  | _ => Raise TypeError
  end.

(** [existing + new], with a list on the right *)
Definition py_add_list (existing : json) (new : list json) : outcome json :=
  match existing with
  | JArr l => Ok (JArr (l ++ new))
  | _ => Raise TypeError
  end.

(** The first branch of the merge: the severity assessment.  Once the
    [get]s have passed, [severity_analysis] is a dict and
    ['severity_score' in severity_analysis] tests its keys. *)
Definition merge_severity (complete_analysis : json) (severity_analysis : option json)
  : outcome json :=
  match severity_analysis with
  | Some sev =>
      if truthy sev then
        justification ← py_get sev "severity_justification" (JStr "");
        immediate ← py_get sev "immediate_risk" (JBool false);
        cascade ← py_get sev "cascade_risk" (JBool false);
        impact ← py_get sev "business_impact" (JStr "inconnu");
        ttf ← py_get sev "time_to_failure" (JStr "indéterminé");
        complete_analysis ← py_update complete_analysis (
          <["severity_justification" := justification]> (
          <["immediate_risk" := immediate]> (
          <["cascade_risk" := cascade]> (
          <["business_impact" := impact]> (
          <["time_to_failure" := ttf]> ∅)))));
        match sev with
        | JObj s =>
            match s !! "severity_score" with
            | Some score => py_setitem complete_analysis "severity_score" score
            | None => Ok complete_analysis
            end
        | _ => Raise AttributeError
        end
      else Ok complete_analysis
  | None => Ok complete_analysis
  end.

(** The second branch of the merge: the correlation analysis. *)
Definition merge_correlations (rt : runtime) (complete_analysis : json)
  (correlation_analysis : option json) : outcome json :=
  match correlation_analysis with
  | Some corr =>
      if truthy corr then
        existing_correlations ← py_get complete_analysis "correlations_found" (JArr []);
        strong ← py_get corr "strong_correlations" (JArr []);
        items ← py_iter rt strong;
        new_correlations ← mapM (correlation_desc rt) items;
        found ← py_add_list existing_correlations (take 3 new_correlations);
        complete_analysis ← py_setitem complete_analysis "correlations_found" found;
        insights ← py_get corr "insights" (JArr []);
        py_setitem complete_analysis "correlation_insights" insights
      else Ok complete_analysis
  | None => Ok complete_analysis
  end.

Definition _merge_llm_analyses (rt : runtime) (anomaly_analysis : json)
  (severity_analysis correlation_analysis : option json) : outcome json :=
  complete_analysis ← py_copy anomaly_analysis;
  complete_analysis ← merge_severity complete_analysis severity_analysis;
  merge_correlations rt complete_analysis correlation_analysis.

(** [detect_anomalies]: the engine is asked for the severity and the
    correlations only when the first analysis is there. *)
Definition detect_anomalies (rt : runtime) (azure_client : option unit) (r : replies)
  : option json :=
  if negb (LLMAnalysisEngine.is_available azure_client) then None
  else
    match LLMAnalysisEngine.call_llm_analysis rt azure_client (anomaly_detection_reply r) with
    | None => None
    | Some anomaly_analysis =>
        if negb (truthy anomaly_analysis) then None
        else
          let severity_analysis :=
            LLMAnalysisEngine.call_llm_analysis rt azure_client (severity_assessment_reply r) in
          let correlation_analysis :=
            LLMAnalysisEngine.call_llm_analysis rt azure_client (correlation_analysis_reply r) in
          match _merge_llm_analyses rt anomaly_analysis severity_analysis correlation_analysis with
          | Ok complete_analysis => Some complete_analysis
          | Raise _ => None
          end
    end.

(** [v[:2]] *)
Definition py_slice2 (rt : runtime) (v : json) : outcome json :=
  match v with
  | JArr l => Ok (JArr (take 2 l))
  | JStr s => Ok (JStr (String.concat "" (take 2 (str_chars rt s))))
  | _ => Raise TypeError
  end.

(** [v.lower()] *)
Definition py_lower (rt : runtime) (v : json) : outcome string :=
  match v with
  | JStr s => Ok (str_lower rt s)
  | _ => Raise AttributeError
  end.

(** [explanations != ['Analyse LLM non disponible']] *)
Definition not_unavailable_marker (explanations : json) : bool :=
  match explanations with
  | JArr [JStr s] => negb (String.eqb s "Analyse LLM non disponible")
  | _ => true
  end.

Definition generate_llm_summary (rt : runtime) (llm_analysis : json) : outcome string :=
  risk_assessment ← py_get llm_analysis "risk_assessment" (JStr "");
  part_risk ←
    (if truthy risk_assessment then
       lowered ← py_lower rt risk_assessment;
       if negb (str_contains "indisponible" lowered)
       then Ok ["LLM: " +:+ py_format rt risk_assessment]
       else Ok []
     else Ok []);
  explanations ← py_get llm_analysis "anomaly_explanations" (JArr []);
  part_details ←
    (if truthy explanations && not_unavailable_marker explanations then
       first_two ← py_slice2 rt explanations;
       joined ← str_join rt "; " first_two;
       Ok ["Détails: " +:+ joined]
     else Ok []);
  correlations ← py_get llm_analysis "correlations_found" (JArr []);
  part_correlations ←
    (if truthy correlations then
       first_two ← py_slice2 rt correlations;
       joined ← str_join rt "; " first_two;
       Ok ["Corrélations: " +:+ joined]
     else Ok []);
  match part_risk ++ part_details ++ part_correlations with
  | [] => Ok "Analyse LLM: Aucune anomalie significative détectée"
  | summary_parts => Ok (String.concat " | " summary_parts)
  end.

(** The nine pairs of a result field and the key the model answers with. *)
Definition anomaly_keys : list (string * string) :=
  [("cpu_anomaly", "cpu"); ("memory_anomaly", "memory"); ("latency_anomaly", "latency");
   ("disk_anomaly", "disk"); ("io_anomaly", "io"); ("error_rate_anomaly", "error_rate");
   ("temperature_anomaly", "temperature"); ("power_anomaly", "power");
   ("service_anomaly", "services")].

Definition _convert_llm_to_model_format (llm_analysis : json) : outcome (gmap string json) :=
  llm_anomalies ← py_get llm_analysis "anomalies_detected" (JObj ∅);
  pairs ← mapM (fun fk => v ← py_get llm_anomalies fk.2 (JBool false); Ok (fk.1, v))
             anomaly_keys;
  Ok (list_to_map pairs).

(** [any(model_anomalies.values())] *)
Definition any_truthy (model_anomalies : gmap string json) : bool :=
  map_fold (fun _ v acc => truthy v || acc) false model_anomalies.

(** [a or b] *)
Definition py_or (a b : json) : json := if truthy a then a else b.

(** The row [objects.create(metrics=metrics, **model_anomalies, ...)]
    inserts: each value goes through the coercion of its column. *)
Definition new_row (rt : runtime) (metrics : InfrastructureMetrics)
  (model_anomalies : gmap string json) (summary : string) (severity_score : json)
  : outcome AnomalyDetection :=
  let field (key : string) := bool_field rt (default (JBool false) (model_anomalies !! key)) in
  cpu ← field "cpu_anomaly";
  memory ← field "memory_anomaly";
  latency ← field "latency_anomaly";
  disk ← field "disk_anomaly";
  io ← field "io_anomaly";
  error ← field "error_rate_anomaly";
  temperature ← field "temperature_anomaly";
  power ← field "power_anomaly";
  service ← field "service_anomaly";
  score ← int_field rt severity_score;
  Ok {| metrics_id := id metrics;
        cpu_anomaly := cpu; memory_anomaly := memory; latency_anomaly := latency;
        disk_anomaly := disk; io_anomaly := io; error_rate_anomaly := error;
        temperature_anomaly := temperature; power_anomaly := power;
        service_anomaly := service;
        anomaly_summary := summary;
        severity_score := score;
        analysis_method := "llm" |}.

(** [analyze_metrics]: the result returned (it stands for the row stored)
    and the store left behind. *)
Definition analyze_metrics (rt : runtime) (azure_client : option unit) (r : replies)
  (f : faults) (metrics : InfrastructureMetrics) (db : database)
  : option AnomalyDetection * database :=
  match detect_anomalies rt azure_client r with
  | None => (None, db)
  | Some llm_analysis =>
      if negb (truthy llm_analysis) then (None, db)
      else
        let prepared :=
          model_anomalies ← _convert_llm_to_model_format llm_analysis;
          severity_score ← py_get llm_analysis "severity_score" (JInt 5);
          summary ← generate_llm_summary rt llm_analysis;
          anomaly_detection ← new_row rt metrics model_anomalies summary severity_score;
          Ok (model_anomalies, anomaly_detection) in
        match prepared with
        | Raise _ => (None, db)
        | Ok (model_anomalies, anomaly_detection) =>
            match objects_create f anomaly_detection db with
            | Raise _ => (None, db)
            | Ok db1 =>
                let saved :=
                  critical ← py_get llm_analysis "is_critical" (JBool false);
                  anomalous ← bool_field rt (py_or critical (JBool (any_truthy model_anomalies)));
                  metrics_save f (set_status metrics anomalous true) db1 in
                match saved with
                | Raise _ => (None, db1)
                | Ok db2 => (Some anomaly_detection, db2)
                end
            end
        end
  end.

End LLMAnomalyDetector.

(** ** Detection strategy selector (analysis/services/services.py) *)

Inductive detector : Type :=
| Classic (thresholds : gmap string Q)
| LLM (azure_client : option unit).

Record service : Type := {
  method : string;
  the_detector : detector
}.

(** What the process is configured with. *)
Record config : Type := {
  settings : gmap string (option string);
  ANOMALY_THRESHOLDS : option (gmap string Q)
}.

Module AnomalyDetectionService.

(** [__init__] *)
Definition init (rt : runtime) (cfg : config) (method : string) : service :=
  if String.eqb method "classic" then
    {| method := method;
       the_detector := Classic (ClassicAnomalyDetector.init (ANOMALY_THRESHOLDS cfg)) |}
  else if String.eqb method "llm" then
    {| method := method;
       the_detector := LLM (LLMAnalysisEngine._initialize_azure_client rt (settings cfg)) |}
  else
    {| method := "classic";
       the_detector := Classic (ClassicAnomalyDetector.init (ANOMALY_THRESHOLDS cfg)) |}.

(** [analyze_metrics]: delegation to the detector. *)
Definition analyze_metrics (rt : runtime) (svc : service) (r : replies)
  (f : faults) (metrics : InfrastructureMetrics) (db : database)
  : option AnomalyDetection * database :=
  match the_detector svc with
  | Classic thresholds => ClassicAnalysis.analyze_metrics rt thresholds f metrics db
  | LLM azure_client => LLMAnomalyDetector.analyze_metrics rt azure_client r f metrics db
  end.

End AnomalyDetectionService.

(** ** The single-snapshot analysis of the HTTP view (analysis/views.py) *)

(** The answers of the view.  That of a success carries, next to the result,
    the values read on the object the detector returned:
    [anomalies_detected], [severity_score] and [is_critical]. *)
Inductive response : Type :=
| AnalysisAlreadyExists (existing : AnomalyDetection)
| AnalysisSuccess (created : AnomalyDetection) (anomalies_detected severity_score : json)
    (is_critical : bool)
| LlmNotConfigured
| AnalysisFailed
| ServerError.

(** *** The object a detector returns

    [objects.create] returns the object it built from its arguments: its
    attributes hold the values it was given, the columns coerce them on the
    way to the store only.  The threshold detector gives booleans and an
    integer.  The AI detector gives the values of the answer as they are. *)

(** A number, as [+] and [>=] take it: a [bool] counts as an [int]. *)
Definition py_number (v : json) : option (Z + Q) :=
  match v with
  | JBool b => Some (inl (Z.b2z b))
  | JInt n => Some (inl n)
  | JFloat q => Some (inr q)
  | _ => None
  end.

Definition as_float (x : Z + Q) : Q :=
  match x with
  | inl n => inject_Z n
  | inr q => q
  end.

(** [a + b] *)
Definition py_add (rt : runtime) (a b : json) : outcome json :=
  match py_number a, py_number b with
  | Some (inl x), Some (inl y) => Ok (JInt (x + y))
  | Some x, Some y => Ok (JFloat (float_add rt (as_float x) (as_float y)))
  | _, _ => Raise TypeError
  end.

(** [sum(values)], from [acc] on *)
Fixpoint py_sum (rt : runtime) (acc : json) (values : list json) : outcome json :=
  match values with
  | [] => Ok acc
  | v :: values' => acc' ← py_add rt acc v; py_sum rt acc' values'
  end.

(** [v >= n] for an integer [n] *)
Definition py_ge (v : json) (n : Z) : outcome bool :=
  match py_number v with
  | Some (inl x) => Ok (n <=? x)
  | Some (inr q) => Ok (Qle_bool (inject_Z n) q)
  | None => Raise TypeError
  end.

(** The nine flags and the score on the object [analyze_metrics] returned,
    in the order [total_anomalies] adds them.  From the AI detector they
    are [model_anomalies] and [severity_score] as [analyze_metrics] computed
    them from the merged answer; when it returned an object the answer was
    there and was converted, so that the two last branches are not reached. *)
Definition returned_attributes (rt : runtime) (svc : service) (r : replies)
  (anomaly_detection : AnomalyDetection) : list json * json :=
  let stored :=
    (JBool <$> [cpu_anomaly anomaly_detection; memory_anomaly anomaly_detection;
                latency_anomaly anomaly_detection; disk_anomaly anomaly_detection;
                io_anomaly anomaly_detection; error_rate_anomaly anomaly_detection;
                temperature_anomaly anomaly_detection; power_anomaly anomaly_detection;
                service_anomaly anomaly_detection],
     JInt (severity_score anomaly_detection)) in
  match the_detector svc with
  | Classic _ => stored
  | LLM azure_client =>
      match LLMAnomalyDetector.detect_anomalies rt azure_client r with
      | Some llm_analysis =>
          match (model_anomalies ← LLMAnomalyDetector._convert_llm_to_model_format llm_analysis;
                 severity_score ← py_get llm_analysis "severity_score" (JInt 5);
                 Ok (model_anomalies, severity_score)) with
          | Ok (model_anomalies, severity_score) =>
              ((fun fk => default (JBool false) (model_anomalies !! fk.1))
                 <$> LLMAnomalyDetector.anomaly_keys,
               severity_score)
          | Raise _ => stored
          end
      | None => stored
      end
  end.

(** [anomaly_detection.total_anomalies] and [anomaly_detection.is_critical],
    as the view evaluates them for its answer *)
Definition read_result (rt : runtime) (attributes : list json * json)
  : outcome (json * bool) :=
  total_anomalies ← py_sum rt (JInt 0) attributes.1;
  is_critical ← py_ge attributes.2 7;
  Ok (total_anomalies, is_critical).

Module AnomalyAnalysisView.

(** [_analyze_single_metric], from the snapshot loaded by its id on.  The
    answer of a success is built from the object the detector returned; an
    exception there is answered as a server error, after the writes. *)
Definition _analyze_single_metric (rt : runtime) (cfg : config) (r : replies) (f : faults)
  (metrics : InfrastructureMetrics) (method : string) (db : database)
  : response * database :=
  let rerun (metrics : InfrastructureMetrics) (db : database) :=
    let anomaly_service := AnomalyDetectionService.init rt cfg method in
    match AnomalyDetectionService.analyze_metrics rt anomaly_service r f metrics db with
    | (None, db') =>
        if String.eqb method "llm" then (LlmNotConfigured, db') else (AnalysisFailed, db')
    | (Some anomaly_detection, db') =>
        let attributes := returned_attributes rt anomaly_service r anomaly_detection in
        match read_result rt attributes with
        | Ok (total_anomalies, is_critical) =>
            (AnalysisSuccess anomaly_detection total_anomalies attributes.2 is_critical, db')
        | Raise _ => (ServerError, db')
        end
    end in
  match (if analysis_completed metrics then anomaly_detection_of db metrics else None) with
  | Some existing_analysis =>
      if String.eqb (analysis_method existing_analysis) method then
        (AnalysisAlreadyExists existing_analysis, db)
      else
        let db1 := anomaly_delete existing_analysis db in
        let metrics1 := set_status metrics false false in
        match metrics_save f metrics1 db1 with
        | Raise _ => (ServerError, db1)
        | Ok db2 => rerun metrics1 db2
        end
  | None => rerun metrics db
  end.

End AnomalyAnalysisView.

(** ** Rule-based generator (recommendations/services/classic/generator.py) *)

Record recommendation : Type := {
  title : string;
  description : string;
  priority : string;
  category : string
}.

Record rule : Type := {
  high_threshold : Q;
  critical_threshold : Q;
  high : recommendation;
  critical : recommendation
}.

(** The fields [generate_recommendations] returns. *)
Record recommendations_data : Type := {
  executive_summary : string;
  detailed_analysis : string;
  recommendations : list recommendation;
  priority_level : string;
  estimated_impact : string;
  implementation_timeframe : string
}.

Module ClassicRecommendationGenerator.

(** [_initialize_recommendation_rules], one definition per key of the table *)
Definition rules_cpu : rule :=
  {| high_threshold := 80 # 1;
     critical_threshold := 95 # 1;
     high :=
       {| title := "Optimisation CPU";
          description := "Usage CPU élevé détecté. Considérer l'ajout de ressources ou l'optimisation des processus.";
          priority := "high";
          category := "performance" |};
     critical :=
       {| title := "CPU critique - Action immédiate";
          description := "Usage CPU critique. Intervention immédiate requise pour éviter la dégradation.";
          priority := "critical";
          category := "performance" |} |}.

Definition rules_memory : rule :=
  {| high_threshold := 85 # 1;
     critical_threshold := 95 # 1;
     high :=
       {| title := "Gestion mémoire";
          description := "Usage mémoire élevé. Augmenter la RAM disponible ou optimiser l'utilisation.";
          priority := "high";
          category := "resources" |};
     critical :=
       {| title := "Mémoire critique";
          description := "Risque d'épuisement mémoire. Extension immédiate de la RAM recommandée.";
          priority := "critical";
          category := "resources" |} |}.

Definition rules_disk : rule :=
  {| high_threshold := 85 # 1;
     critical_threshold := 95 # 1;
     high :=
       {| title := "Gestion espace disque";
          description := "Espace disque réduit. Nettoyer les fichiers temporaires et planifier l'extension.";
          priority := "high";
          category := "storage" |};
     critical :=
       {| title := "Espace disque critique";
          description := "Risque de saturation disque. Extension ou nettoyage immédiat requis.";
          priority := "critical";
          category := "storage" |} |}.

Definition rules_latency : rule :=
  {| high_threshold := 300 # 1;
     critical_threshold := 1000 # 1;
     high :=
       {| title := "Optimisation latence";
          description := "Latence élevée détectée. Optimiser les requêtes et connexions réseau.";
          priority := "medium";
          category := "network" |};
     critical :=
       {| title := "Latence critique";
          description := "Latence excessive impactant les utilisateurs. Investigation réseau urgente.";
          priority := "critical";
          category := "network" |} |}.

Definition rules_temperature : rule :=
  {| high_threshold := 70 # 1;
     critical_threshold := 80 # 1;
     high :=
       {| title := "Gestion thermique";
          description := "Température élevée. Vérifier la ventilation et l'environnement.";
          priority := "medium";
          category := "hardware" |};
     critical :=
       {| title := "Surchauffe critique";
          description := "Risque de surchauffe. Arrêt préventif et inspection du refroidissement requis.";
          priority := "critical";
          category := "hardware" |} |}.

(** [rec = rules[...].copy(); rec['description'] = f"{lead}{rec['description']}"] *)
Definition with_lead (lead : string) (rec : recommendation) : recommendation :=
  {| title := title rec;
     description := lead +:+ description rec;
     priority := priority rec;
     category := category rec |}.

(** The body shared by the five tiered analyses: the critical tier is
    tested first. *)
Definition analyze_tier (rules : rule) (value : Q) (lead : string) : option recommendation :=
  if Qge_bool value (critical_threshold rules) then Some (with_lead lead (critical rules))
  else if Qge_bool value (high_threshold rules) then Some (with_lead lead (high rules))
  else None.

Definition _analyze_cpu (rt : runtime) (cpu_usage : Q) : option recommendation :=
  analyze_tier rules_cpu cpu_usage ("CPU à " +:+ float_str rt cpu_usage +:+ "%. ").

Definition _analyze_memory (rt : runtime) (memory_usage : Q) : option recommendation :=
  analyze_tier rules_memory memory_usage ("Mémoire à " +:+ float_str rt memory_usage +:+ "%. ").

Definition _analyze_disk (rt : runtime) (disk_usage : Q) : option recommendation :=
  analyze_tier rules_disk disk_usage ("Disque à " +:+ float_str rt disk_usage +:+ "%. ").

Definition _analyze_latency (rt : runtime) (latency_ms : Q) : option recommendation :=
  analyze_tier rules_latency latency_ms ("Latence " +:+ float_str rt latency_ms +:+ "ms. ").

Definition _analyze_temperature (rt : runtime) (temperature : Q) : option recommendation :=
  analyze_tier rules_temperature temperature
    ("Température " +:+ float_str rt temperature +:+ "°C. ").

Definition _analyze_services (metrics : InfrastructureMetrics) : option recommendation :=
  if has_degraded_services metrics then
    let degraded_services := ClassicAnalysis.degraded_services metrics in
    Some {| title := "Services dégradés détectés";
            description := "Services en état dégradé: "
              +:+ String.concat ", " (take 3 degraded_services)
              +:+ ". Redémarrage ou investigation requise.";
            priority := "high";
            category := "services" |}
  else None.

Definition _analyze_errors (rt : runtime) (error_rate : Q) : option recommendation :=
  let error_percentage := float_mul100 rt error_rate in
  if Qgt_bool error_percentage (5 # 1) then
    Some {| title := "Taux d'erreur élevé";
            description := "Taux d'erreur de " +:+ float_2f rt error_percentage
              +:+ "%. Investigation des logs et correction des erreurs recommandée.";
            priority := "high";
            category := "reliability" |}
  else if Qgt_bool error_percentage (1 # 1) then
    Some {| title := "Surveillance des erreurs";
            description := "Taux d'erreur de " +:+ float_2f rt error_percentage
              +:+ "%. Monitoring renforcé recommandé.";
            priority := "medium";
            category := "reliability" |}
  else None.

Definition priority_order : list string := ["low"; "medium"; "high"; "critical"].

(** [l.index(x) if x in l else 0] *)
Definition index_or_0 (x : string) (l : list string) : nat :=
  match list_find (fun y => y = x) l with
  | Some (i, _) => i
  | None => 0%nat
  end.

Definition _update_priority (current new : string) : string :=
  let current_idx := index_or_0 current priority_order in
  let new_idx := index_or_0 new priority_order in
  nth (Nat.max current_idx new_idx) priority_order "".

Definition timeframe_map : gmap string string :=
  <["critical" := "Immédiat (< 4h)"]> (
  <["high" := "1-3 jours"]> (
  <["medium" := "1-2 semaines"]> (
  <["low" := "1 mois"]> ∅))).

Definition _build_response (recommendations : list recommendation) (priority_level : string)
  (anomalies_summary : string) : recommendations_data :=
  let rec_count := length recommendations in
  let critical_count :=
    length (List.filter (fun r => String.eqb (priority r) "critical") recommendations) in
  let exec_summary :=
    if (0 <? critical_count)%nat then
      "Analyse critique: " +:+ pretty critical_count +:+ " problèmes critiques parmi "
      +:+ pretty rec_count +:+ " recommandations. Action immédiate requise."
    else if String.eqb priority_level "high" then
      "Attention: " +:+ pretty rec_count
      +:+ " recommandations prioritaires identifiées pour optimiser l'infrastructure."
    else
      "Analyse de " +:+ pretty rec_count
      +:+ " points d'amélioration identifiés pour maintenir la performance." in
  let detailed_analysis :=
    "Analyse basée sur les règles métier prédéfinies. Anomalies détectées: "
    +:+ (if String.eqb anomalies_summary "" then "Aucune anomalie majeure" else anomalies_summary)
    +:+ ". "
    +:+ "Les métriques révèlent " +:+ pretty rec_count
    +:+ " axes d'amélioration répartis sur plusieurs catégories système." in
  {| executive_summary := exec_summary;
     detailed_analysis := detailed_analysis;
     recommendations := recommendations;
     priority_level := priority_level;
     estimated_impact := "Amélioration de la stabilité et des performances système";
     implementation_timeframe := default "1-2 semaines" (timeframe_map !! priority_level) |}.

(** One block [if rec: recommendations.append(rec); priority_level = ...]. *)
Definition record_rec (acc : list recommendation * string) (rec : option recommendation)
  : list recommendation * string :=
  match rec with
  | Some r => (acc.1 ++ [r], _update_priority acc.2 (priority r))
  | None => acc
  end.

Definition generate_recommendations (rt : runtime) (metrics : InfrastructureMetrics)
  (anomalies_summary : string) : recommendations_data :=
  let start : list recommendation * string := ([], "low") in
  let acc := record_rec start (_analyze_cpu rt (cpu_usage metrics)) in
  let acc := record_rec acc (_analyze_memory rt (memory_usage metrics)) in
  let acc := record_rec acc (_analyze_disk rt (disk_usage metrics)) in
  let acc := record_rec acc (_analyze_latency rt (latency_ms metrics)) in
  let acc := record_rec acc (_analyze_temperature rt (temperature_celsius metrics)) in
  let acc := record_rec acc (_analyze_services metrics) in
  let acc := record_rec acc (_analyze_errors rt (error_rate metrics)) in
  let recommendations :=
    match acc.1 with
    | [] => [ {| title := "Surveillance continue";
                 description := "Infrastructure stable. Maintenir la surveillance proactive des métriques.";
                 priority := "low";
                 category := "monitoring" |} ]
    | recs => recs
    end in
  _build_response recommendations acc.2 anomalies_summary.

End ClassicRecommendationGenerator.

(** ** Shared completion service
       (infrastructure_optimization/core/services/azure_openai.py) *)

Module AzureOpenAIService.

(** [__init__] and [_initialize_client]: the value left in [self.client].
    The deployment name is read with the default ['gpt-4'] and is not part of
    the test. *)
Definition deployment_name (settings : gmap string (option string)) : option string :=
  getattr_default settings "AZURE_OPENAI_DEPLOYMENT_NAME" "gpt-4".

Definition _initialize_client (rt : runtime) (settings : gmap string (option string))
  : option unit :=
  let api_key := getattr_default settings "AZURE_OPENAI_API_KEY" "" in
  let endpoint := getattr_default settings "AZURE_OPENAI_ENDPOINT" "" in
  let api_version := getattr_default settings "AZURE_OPENAI_API_VERSION" "2024-02-01" in
  if negb (truthy_str api_key && truthy_str endpoint) then None
  else
    match AzureOpenAI rt endpoint api_key api_version with
    | Ok c => Some c
    | Raise _ => None
    end.

(** [is_available] *)
Definition is_available (client : option unit) : bool :=
  match client with
  | Some _ => true
  | None => false
  end.

(** [call_completion] *)
Definition call_completion (rt : runtime) (client : option unit) (reply : outcome string)
  : option string :=
  match client with
  | None => None
  | Some _ =>
      match reply with
      | Ok content => Some (str_strip rt content)
      | Raise _ => None
      end
  end.

Definition _clean_response (rt : runtime) (response : string) : string :=
  let response :=
    if str_startswith response "```json" then str_drop 7 response
    else if str_startswith response "```" then str_drop 3 response
    else if str_startswith response "json" then str_drop 4 response
    else response in
  let response :=
    if str_endswith response "```" then str_drop_end 3 response else response in
  str_strip rt response.

(** The structure returned in the last resort by [parse_json_response]. *)
Definition minimal_structure : json :=
  JObj (
  <["executive_summary" := JStr "Recommandations générées par analyse LLM."]> (
  <["detailed_analysis" := JStr "Analyse détaillée des métriques système."]> (
  <["recommendations" := JArr []]> (
  <["priority_level" := JStr "medium"]> (
  <["estimated_impact" := JStr "Amélioration des performances système"]> (
  <["implementation_timeframe" := JStr "1-2 semaines"]> ∅)))))).

(** The structure returned by [_extract_json_from_text] for a brace-delimited
    part that does not decode. *)
Definition reconstructed_structure : json :=
  JObj (
  <["executive_summary" := JStr "Recommandations générées par analyse LLM."]> (
  <["detailed_analysis" :=
      JStr "Analyse détaillée des métriques système. Analyse ciblée services incluse."]> (
  <["recommendations" := JArr []]> (
  <["priority_level" := JStr "medium"]> (
  <["estimated_impact" := JStr "Amélioration des performances système"]> (
  <["implementation_timeframe" := JStr "1-2 semaines"]> ∅)))))).

(** [text[start_idx:end_idx]] of [_extract_json_from_text], when both braces
    are found. *)
Definition json_part (text : string) : option string :=
  let start_idx := str_find text "{" in
  let end_idx := str_rfind text "}" + 1 in
  if (start_idx =? -1) || (end_idx =? 0) then None
  else Some (str_slice start_idx end_idx text).

(** [_extract_json_from_text]: the handler of the inner [try] is for
    [json.JSONDecodeError] only; anything else the decoder raises goes on to
    the caller. *)
Definition _extract_json_from_text (rt : runtime) (text : string) : outcome json :=
  let start_idx := str_find text "{" in
  let end_idx := str_rfind text "}" + 1 in
  if (start_idx =? -1) || (end_idx =? 0) then Raise JSONDecodeError
  else
    let json_part := str_slice start_idx end_idx text in
    match json_loads rt json_part with
    | Ok v => Ok v
    | Raise JSONDecodeError => Ok reconstructed_structure
    | Raise e => Raise e
    end.

(** [parse_json_response]: the handler of the outer [try] is for
    [json.JSONDecodeError] only, the one around the extraction for every
    exception. *)
Definition parse_json_response (rt : runtime) (response : string) : outcome json :=
  let cleaned_response := _clean_response rt response in
  match json_loads rt cleaned_response with
  | Ok v => Ok v
  | Raise JSONDecodeError =>
      try_except (_extract_json_from_text rt response)
        (fun extraction_error => Ok minimal_structure)
  | Raise e => Raise e
  end.

(** [call_json_completion]: the parser is called outside any [try], and
    what it returns is returned as it is, [None] when the reply decodes to
    [null]. *)
Definition call_json_completion (rt : runtime) (client : option unit) (reply : outcome string)
  : outcome (option json) :=
  match call_completion rt client reply with
  | None => Ok None
  | Some raw_response =>
      if String.eqb raw_response "" then Ok None
      else v ← parse_json_response rt raw_response; Ok (py_optional v)
  end.

End AzureOpenAIService.

(** ** The engine of the AI generator (recommendations/services/llm/engine.py) *)

(** The replies of the completion service to the primary request and to
    the focused request for an area. *)
Record rec_replies : Type := {
  recommendation_reply : outcome string;
  focused_reply : string -> outcome string
}.

Module RecommendationEngine.

(** The floats [0.5], [0.2] and [0.1], exactly. *)
Definition float_0_5 : Q := 1 # 2.
Definition float_0_2 : Q := 3602879701896397 # 18014398509481984.
Definition float_0_1 : Q := 3602879701896397 # 36028797018963968.

(** [len(v)] *)
Definition py_len (rt : runtime) (v : json) : outcome Z :=
  match v with
  | JStr s => Ok (str_len rt s)
  | JArr l => Ok (Z.of_nat (length l))
  | JObj m => Ok (Z.of_nat (size m))
  | _ => Raise TypeError
  end.

Definition _get_default_value (field : string) : json :=
  let defaults : gmap string json :=
    <["executive_summary" := JStr "Recommandations générées par analyse LLM."]> (
    <["detailed_analysis" := JStr "Analyse détaillée des métriques système."]> (
    <["recommendations" := JArr []]> (
    <["priority_level" := JStr "medium"]> (
    <["estimated_impact" := JStr "Amélioration des performances système"]> (
    <["implementation_timeframe" := JStr "1-2 semaines"]> ∅))))) in
  default (JStr "") (defaults !! field).

Definition _estimate_confidence (rt : runtime) (response : gmap string json) : outcome Q :=
  let confidence := float_0_5 in
  n_recs ← py_len rt (default (JArr []) (response !! "recommendations"));
  let confidence := if 3 <=? n_recs then float_add rt confidence float_0_2 else confidence in
  n_detail ← py_len rt (default (JStr "") (response !! "detailed_analysis"));
  let confidence := if 100 <? n_detail then float_add rt confidence float_0_1 else confidence in
  n_summary ← py_len rt (default (JStr "") (response !! "executive_summary"));
  let confidence := if 50 <? n_summary then float_add rt confidence float_0_1 else confidence in
  lowered ← LLMAnomalyDetector.py_lower rt
              (default (JStr "") (response !! "implementation_timeframe"));
  let confidence :=
    if existsb (fun word => str_contains word lowered) ["jour"; "semaine"; "heure"]
    then float_add rt confidence float_0_1 else confidence in
  Ok (if Qle_bool confidence 1 then confidence else 1%Q).

Definition required_fields : list string :=
  ["executive_summary"; "detailed_analysis"; "recommendations";
   "priority_level"; "estimated_impact"; "implementation_timeframe"].

Definition valid_priorities : list string := ["low"; "medium"; "high"; "critical"].

(** [response['priority_level'] not in valid_priorities] *)
Definition invalid_priority (v : json) : bool :=
  match v with
  | JStr s => negb (bool_decide (s ∈ valid_priorities))
  | _ => true
  end.

(** [_validate_and_enrich_response].  On a truthy response that is not a
    dict, the membership tests or the subscripts raise [TypeError]. *)
Definition _validate_and_enrich_response (rt : runtime) (response : json)
  (metrics : InfrastructureMetrics) : outcome json :=
  match response with
  | JObj response =>
      let response :=
        foldl (fun (response : gmap string json) field =>
                 match response !! field with
                 | Some _ => response
                 | None => <[field := _get_default_value field]> response
                 end) response required_fields in
      let response :=
        match response !! "recommendations" with
        | Some (JArr _) => response
        | _ => <["recommendations" := JArr []]> response
        end in
      let response := <["analysis_type" := JStr "llm_recommendations"]> response in
      let response := <["metrics_id" := JInt (Z.of_nat (id metrics))]> response in
      confidence ← _estimate_confidence rt response;
      let response := <["llm_confidence" := JFloat confidence]> response in
      let response :=
        if invalid_priority (default JNull (response !! "priority_level"))
        then <["priority_level" := JStr "medium"]> response else response in
      Ok (JObj response)
  | _ => Raise TypeError
  end.

(** [generate_recommendations] *)
Definition generate_recommendations (rt : runtime) (client : option unit) (r : rec_replies)
  (metrics : InfrastructureMetrics) : option json :=
  if negb (AzureOpenAIService.is_available client) then None
  else
    let body :=
      response ← AzureOpenAIService.call_json_completion rt client (recommendation_reply r);
      if truthy_opt response
      then v ← _validate_and_enrich_response rt (default JNull response) metrics; Ok (Some v)
      else Ok None in
    match body with
    | Ok v => v
    | Raise _ => None
    end.

(** [generate_focused_recommendations] *)
Definition generate_focused_recommendations (rt : runtime) (client : option unit)
  (r : rec_replies) (focus_area : string) : option json :=
  if negb (AzureOpenAIService.is_available client) then None
  else
    let body :=
      response ← AzureOpenAIService.call_json_completion rt client (focused_reply r focus_area);
      if truthy_opt response then
        response ← py_setitem (default JNull response) "focus_area" (JStr focus_area);
        response ← py_setitem response "analysis_type" (JStr "focused_optimization");
        Ok (Some response)
      else Ok None in
    match body with
    | Ok v => v
    | Raise _ => None
    end.

End RecommendationEngine.

(** ** AI generator (recommendations/services/llm/generator.py) *)

Module LLMRecommendationGenerator.

Definition _detect_critical_areas (metrics : InfrastructureMetrics) : list string :=
  (if Qgt_bool (cpu_usage metrics) (85 # 1) then ["cpu"] else [])
  ++ (if Qgt_bool (memory_usage metrics) (85 # 1) then ["memory"] else [])
  ++ (if Qgt_bool (disk_usage metrics) (85 # 1) then ["storage"] else [])
  ++ (if Qgt_bool (latency_ms metrics) (500 # 1) then ["network"] else [])
  ++ (if has_degraded_services metrics then ["services"] else []).

(** The loop [for rec in focused[:2]: rec['source'] = ...; base.append(rec)].
    [base] is the list held by the primary result and [append] changes it
    in place: what was appended before an exception stays.  The result is
    the list, and whether the loop ran to its end. *)
Fixpoint append_focused (source : string) (recs : list json) (base : list json)
  : list json * bool :=
  match recs with
  | [] => (base, true)
  | rec :: recs' =>
      match py_setitem rec "source" (JStr source) with
      | Ok rec' => append_focused source recs' (base ++ [rec'])
      | Raise _ => (base, false)
      end
  end.

(** [recommendations['detailed_analysis'] += note] *)
Definition py_iadd_str (rt : runtime) (v : json) (note : string) : outcome json :=
  match v with
  | JStr s => Ok (JStr (s +:+ note))
  | JArr l => Ok (JArr (l ++ (JStr <$> str_chars rt note)))
  | _ => Raise TypeError
  end.

(** [if 'detailed_analysis' in recommendations: recommendations[...] += note] *)
Definition add_note (rt : runtime) (recommendations : gmap string json)
  (primary_area : string) : gmap string json :=
  match recommendations !! "detailed_analysis" with
  | Some analysis =>
      match py_iadd_str rt analysis (" Analyse ciblée " +:+ primary_area +:+ " incluse.") with
      | Ok analysis' => <["detailed_analysis" := analysis']> recommendations
      | Raise _ => recommendations
      end
  | None => recommendations
  end.

(** [focused_recommendations[:2]], as the loop goes through it *)
Definition focused_items (rt : runtime) (focused_recommendations : json) : outcome (list json) :=
  first_two ← LLMAnomalyDetector.py_slice2 rt focused_recommendations;
  LLMAnomalyDetector.py_iter rt first_two.

(** The body of the [try] of [_enrich_recommendations]; an exception leaves
    the primary result as it is at that point.  When the primary result
    holds no list under ['recommendations'], the first turn of the loop
    raises. *)
Definition merge_focused (rt : runtime) (recommendations : gmap string json)
  (focused_analysis : gmap string json) (primary_area : string) : gmap string json :=
  let base_recommendations := default (JArr []) (recommendations !! "recommendations") in
  match focused_items rt (default (JArr []) (focused_analysis !! "recommendations")) with
  | Raise _ => recommendations
  | Ok items =>
      match base_recommendations, items with
      | JArr base, _ =>
          let '(base, completed) :=
            append_focused ("focused_" +:+ primary_area) items base in
          if completed then
            add_note rt (<["recommendations" := JArr base]> recommendations) primary_area
          else if bool_decide (is_Some (recommendations !! "recommendations"))
          then <["recommendations" := JArr base]> recommendations
          else recommendations
      | _, [] => add_note rt recommendations primary_area
      | _, _ :: _ => recommendations
      end
  end.

Definition _enrich_recommendations (rt : runtime) (client : option unit) (r : rec_replies)
  (recommendations : json) (metrics : InfrastructureMetrics) : json :=
  let critical_areas := _detect_critical_areas metrics in
  match critical_areas with
  | primary_area :: _ =>
      if AzureOpenAIService.is_available client then
        match RecommendationEngine.generate_focused_recommendations rt client r primary_area with
        | Some (JObj focused_analysis) =>
            if bool_decide (is_Some (focused_analysis !! "recommendations")) then
              match recommendations with
              | JObj recs => JObj (merge_focused rt recs focused_analysis primary_area)
              | _ => recommendations
              end
            else recommendations
        | _ => recommendations
        end
      else recommendations
  | [] => recommendations
  end.

End LLMRecommendationGenerator.

(** ** Reports (recommendations/models.py) and the two [generate_report] *)

(** The fields [update_or_create] is given: the values are stored as the
    generator returned them. *)
Record RecommendationReport : Type := {
  report_metrics_id : nat;
  report_executive_summary : json;
  report_detailed_analysis : json;
  recommendations_json : json;
  report_priority_level : json;
  report_estimated_impact : json;
  report_implementation_timeframe : json;
  generation_method : string
}.

(** A recommendation of the rule-based generator as the dict it is. *)
Definition recommendation_to_json (r : recommendation) : json :=
  JObj (
  <["title" := JStr (title r)]> (
  <["description" := JStr (description r)]> (
  <["priority" := JStr (priority r)]> (
  <["category" := JStr (category r)]> ∅)))).

Definition data_to_dict (d : recommendations_data) : gmap string json :=
  <["executive_summary" := JStr (executive_summary d)]> (
  <["detailed_analysis" := JStr (detailed_analysis d)]> (
  <["recommendations" := JArr (recommendation_to_json <$> recommendations d)]> (
  <["priority_level" := JStr (priority_level d)]> (
  <["estimated_impact" := JStr (estimated_impact d)]> (
  <["implementation_timeframe" := JStr (implementation_timeframe d)]> ∅))))).

(** [recommendations_data[key]] *)
Definition py_getitem (d : gmap string json) (key : string) : outcome json :=
  match d !! key with
  | Some v => Ok v
  | None => Raise KeyError
  end.

(** The report both [generate_report] build from the generated fields; the
    write itself may fail, in which case [None] is returned. *)
Definition report_of (write_fails : bool) (metrics : InfrastructureMetrics)
  (recommendations_data : gmap string json) (generation_method : string)
  : option RecommendationReport :=
  let report :=
    summary ← py_getitem recommendations_data "executive_summary";
    analysis ← py_getitem recommendations_data "detailed_analysis";
    actions ← py_getitem recommendations_data "recommendations";
    level ← py_getitem recommendations_data "priority_level";
    impact ← py_getitem recommendations_data "estimated_impact";
    timeframe ← py_getitem recommendations_data "implementation_timeframe";
    if write_fails then Raise DatabaseError
    else Ok {| report_metrics_id := id metrics;
               report_executive_summary := summary;
               report_detailed_analysis := analysis;
               recommendations_json := JObj (<["actions" := actions]> ∅);
               report_priority_level := level;
               report_estimated_impact := impact;
               report_implementation_timeframe := timeframe;
               generation_method := generation_method |} in
  match report with
  | Ok rep => Some rep
  | Raise _ => None
  end.

(** [RecommendationReport.recommendations] *)
Definition report_recommendations (rep : RecommendationReport) : json :=
  match recommendations_json rep with
  | JObj m => default (JArr []) (m !! "actions")
  | _ => JArr []
  end.

(** [ClassicRecommendationGenerator.generate_report] *)
Definition classic_generate_report (rt : runtime) (write_fails : bool)
  (metrics : InfrastructureMetrics) (existing : option AnomalyDetection)
  : option RecommendationReport :=
  let anomalies_summary :=
    match existing with
    | Some anomaly_detection => anomaly_summary anomaly_detection
    | None => "Aucune anomalie détectée"
    end in
  let recommendations_data :=
    ClassicRecommendationGenerator.generate_recommendations rt metrics anomalies_summary in
  report_of write_fails metrics (data_to_dict recommendations_data) "classic".

Module LLMGeneration.
Import LLMRecommendationGenerator.

(** [_get_fallback_recommendations] *)
Definition _get_fallback_recommendations (rt : runtime) (metrics : InfrastructureMetrics)
  (anomalies_summary : string) : gmap string json :=
  let recommendations :=
    ClassicRecommendationGenerator.generate_recommendations rt metrics anomalies_summary in
  let d := data_to_dict recommendations in
  let d := <["analysis_type" := JStr "llm_fallback"]> d in
  <["detailed_analysis" :=
      JStr (detailed_analysis recommendations
            +:+ " (Analyse LLM temporairement indisponible)")]> d.

(** [generate_recommendations] *)
Definition generate_recommendations (rt : runtime) (client : option unit) (r : rec_replies)
  (metrics : InfrastructureMetrics) (anomalies_summary : string) : json :=
  if negb (AzureOpenAIService.is_available client) then
    JObj (_get_fallback_recommendations rt metrics anomalies_summary)
  else
    match RecommendationEngine.generate_recommendations rt client r metrics with
    | Some recommendations =>
        if truthy recommendations
        then _enrich_recommendations rt client r recommendations metrics
        else JObj (_get_fallback_recommendations rt metrics anomalies_summary)
    | None => JObj (_get_fallback_recommendations rt metrics anomalies_summary)
    end.

(** [generate_report] *)
Definition generate_report (rt : runtime) (client : option unit) (r : rec_replies)
  (write_fails : bool) (metrics : InfrastructureMetrics) (existing : option AnomalyDetection)
  : option RecommendationReport :=
  let anomalies_summary :=
    match existing with
    | Some anomaly_detection => anomaly_summary anomaly_detection
    | None => "Aucune anomalie détectée"
    end in
  match generate_recommendations rt client r metrics anomalies_summary with
  | JObj recommendations_data => report_of write_fails metrics recommendations_data "llm"
  | _ => None
  end.

End LLMGeneration.

(** * Notions the properties are stated with *)

(** ** Priorities of a report *)

(** The rank of a priority under low < medium < high < critical. *)
Definition priority_rank (p : string) : nat :=
  ClassicRecommendationGenerator.index_or_0 p ClassicRecommendationGenerator.priority_order.

(** The priority an action carries, when it is a dict with a string under
    ['priority']. *)
Definition action_priority (action : json) : option string :=
  match action with
  | JObj m =>
      match m !! "priority" with
      | Some (JStr p) => Some p
      | _ => None
      end
  | _ => None
  end.

(** The priorities of the actions of a report. *)
Definition action_priorities (rep : RecommendationReport) : list string :=
  match report_recommendations rep with
  | JArr actions => omap action_priority actions
  | _ => []
  end.

(** The greatest rank in a list of priorities. *)
Definition max_rank (ps : list string) : nat :=
  foldr (fun p best => Nat.max (priority_rank p) best) 0%nat ps.

(** The overall priority of [rep] is one of the four levels and is the
    maximum of the priorities of its actions. *)
Definition priority_is_max (rep : RecommendationReport) : Prop :=
  ∃ level, report_priority_level rep = JStr level
    ∧ level ∈ ClassicRecommendationGenerator.priority_order
    ∧ priority_rank level = max_rank (action_priorities rep).

(** What a rule returns, if anything, carries one of the four levels. *)
Definition levelled (rec : option recommendation) : Prop :=
  match rec with
  | Some r => priority r ∈ ClassicRecommendationGenerator.priority_order
  | None => True
  end.

(** The state of the loop of [generate_recommendations]: the level is one
    of the four and has the greatest rank among the actions recorded. *)
Definition recorded (acc : list recommendation * string) : Prop :=
  acc.2 ∈ ClassicRecommendationGenerator.priority_order
  ∧ priority_rank acc.2 = max_rank (priority <$> acc.1).

(** ** The weighted sum of the flags *)

(** The weight a flag contributes: its weight when the dictionary holds
    [True] for it, nothing otherwise. *)
Definition contribution (anomalies : gmap string bool) (key : string) (w : Z) : Z :=
  match anomalies !! key with
  | Some true => w
  | _ => 0
  end.

(** The sum of the weights of the true flags, as the specification words it. *)
Definition weighted_sum (anomalies : gmap string bool) : Z :=
  contribution anomalies "disk_anomaly" 3
  + contribution anomalies "error_rate_anomaly" 3
  + contribution anomalies "service_anomaly" 3
  + contribution anomalies "cpu_anomaly" 2
  + contribution anomalies "memory_anomaly" 2
  + contribution anomalies "latency_anomaly" 2
  + contribution anomalies "temperature_anomaly" 2
  + contribution anomalies "io_anomaly" 1
  + contribution anomalies "power_anomaly" 1.

(** The nine flags of a result. *)
Definition nine_flags : list string :=
  ["cpu_anomaly"; "memory_anomaly"; "latency_anomaly"; "disk_anomaly"; "io_anomaly";
   "error_rate_anomaly"; "temperature_anomaly"; "power_anomaly"; "service_anomaly"].

(** ** The safe default of the parser *)


(** ** The writes of one analysis *)

(** What one analysis leaves behind, the result being written before the
    status of the snapshot and each write being committed on its own.  With
    a result returned, its row is the one row added and the stored status
    of the snapshot says the analysis is completed.  With [None] returned
    the stored snapshots are as before, and so are the results unless the
    row had been written when the failure came. *)
Definition two_step_outcome (metrics : InfrastructureMetrics) (db : database)
  (out : option AnomalyDetection * database) : Prop :=
  match out.1 with
  | Some row =>
      metrics_id row = id metrics
      ∧ anomaly_table out.2 = anomaly_table db ++ [row]
      ∧ ∃ anomalous, stored_status out.2 (id metrics) = Some (anomalous, true)
  | None =>
      metrics_table out.2 = metrics_table db
      ∧ (anomaly_table out.2 = anomaly_table db
         ∨ ∃ row, metrics_id row = id metrics
                  ∧ anomaly_table out.2 = anomaly_table db ++ [row])
  end.

(** ** The merge rule, as the specification words it

    Call (1) gives the base.  When call (2) gave a non-empty answer, its
    risk fields are added and its severity score, if it has one, replaces
    the one of the base.  When call (3) gave a non-empty answer, the first
    three of its findings are appended to the correlations of the base. *)

Module MergeRule.

Definition risk_fields (severity : gmap string json) : gmap string json :=
  <["severity_justification" := default (JStr "") (severity !! "severity_justification")]> (
  <["immediate_risk" := default (JBool false) (severity !! "immediate_risk")]> (
  <["cascade_risk" := default (JBool false) (severity !! "cascade_risk")]> (
  <["business_impact" := default (JStr "inconnu") (severity !! "business_impact")]> (
  <["time_to_failure" := default (JStr "indéterminé") (severity !! "time_to_failure")]> ∅)))).

Definition override_score (severity base : gmap string json) : gmap string json :=
  match severity !! "severity_score" with
  | Some score => <["severity_score" := score]> base
  | None => base
  end.

Definition with_severity (base : gmap string json) (call2 : option (gmap string json))
  : gmap string json :=
  match call2 with
  | Some severity =>
      if bool_decide (severity = ∅) then base
      else override_score severity (risk_fields severity ∪ base)
  | None => base
  end.

Definition with_correlations (base : gmap string json) (call3 : option (gmap string json))
  (existing findings : list json) : gmap string json :=
  match call3 with
  | Some correlation =>
      if bool_decide (correlation = ∅) then base
      else
        <["correlation_insights" := default (JArr []) (correlation !! "insights")]> (
        <["correlations_found" := JArr (existing ++ take 3 findings)]> base)
  | None => base
  end.

(** The findings of call (3), before they are described. *)
Definition strong_correlations (call3 : option (gmap string json)) : json :=
  match call3 with
  | Some correlation => default (JArr []) (correlation !! "strong_correlations")
  | None => JArr []
  end.

End MergeRule.

(** ** Presence of a setting *)

(** A setting is present when the settings define it with a non-empty
    string. *)
Definition present (settings : gmap string (option string)) (name : string) : bool :=
  truthy_str (getattr_none settings name).

(** * Data of the examples *)

(** The snapshot of the examples: every value under its threshold, every
    service online. *)
Definition quiet_snapshot : InfrastructureMetrics :=
  {| id := 1; cpu_usage := 50 # 1; memory_usage := 40 # 1; latency_ms := 100 # 1;
     disk_usage := 30 # 1; network_in_kbps := 10 # 1; network_out_kbps := 10 # 1;
     io_wait := 5 # 1; thread_count := 100; active_connections := 10;
     error_rate := 0; uptime_seconds := 3600; temperature_celsius := 40 # 1;
     power_consumption_watts := 200 # 1;
     service_status := [("database", "online"); ("api_gateway", "online")];
     is_anomalous := false; analysis_completed := false |}.

(** A snapshot whose eight measured values are exactly the default
    thresholds. *)
Definition at_threshold_snapshot : InfrastructureMetrics :=
  {| id := 2; cpu_usage := 80 # 1; memory_usage := 85 # 1; latency_ms := 500 # 1;
     disk_usage := 90 # 1; network_in_kbps := 10 # 1; network_out_kbps := 10 # 1;
     io_wait := 20 # 1; thread_count := 100; active_connections := 10;
     error_rate := ClassicAnomalyDetector.float_0_05; uptime_seconds := 3600;
     temperature_celsius := 75 # 1; power_consumption_watts := 400 # 1;
     service_status := [("database", "online")];
     is_anomalous := false; analysis_completed := false |}.

(** ** A runtime for the examples

    On the data of the examples these functions agree with the interpreter:
    [strip] removes ASCII blanks and [lower] maps the ASCII capitals, [join]
    concatenates a list of strings, [len] counts the code points of a UTF-8
    text, a float that is a whole number is written with one zero decimal,
    sums and products of floats that need no rounding are exact, the decoder
    knows the replies written below and refuses an integer literal of more
    than 4300 digits, the client constructor accepts what it is given, the
    boolean column accepts a boolean and the texts Django reads as one, the
    integer column an integer. *)

Module Sample.

Definition dquote : string := String (ascii_of_nat 34) EmptyString.

(** ["s"], a JSON string *)
Definition quoted (s : string) : string := dquote +:+ s +:+ dquote.

Fixpoint lstrip (s : string) : string :=
  match s with
  | String c s' => if Ascii.is_space c then lstrip s' else s
  | EmptyString => EmptyString
  end.

Definition ascii_strip (s : string) : string := str_rev (lstrip (str_rev (lstrip s))).

Definition ascii_lower (s : string) : string :=
  string_of_list_ascii
    ((fun c => let n := nat_of_ascii c in
               if (65 <=? n)%nat && (n <=? 90)%nat then ascii_of_nat (n + 32) else c)
       <$> list_ascii_of_string s).

(** The number of code points of a UTF-8 text: its bytes that are not
    continuation bytes. *)
Definition utf8_len (s : string) : Z :=
  Z.of_nat (length (List.filter
                      (fun c => let n := nat_of_ascii c in negb ((128 <=? n)%nat && (n <? 192)%nat))
                      (list_ascii_of_string s))).

Definition join_strings (sep : string) (v : json) : outcome string :=
  match v with
  | JArr l =>
      strs ← mapM (fun x => match x with JStr s => Ok s | _ => Raise TypeError end) l;
      Ok (String.concat sep strs)
  | _ => Raise TypeError
  end.

(** [{"anomalies_detected": {"cpu": true}, "severity_score": 7}] *)
Definition detection_text : string :=
  "{" +:+ quoted "anomalies_detected" +:+ ": {" +:+ quoted "cpu" +:+ ": true}, "
  +:+ quoted "severity_score" +:+ ": 7}".

Definition detection_value : json :=
  JObj (<["anomalies_detected" := JObj (<["cpu" := JBool true]> ∅)]> (
        <["severity_score" := JInt 7]> ∅)).

(** [{"anomalies_detected": {"cpu": true}, "is_critical": "oui"}] *)
Definition detection_oui_text : string :=
  "{" +:+ quoted "anomalies_detected" +:+ ": {" +:+ quoted "cpu" +:+ ": true}, "
  +:+ quoted "is_critical" +:+ ": " +:+ quoted "oui" +:+ "}".

Definition detection_oui_value : json :=
  JObj (<["anomalies_detected" := JObj (<["cpu" := JBool true]> ∅)]> (
        <["is_critical" := JStr "oui"]> ∅)).

(** [{"severity_score": 15}] *)
Definition severity_text : string := "{" +:+ quoted "severity_score" +:+ ": 15}".

Definition severity_value : json := JObj (<["severity_score" := JInt 15]> ∅).

(** [{"priority_level": "low", "recommendations": []}] *)
Definition primary_text : string :=
  "{" +:+ quoted "priority_level" +:+ ": " +:+ quoted "low" +:+ ", "
  +:+ quoted "recommendations" +:+ ": []}".

Definition primary_value : json :=
  JObj (<["priority_level" := JStr "low"]> (<["recommendations" := JArr []]> ∅)).

(** [{"recommendations": [{"title": "Scale out", "priority": "critical"}]}] *)
Definition focused_text : string :=
  "{" +:+ quoted "recommendations" +:+ ": [{" +:+ quoted "title" +:+ ": "
  +:+ quoted "Scale out" +:+ ", " +:+ quoted "priority" +:+ ": " +:+ quoted "critical"
  +:+ "}]}".

Definition focused_value : json :=
  JObj (<["recommendations" :=
            JArr [JObj (<["title" := JStr "Scale out"]> (
                        <["priority" := JStr "critical"]> ∅))]]> ∅).

(** The answers of the three calls in the example of the merge: the base
    has one correlation, call (2) answers the score 15, call (3) answers
    four findings. *)
Definition merge_base : gmap string json :=
  <["anomalies_detected" := JObj (<["cpu" := JBool true]> ∅)]> (
  <["severity_score" := JInt 7]> (
  <["correlations_found" := JArr [JStr "cpu & memory: swap"]]> ∅)).

Definition merge_call2 : gmap string json :=
  <["severity_score" := JInt 15]> (<["immediate_risk" := JBool true]> ∅).

Definition finding (a b why : string) : json :=
  JObj (<["metrics_pair" := JArr [JStr a; JStr b]]> (<["explanation" := JStr why]> ∅)).

Definition merge_items : list json :=
  [finding "cpu" "latency" "load"; finding "disk" "io" "writes";
   finding "memory" "cpu" "gc"; finding "power" "temperature" "fans"].

Definition merge_call3 : gmap string json :=
  <["strong_correlations" := JArr merge_items]> (<["insights" := JArr []]> ∅).

Definition merge_findings : list json :=
  [JStr "cpu & latency: load"; JStr "disk & io: writes"; JStr "memory & cpu: gc";
   JStr "power & temperature: fans"].

(** The three answers as the completion service writes them. *)
Definition pair_text (a b why : string) : string :=
  "{" +:+ quoted "metrics_pair" +:+ ": [" +:+ quoted a +:+ ", " +:+ quoted b +:+ "], "
  +:+ quoted "explanation" +:+ ": " +:+ quoted why +:+ "}".

Definition merge_base_text : string :=
  "{" +:+ quoted "anomalies_detected" +:+ ": {" +:+ quoted "cpu" +:+ ": true}, "
  +:+ quoted "severity_score" +:+ ": 7, "
  +:+ quoted "correlations_found" +:+ ": [" +:+ quoted "cpu & memory: swap" +:+ "]}".

Definition merge_call2_text : string :=
  "{" +:+ quoted "severity_score" +:+ ": 15, " +:+ quoted "immediate_risk" +:+ ": true}".

Definition merge_call3_text : string :=
  "{" +:+ quoted "strong_correlations" +:+ ": ["
  +:+ pair_text "cpu" "latency" "load" +:+ ", " +:+ pair_text "disk" "io" "writes" +:+ ", "
  +:+ pair_text "memory" "cpu" "gc" +:+ ", " +:+ pair_text "power" "temperature" "fans"
  +:+ "], " +:+ quoted "insights" +:+ ": []}".

(** [[1]], a JSON answer that is not an object *)
Definition list_text : string := "[1]".

Definition list_value : json := JArr [JInt 1].

(** [{"anomalies_detected": {"cpu": "True"}, "severity_score": 7}]: the flag
    is a text. *)
Definition detection_text_flag_text : string :=
  "{" +:+ quoted "anomalies_detected" +:+ ": {" +:+ quoted "cpu" +:+ ": "
  +:+ quoted "True" +:+ "}, " +:+ quoted "severity_score" +:+ ": 7}".

Definition detection_text_flag_value : json :=
  JObj (<["anomalies_detected" := JObj (<["cpu" := JStr "True"]> ∅)]> (
        <["severity_score" := JInt 7]> ∅)).


Definition is_digit (c : ascii) : bool :=
  let n := nat_of_ascii c in (48 <=? n)%nat && (n <=? 57)%nat.

Definition over_digit_limit (s : string) : bool :=
  match list_ascii_of_string s with
  | c :: l =>
      is_digit c && negb (Ascii.eqb c "0") && forallb is_digit l
      && (4300 <? length (c :: l))%nat
  | [] => false
  end.

(** The replies the sample decoder knows, with their values. *)
Definition decoded : list (string * json) :=
  [(detection_text, detection_value); (detection_oui_text, detection_oui_value);
   (severity_text, severity_value);
   (primary_text, primary_value); (focused_text, focused_value);
   (merge_base_text, JObj merge_base); (merge_call2_text, JObj merge_call2);
   (merge_call3_text, JObj merge_call3); (list_text, list_value);
   (detection_text_flag_text, detection_text_flag_value)].

(** The texts Django's [BooleanField] reads as a boolean. *)
Definition boolean_text (s : string) : option bool :=
  if bool_decide (s ∈ ["t"; "True"; "1"]) then Some true
  else if bool_decide (s ∈ ["f"; "False"; "0"]) then Some false
  else None.

Definition runtime : runtime :=
  {| json_loads := fun s =>
       match List.find (fun kv => String.eqb kv.1 s) decoded with
       | Some kv => Ok kv.2
       | None => if over_digit_limit s then Raise ValueError else Raise JSONDecodeError
       end;
     str_strip := ascii_strip;
     str_join := join_strings;
     py_str := fun v => match v with JStr s => s | _ => "" end;
     str_chars := fun s => (fun c => String c EmptyString) <$> list_ascii_of_string s;
     str_len := utf8_len;
     str_lower := ascii_lower;
     float_str := fun q => pretty (Qnum q / Z.pos (Qden q)) +:+ ".0";
     float_2f := fun q => pretty (Qnum q / Z.pos (Qden q)) +:+ ".00";
     float_mul100 := fun q => Qred (q * (100 # 1));
     float_add := fun a b => Qred (a + b);
     AzureOpenAI := fun _ _ _ => Ok tt;
     bool_field := fun v =>
       match v with
       | JBool b => Ok b
       | JStr s => match boolean_text s with Some b => Ok b | None => Raise ValidationError end
       | _ => Raise ValidationError
       end;
     int_field := fun v => match v with JInt n => Ok n | _ => Raise ValueError end |}.

(** A store holding the quiet snapshot and no result. *)
Definition db0 : database :=
  {| metrics_table := <[1%nat := quiet_snapshot]> ∅; anomaly_table := [] |}.

(** The severity assessment answers 15; the correlation request fails. *)
Definition replies_15 : replies :=
  {| anomaly_detection_reply := Ok detection_text;
     severity_assessment_reply := Ok severity_text;
     correlation_analysis_reply := Raise OpenAIError |}.

(** The three answers of the example of the merge. *)
Definition replies_merge : replies :=
  {| anomaly_detection_reply := Ok merge_base_text;
     severity_assessment_reply := Ok merge_call2_text;
     correlation_analysis_reply := Ok merge_call3_text |}.

(** The detection answers; the severity assessment answers a list; the
    correlation request fails. *)
Definition replies_list : replies :=
  {| anomaly_detection_reply := Ok detection_text;
     severity_assessment_reply := Ok list_text;
     correlation_analysis_reply := Raise OpenAIError |}.

(** The detection answers the flag of the CPU as a text; the two other
    requests fail. *)
Definition replies_text_flag : replies :=
  {| anomaly_detection_reply := Ok detection_text_flag_text;
     severity_assessment_reply := Raise OpenAIError;
     correlation_analysis_reply := Raise OpenAIError |}.

(** The detection answers a criticality that is not a boolean; the two
    other requests fail. *)
Definition replies_oui : replies :=
  {| anomaly_detection_reply := Ok detection_oui_text;
     severity_assessment_reply := Raise OpenAIError;
     correlation_analysis_reply := Raise OpenAIError |}.

(** A snapshot with the CPU at 96%, and the replies to the two requests of
    the AI generator: the primary answer has priority low and no action,
    the focused answer has one critical action. *)
Definition hot_snapshot : InfrastructureMetrics :=
  {| id := 3; cpu_usage := 96 # 1; memory_usage := 40 # 1; latency_ms := 100 # 1;
     disk_usage := 30 # 1; network_in_kbps := 10 # 1; network_out_kbps := 10 # 1;
     io_wait := 5 # 1; thread_count := 100; active_connections := 10;
     error_rate := 0; uptime_seconds := 3600; temperature_celsius := 40 # 1;
     power_consumption_watts := 200 # 1;
     service_status := [("database", "online")];
     is_anomalous := false; analysis_completed := false |}.

Definition rec_replies_low : rec_replies :=
  {| recommendation_reply := Ok primary_text;
     focused_reply := fun _ => Ok focused_text |}.

(** Settings with an endpoint and a key and no deployment name. *)
Definition settings_no_deployment : gmap string (option string) :=
  <["AZURE_OPENAI_ENDPOINT" := Some "https://example.openai.azure.com"]> (
  <["AZURE_OPENAI_API_KEY" := Some "key"]> (
  <["AZURE_OPENAI_API_VERSION" := Some "2024-02-01"]> ∅)).

(** The configuration of the examples: endpoint, key, deployment and
    version are set, the thresholds are the defaults. *)
Definition cfg : config :=
  {| settings :=
       <["AZURE_OPENAI_ENDPOINT" := Some "https://example.openai.azure.com"]> (
       <["AZURE_OPENAI_API_KEY" := Some "key"]> (
       <["AZURE_OPENAI_DEPLOYMENT_NAME" := Some "gpt-4"]> (
       <["AZURE_OPENAI_API_VERSION" := Some "2024-02-01"]> ∅)));
     ANOMALY_THRESHOLDS := None |}.

(** The store after a first analysis of the quiet snapshot by the threshold
    detector, the result of that analysis, and the snapshot as it is then
    read back. *)
Definition first_analysis : option AnomalyDetection * database :=
  ClassicAnalysis.analyze_metrics runtime ClassicAnomalyDetector.default_thresholds
    no_faults quiet_snapshot db0.

Definition db1 : database := first_analysis.2.

Definition existing : AnomalyDetection :=
  ClassicAnalysis.new_row quiet_snapshot
    (ClassicAnomalyDetector.detect_anomalies ClassicAnomalyDetector.default_thresholds
       quiet_snapshot)
    "Aucune anomalie détectée par analyse classique" 0 "classic".

Definition analyzed_snapshot : InfrastructureMetrics := set_status quiet_snapshot false true.

End Sample.

(** * Notions of the further properties *)

(** ** Actions of the rule-based generator *)

(** The action [generate_recommendations] gives when no rule fired. *)
Definition monitoring_action : recommendation :=
  {| title := "Surveillance continue";
     description := "Infrastructure stable. Maintenir la surveillance proactive des métriques.";
     priority := "low";
     category := "monitoring" |}.

(** No rule of the generator fires on [metrics]. *)
Definition stable (rt : runtime) (metrics : InfrastructureMetrics) : Prop :=
  (cpu_usage metrics < 80 # 1)%Q ∧ (memory_usage metrics < 85 # 1)%Q
  ∧ (disk_usage metrics < 85 # 1)%Q ∧ (latency_ms metrics < 300 # 1)%Q
  ∧ (temperature_celsius metrics < 70 # 1)%Q
  ∧ has_degraded_services metrics = false
  ∧ (float_mul100 rt (error_rate metrics) <= 1 # 1)%Q.

(** What a rule returns, if anything, is above ['low']. *)
Definition fired (rec : option recommendation) : Prop :=
  match rec with
  | Some r => priority r ∈ ["medium"; "high"; "critical"]
  | None => True
  end.

(** The state of the loop of [generate_recommendations] after at most [n]
    rules: the actions recorded are above ['low'], and the level is ['low']
    as long as there is none. *)
Definition tally (n : nat) (acc : list recommendation * string) : Prop :=
  (length acc.1 <= n)%nat
  ∧ Forall (fun r => priority r ∈ ["medium"; "high"; "critical"]) acc.1
  ∧ acc.2 ∈ ClassicRecommendationGenerator.priority_order
  ∧ (acc.2 = "low" ↔ acc.1 = []).

(** ** The results of a snapshot *)

(** The rows of the table of results that belong to the snapshot [i]. *)
Definition rows_of (db : database) (i : nat) : list AnomalyDetection :=
  List.filter (fun r => Nat.eqb (metrics_id r) i) (anomaly_table db).

(** The one-to-one field: no two results belong to the same snapshot. *)
Definition one_to_one (db : database) : Prop :=
  NoDup (metrics_id <$> anomaly_table db).

(** The store in which the write of the status failed after the result of
    the quiet snapshot was written. *)
Definition half_written : database :=
  (ClassicAnalysis.analyze_metrics Sample.runtime ClassicAnomalyDetector.default_thresholds
     {| create_fails := false; save_fails := true |} quiet_snapshot Sample.db0).2.

(** ** Actions added by the enrichment *)

(** An action marked as coming from the focused analysis of [area]. *)
Definition marked (area : string) (action : json) : Prop :=
  ∃ o, action = JObj o ∧ o !! "source" = Some (JStr ("focused_" +:+ area)).

(** * Batches and the information of the selectors *)

(** [results[key] += 1], for a key the initial dict holds *)
Definition py_incr (key : string) (results : gmap string Z) : gmap string Z :=
  <[key := default 0 (results !! key) + 1]> results.

(** ** Batch of the threshold detector (analysis/services/classic/detector.py)

    The queryset is counted and then evaluated once: it is the list of the
    snapshots read.  [analyze_metrics] catches what it raises, so that the
    handler of the loop is not reached.  A write may fail for one snapshot
    and not for another: [fault_of] says which. *)

Module ClassicBatch.

Definition turn (rt : runtime) (thresholds : gmap string Q)
  (fault_of : InfrastructureMetrics -> faults)
  (state : gmap string Z * database) (metrics : InfrastructureMetrics)
  : gmap string Z * database :=
  let '(results, db) := state in
  match ClassicAnalysis.analyze_metrics rt thresholds (fault_of metrics) metrics db with
  | (Some anomaly_detection, db') =>
      let results := py_incr "analyzed" results in
      let results :=
        if 0 <? total_anomalies anomaly_detection
        then py_incr "anomalies_detected" results else results in
      (results, db')
  | (None, db') => (py_incr "errors" results, db')
  end.

Definition analyze_batch_metrics (rt : runtime) (thresholds : gmap string Q)
  (fault_of : InfrastructureMetrics -> faults)
  (metrics_queryset : list InfrastructureMetrics) (db : database)
  : gmap string Z * database :=
  let results : gmap string Z :=
    <["total" := Z.of_nat (length metrics_queryset)]> (
    <["analyzed" := 0]> (
    <["errors" := 0]> (
    <["anomalies_detected" := 0]> ∅))) in
  foldl (turn rt thresholds fault_of) (results, db) metrics_queryset.

End ClassicBatch.

(** ** Batch of the AI detector (analysis/services/llm/detector.py)

    [replies_of] gives the replies of the completion service to the prompts
    built from a snapshot. *)

Module LLMBatch.

Definition turn (rt : runtime) (azure_client : option unit)
  (replies_of : InfrastructureMetrics -> replies)
  (fault_of : InfrastructureMetrics -> faults)
  (state : gmap string Z * database) (metrics : InfrastructureMetrics)
  : gmap string Z * database :=
  let '(results, db) := state in
  match LLMAnomalyDetector.analyze_metrics rt azure_client (replies_of metrics)
          (fault_of metrics) metrics db with
  | (Some anomaly_detection, db') =>
      let results := py_incr "analyzed" results in
      let results :=
        if str_contains "LLM: " (anomaly_summary anomaly_detection)
        then py_incr "llm_available" results else results in
      (results, db')
  | (None, db') => (py_incr "errors" results, db')
  end.

Definition analyze_batch_metrics (rt : runtime) (azure_client : option unit)
  (replies_of : InfrastructureMetrics -> replies)
  (fault_of : InfrastructureMetrics -> faults)
  (metrics_queryset : list InfrastructureMetrics) (db : database)
  : gmap string Z * database :=
  let results : gmap string Z :=
    <["total" := Z.of_nat (length metrics_queryset)]> (
    <["analyzed" := 0]> (
    <["errors" := 0]> (
    <["llm_available" := 0]> ∅))) in
  foldl (turn rt azure_client replies_of fault_of) (results, db) metrics_queryset.

End LLMBatch.

(** ** The selector, continued (analysis/services/services.py) and the
       validation of the method (analysis/filters.py) *)

Module AnomalyDetectionInfo.

(** [analyze_batch_metrics]: delegation to the detector. *)
Definition analyze_batch_metrics (rt : runtime) (svc : service)
  (replies_of : InfrastructureMetrics -> replies)
  (fault_of : InfrastructureMetrics -> faults)
  (metrics_queryset : list InfrastructureMetrics) (db : database)
  : gmap string Z * database :=
  match the_detector svc with
  | Classic thresholds =>
      ClassicBatch.analyze_batch_metrics rt thresholds fault_of metrics_queryset db
  | LLM azure_client =>
      LLMBatch.analyze_batch_metrics rt azure_client replies_of fault_of metrics_queryset db
  end.

(** [is_llm_available]: the threshold detector has no [is_available]. *)
Definition is_llm_available (svc : service) : outcome bool :=
  if String.eqb (method svc) "llm" then
    match the_detector svc with
    | LLM azure_client => Ok (LLMAnalysisEngine.is_available azure_client)
    | Classic _ => Raise AttributeError
    end
  else Ok false.

(** [get_method_info] *)
Definition get_method_info (svc : service) : gmap string json :=
  let info : gmap string json :=
    <["current_method" := JStr (method svc)]> (
    <["detector_class" :=
        JStr (match the_detector svc with
              | Classic _ => "ClassicAnomalyDetector"
              | LLM _ => "LLMAnomalyDetector"
              end)]> ∅) in
  match the_detector svc with
  | LLM azure_client =>
      <["detector_available" := JBool (LLMAnalysisEngine.is_available azure_client)]> info
  | Classic _ => info
  end.

(** [MetricsFilters.validate_analysis_method]: the parameter of the request
    is absent or a string. *)
Definition validate_analysis_method (rt : runtime) (method : option string) : string :=
  if negb (truthy_str method) then "classic"
  else
    let method := default "" method in
    if bool_decide (str_lower rt method ∈ ["classic"; "llm"]) then str_lower rt method
    else "classic".

End AnomalyDetectionInfo.

(** ** Generation strategy selector (recommendations/services.py) *)

Inductive generator : Type :=
| ClassicGenerator
| LLMGenerator (client : option unit).

Module RecommendationService.

Record t : Type := {
  method : string;
  the_generator : generator
}.

(** [__init__] *)
Definition init (rt : runtime) (cfg : config) (method : string) : t :=
  if String.eqb method "classic" then
    {| method := method; the_generator := ClassicGenerator |}
  else if String.eqb method "llm" then
    {| method := method;
       the_generator := LLMGenerator (AzureOpenAIService._initialize_client rt (settings cfg)) |}
  else
    {| method := "classic"; the_generator := ClassicGenerator |}.

(** [generate_recommendation_report]: delegation to the generator.
    [existing] is the result of the snapshot, if it has one. *)
Definition generate_recommendation_report (rt : runtime) (svc : t) (r : rec_replies)
  (write_fails : bool) (metrics : InfrastructureMetrics) (existing : option AnomalyDetection)
  : option RecommendationReport :=
  match the_generator svc with
  | ClassicGenerator => classic_generate_report rt write_fails metrics existing
  | LLMGenerator client => LLMGeneration.generate_report rt client r write_fails metrics existing
  end.

(** [generate_batch_reports].  [generate_report] catches what it raises, so
    that the handler of the loop is not reached. *)
Definition generate_batch_reports (rt : runtime) (svc : t)
  (replies_of : InfrastructureMetrics -> rec_replies)
  (write_fails_of : InfrastructureMetrics -> bool)
  (db : database) (metrics_queryset : list InfrastructureMetrics) : gmap string Z :=
  let results : gmap string Z :=
    <["total" := Z.of_nat (length metrics_queryset)]> (
    <["generated" := 0]> (
    <["errors" := 0]> (
    <["skipped" := 0]> ∅))) in
  foldl (fun results metrics =>
           match generate_recommendation_report rt svc (replies_of metrics)
                   (write_fails_of metrics) metrics (anomaly_detection_of db metrics) with
           | Some report => py_incr "generated" results
           | None => py_incr "errors" results
           end) results metrics_queryset.

(** [is_llm_available]: the rule-based generator has no [is_available]. *)
Definition is_llm_available (svc : t) : outcome bool :=
  if String.eqb (method svc) "llm" then
    match the_generator svc with
    | LLMGenerator client => Ok (AzureOpenAIService.is_available client)
    | ClassicGenerator => Raise AttributeError
    end
  else Ok false.

(** [get_method_info] *)
Definition get_method_info (svc : t) : gmap string json :=
  let info : gmap string json :=
    <["current_method" := JStr (method svc)]> (
    <["generator_class" :=
        JStr (match the_generator svc with
              | ClassicGenerator => "ClassicRecommendationGenerator"
              | LLMGenerator _ => "LLMRecommendationGenerator"
              end)]> ∅) in
  match the_generator svc with
  | LLMGenerator client =>
      <["generator_available" := JBool (AzureOpenAIService.is_available client)]> info
  | ClassicGenerator => info
  end.

End RecommendationService.

(** ** Counters of a batch *)

(** The statistics of a batch: the total, the successes, the failures and
    one more counter under [key]. *)
Definition counts (total done failed : Z) (key : string) (marked_ones : Z) : gmap string Z :=
  <["total" := total]> (
  <["analyzed" := done]> (
  <["errors" := failed]> (
  <[key := marked_ones]> ∅))).

(** How many elements of a list pass a test. *)
Definition count_if {A : Type} (test : A -> bool) (l : list A) : Z :=
  Z.of_nat (length (List.filter test l)).

(** The key of the counter a detector adds to the statistics of a batch. *)
Definition detector_counter (d : detector) : string :=
  match d with
  | Classic _ => "anomalies_detected"
  | LLM _ => "llm_available"
  end.

(** Two snapshots to analyse in one batch, and the store that holds them. *)
Definition batch_queryset : list InfrastructureMetrics :=
  [quiet_snapshot; Sample.hot_snapshot].

Definition batch_db : database :=
  {| metrics_table := <[3%nat := Sample.hot_snapshot]> (<[1%nat := quiet_snapshot]> ∅);
     anomaly_table := [] |}.

(** The statistics after [k] turns of a batch: the successes and the
    failures add up to [k], and the snapshots counted under [key] are among
    the successes. *)
Definition tallied (total : Z) (key : string) (k : nat) (results : gmap string Z) : Prop :=
  ∃ done failed marked_ones,
    results = counts total done failed key marked_ones
    ∧ done + failed = Z.of_nat k ∧ 0 <= marked_ones <= done ∧ 0 <= failed.

(** The threshold detector finds an anomaly in the snapshot. *)
Definition anomalous (thresholds : gmap string Q) (metrics : InfrastructureMetrics) : bool :=
  ClassicAnomalyDetector.any_values (ClassicAnomalyDetector.detect_anomalies thresholds metrics).

(** The statistics of a batch of reports. *)
Definition report_counts (total generated failed : Z) : gmap string Z :=
  <["total" := total]> (
  <["generated" := generated]> (
  <["errors" := failed]> (
  <["skipped" := 0]> ∅))).

(** The method a selector ends up with for the method asked for. *)
Definition selected (method : string) : string :=
  if String.eqb method "llm" then "llm" else "classic".

(** * The other requests of the AI generator, and the view of the reports *)

(** ** Requests of the engine (recommendations/services/llm/engine.py)

    [reply] is what the completion service gives for the prompt built from
    the snapshot and the argument of the request. *)

Module RecommendationEngineRequests.

(** [generate_capacity_planning] *)
Definition generate_capacity_planning (rt : runtime) (client : option unit)
  (reply : outcome string) (projection_days : Z) : option json :=
  if negb (AzureOpenAIService.is_available client) then None
  else
    let body :=
      response ← AzureOpenAIService.call_json_completion rt client reply;
      if truthy_opt response then
        response ← py_setitem (default JNull response) "analysis_type"
                     (JStr "capacity_planning");
        response ← py_setitem response "projection_horizon_days" (JInt projection_days);
        Ok (Some response)
      else Ok None in
    match body with
    | Ok v => v
    | Raise _ => None
    end.

(** [generate_emergency_recommendations] *)
Definition generate_emergency_recommendations (rt : runtime) (client : option unit)
  (reply : outcome string) : option json :=
  if negb (AzureOpenAIService.is_available client) then None
  else
    let body :=
      response ← AzureOpenAIService.call_json_completion rt client reply;
      if truthy_opt response then
        response ← py_setitem (default JNull response) "priority_level" (JStr "critical");
        response ← py_setitem response "analysis_type" (JStr "emergency_response");
        response ← py_setitem response "implementation_timeframe"
                     (JStr "Immédiat (< 30 min)");
        Ok (Some response)
      else Ok None in
    match body with
    | Ok v => v
    | Raise _ => None
    end.

(** [generate_maintenance_plan] *)
Definition generate_maintenance_plan (rt : runtime) (client : option unit)
  (reply : outcome string) (maintenance_window : string) : option json :=
  if negb (AzureOpenAIService.is_available client) then None
  else
    let body :=
      response ← AzureOpenAIService.call_json_completion rt client reply;
      if truthy_opt response then
        response ← py_setitem (default JNull response) "analysis_type"
                     (JStr "maintenance_planning");
        response ← py_setitem response "maintenance_window" (JStr maintenance_window);
        Ok (Some response)
      else Ok None in
    match body with
    | Ok v => v
    | Raise _ => None
    end.

End RecommendationEngineRequests.

(** ** Requests of the generator (recommendations/services/llm/generator.py) *)

Module LLMGeneratorRequests.

Definition _get_focused_fallback (focus_area : string) : gmap string json :=
  <["executive_summary" :=
      JStr ("Analyse " +:+ focus_area +:+ " via méthode classique (LLM indisponible)")]> (
  <["detailed_analysis" := JStr ("Recommandations de base pour " +:+ focus_area)]> (
  <["recommendations" :=
      JArr [JObj (
        <["title" := JStr ("Surveillance " +:+ focus_area)]> (
        <["description" := JStr ("Monitoring renforcé des métriques " +:+ focus_area)]> (
        <["priority" := JStr "medium"]> (
        <["category" := JStr focus_area]> ∅))))]]> (
  <["priority_level" := JStr "medium"]> (
  <["estimated_impact" := JStr "Impact modéré"]> (
  <["implementation_timeframe" := JStr "1 semaine"]> (
  <["focus_area" := JStr focus_area]> (
  <["analysis_type" := JStr "focused_fallback"]> ∅))))))).

Definition _get_capacity_fallback (rt : runtime) (days : Z) : gmap string json :=
  <["executive_summary" :=
      JStr ("Analyse capacité " +:+ py_format rt (JInt days) +:+ " jours (méthode classique)")]> (
  <["detailed_analysis" := JStr "Projection basée sur les métriques actuelles"]> (
  <["recommendations" :=
      JArr [JObj (
        <["title" := JStr "Surveillance capacité"]> (
        <["description" :=
            JStr ("Monitoring des ressources pour projection "
                  +:+ py_format rt (JInt days) +:+ " jours")]> (
        <["priority" := JStr "medium"]> (
        <["category" := JStr "monitoring"]> ∅))))]]> (
  <["priority_level" := JStr "medium"]> (
  <["estimated_impact" := JStr "Prévention saturation ressources"]> (
  <["implementation_timeframe" := JStr (py_format rt (JInt days) +:+ " jours")]> (
  <["analysis_type" := JStr "capacity_fallback"]> (
  <["projection_horizon_days" := JInt days]> ∅))))))).

Definition _get_emergency_fallback (issue : string) : gmap string json :=
  <["executive_summary" := JStr ("Réponse urgence: " +:+ issue)]> (
  <["detailed_analysis" :=
      JStr "Recommandations d'urgence basées sur les métriques critiques"]> (
  <["recommendations" :=
      JArr [JObj (
              <["title" := JStr "Investigation immédiate"]> (
              <["description" := JStr ("Investiguer et résoudre: " +:+ issue)]> (
              <["priority" := JStr "critical"]> (
              <["category" := JStr "emergency"]> ∅))));
            JObj (
              <["title" := JStr "Surveillance renforcée"]> (
              <["description" := JStr "Monitoring continu des métriques critiques"]> (
              <["priority" := JStr "high"]> (
              <["category" := JStr "monitoring"]> ∅))))]]> (
  <["priority_level" := JStr "critical"]> (
  <["estimated_impact" := JStr "Stabilisation système"]> (
  <["implementation_timeframe" := JStr "Immédiat"]> (
  <["analysis_type" := JStr "emergency_fallback"]> ∅)))))).

(** [generate_focused_recommendations] *)
Definition generate_focused_recommendations (rt : runtime) (client : option unit)
  (r : rec_replies) (focus_area : string) : json :=
  if negb (AzureOpenAIService.is_available client) then JObj (_get_focused_fallback focus_area)
  else
    match RecommendationEngine.generate_focused_recommendations rt client r focus_area with
    | Some recommendations =>
        if truthy recommendations then recommendations
        else JObj (_get_focused_fallback focus_area)
    | None => JObj (_get_focused_fallback focus_area)
    end.

(** [generate_capacity_analysis] *)
Definition generate_capacity_analysis (rt : runtime) (client : option unit)
  (reply : outcome string) (projection_days : Z) : json :=
  if negb (AzureOpenAIService.is_available client)
  then JObj (_get_capacity_fallback rt projection_days)
  else
    match RecommendationEngineRequests.generate_capacity_planning rt client reply
            projection_days with
    | Some analysis =>
        if truthy analysis then analysis else JObj (_get_capacity_fallback rt projection_days)
    | None => JObj (_get_capacity_fallback rt projection_days)
    end.

(** [generate_emergency_response] *)
Definition generate_emergency_response (rt : runtime) (client : option unit)
  (reply : outcome string) (critical_issue : string) : json :=
  if negb (AzureOpenAIService.is_available client)
  then JObj (_get_emergency_fallback critical_issue)
  else
    match RecommendationEngineRequests.generate_emergency_recommendations rt client reply with
    | Some recommendations =>
        if truthy recommendations then recommendations
        else JObj (_get_emergency_fallback critical_issue)
    | None => JObj (_get_emergency_fallback critical_issue)
    end.

End LLMGeneratorRequests.

(** ** The single-snapshot generation of the HTTP view (recommendations/views.py)

    The reports are stored one per snapshot: [update_or_create] on the
    snapshot writes the entry of its id. *)

Inductive report_response : Type :=
| MetricsNotAnalyzed
| ReportAlreadyExists (existing : RecommendationReport)
| GenerationSuccess (created : RecommendationReport)
| ReportLlmNotConfigured
| GenerationFailed.

Module RecommendationView.

(** [MetricsFilters.validate_generation_method] (recommendations/filters.py) *)
Definition validate_generation_method (method : option string) : string :=
  match method with
  | Some m => if bool_decide (m ∈ ["classic"; "llm"]) then m else "classic"
  | None => "classic"
  end.

(** [_generate_single_recommendation], from the snapshot loaded by its id on. *)
Definition _generate_single_recommendation (rt : runtime) (cfg : config) (r : rec_replies)
  (write_fails : bool) (metrics : InfrastructureMetrics) (method : string)
  (db : database) (reports : gmap nat RecommendationReport)
  : report_response * gmap nat RecommendationReport :=
  if negb (analysis_completed metrics) then (MetricsNotAnalyzed, reports)
  else
    let generate (reports : gmap nat RecommendationReport) :=
      let recommendation_service := RecommendationService.init rt cfg method in
      match RecommendationService.generate_recommendation_report rt recommendation_service r
              write_fails metrics (anomaly_detection_of db metrics) with
      | None =>
          if String.eqb method "llm" then (ReportLlmNotConfigured, reports)
          else (GenerationFailed, reports)
      | Some report => (GenerationSuccess report, <[id metrics := report]> reports)
      end in
    match reports !! id metrics with
    | Some existing_report =>
        if String.eqb (generation_method existing_report) method
        then (ReportAlreadyExists existing_report, reports)
        else generate (delete (id metrics) reports)
    | None => generate reports
    end.

End RecommendationView.

(** * Properties *)

(** ** Comparisons *)

Lemma Qgt_bool_iff (a b : Q) : Qgt_bool a b = true ↔ (b < a)%Q.
Proof.
  unfold Qgt_bool. rewrite negb_true_iff, <- not_true_iff_false, Qle_bool_iff.
  split; [apply Qnot_le_lt | apply Qlt_not_le].
Qed.

Lemma Qge_bool_iff (a b : Q) : Qge_bool a b = true ↔ (b <= a)%Q.
Proof. unfold Qge_bool. apply Qle_bool_iff. Qed.

(** ** The severity score of the threshold detector *)

Section Score.
Import ClassicAnomalyDetector.

Lemma contribution_insert_ne (anomalies : gmap string bool) (i : string) (x : bool) (key : string) (w : Z) :
  i ≠ key → contribution (<[i := x]> anomalies) key w = contribution anomalies key w.
Proof. intros Hne. unfold contribution. by rewrite lookup_insert_ne. Qed.

Lemma contribution_insert_fresh (anomalies : gmap string bool) (i : string) (x : bool) (w : Z) :
  anomalies !! i = None →
  contribution (<[i := x]> anomalies) i w = contribution anomalies i w + (if x then w else 0).
Proof.
  intros Hnone. unfold contribution. rewrite lookup_insert_eq, Hnone. destruct x; lia.
Qed.

Lemma contribution_bounds (anomalies : gmap string bool) (key : string) (w : Z) :
  0 <= w → 0 <= contribution anomalies key w <= w.
Proof. intros Hw. unfold contribution. destruct (anomalies !! key) as [[]|]; lia. Qed.

Lemma weights_other (i : string) :
  i ≠ "cpu_anomaly" → i ≠ "memory_anomaly" → i ≠ "disk_anomaly" → i ≠ "latency_anomaly" →
  i ≠ "io_anomaly" → i ≠ "error_rate_anomaly" → i ≠ "temperature_anomaly" →
  i ≠ "power_anomaly" → i ≠ "service_anomaly" → weights !! i = None.
Proof.
  intros. unfold weights. by rewrite !lookup_insert_ne, lookup_empty.
Qed.

(** The turn of the loop that visits [key], a key of the table of weights. *)
Ltac visit_key i key :=
  destruct (decide (i = key)) as [->|?];
  [rewrite contribution_insert_fresh, !contribution_insert_ne by done;
   match goal with |- context [weights !! key] =>
     let w := eval vm_compute in (weights !! key) in change (weights !! key) with w
   end;
   match goal with |- context [if ?x then _ else _] => destruct x end; lia|].

(** One turn of the loop adds the contribution of the key it visits. *)
Lemma add_weight_insert (anomalies : gmap string bool) (i : string) (x : bool) :
  anomalies !! i = None →
  add_weight i x (weighted_sum anomalies) = weighted_sum (<[i := x]> anomalies).
Proof.
  intros Hnone. unfold add_weight, weighted_sum.
  visit_key i "cpu_anomaly". visit_key i "memory_anomaly". visit_key i "disk_anomaly".
  visit_key i "latency_anomaly". visit_key i "io_anomaly". visit_key i "error_rate_anomaly".
  visit_key i "temperature_anomaly". visit_key i "power_anomaly".
  visit_key i "service_anomaly".
  rewrite weights_other by done. by rewrite !contribution_insert_ne.
Qed.

Lemma score_loop (anomalies : gmap string bool) :
  map_fold add_weight 0 anomalies = weighted_sum anomalies.
Proof.
  apply (map_fold_weak_ind (fun r m => r = weighted_sum m)).
  - reflexivity.
  - intros i x m r Hnone ->. by apply add_weight_insert.
Qed.

End Score.

Section ScoreClaim.
Import ClassicAnomalyDetector.

Lemma score_is_capped_sum (anomalies : gmap string bool) :
  calculate_severity_score anomalies = Z.min 10 (weighted_sum anomalies).
Proof. unfold calculate_severity_score. rewrite score_loop. apply Z.min_comm. Qed.

Lemma weighted_sum_nonneg (anomalies : gmap string bool) : 0 <= weighted_sum anomalies.
Proof.
  unfold weighted_sum.
  pose proof (contribution_bounds anomalies "disk_anomaly" 3).
  pose proof (contribution_bounds anomalies "error_rate_anomaly" 3).
  pose proof (contribution_bounds anomalies "service_anomaly" 3).
  pose proof (contribution_bounds anomalies "cpu_anomaly" 2).
  pose proof (contribution_bounds anomalies "memory_anomaly" 2).
  pose proof (contribution_bounds anomalies "latency_anomaly" 2).
  pose proof (contribution_bounds anomalies "temperature_anomaly" 2).
  pose proof (contribution_bounds anomalies "io_anomaly" 1).
  pose proof (contribution_bounds anomalies "power_anomaly" 1).
  lia.
Qed.

Lemma score_in_range (anomalies : gmap string bool) :
  0 <= calculate_severity_score anomalies <= 10.
Proof.
  rewrite score_is_capped_sum. pose proof (weighted_sum_nonneg anomalies). lia.
Qed.

(** C5.  For every flag dictionary the score of the threshold detector is
    the minimum of 10 and the sum of the weights of the true flags (3 for
    disk, error rate and service; 2 for cpu, memory, latency and
    temperature; 1 for io and power); so it lies in [0,10], and it is 10
    when the nine flags are true. *)
Theorem severity_score_is_capped_weighted_sum (anomalies : gmap string bool) :
  calculate_severity_score anomalies = Z.min 10 (weighted_sum anomalies)
  ∧ 0 <= calculate_severity_score anomalies <= 10
  ∧ ((∀ key, key ∈ nine_flags → anomalies !! key = Some true) →
     calculate_severity_score anomalies = 10).
Proof.
  split; [apply score_is_capped_sum|]. split; [apply score_in_range|].
  intros Hall. rewrite score_is_capped_sum. unfold weighted_sum, contribution.
  rewrite !Hall by (unfold nine_flags; set_solver). reflexivity.
Qed.

(** The row the threshold detector stores carries a score in [0,10]. *)
Lemma classic_stored_severity_in_range (rt : runtime) (thresholds : gmap string Q)
  (f : faults) (metrics : InfrastructureMetrics) (db : database) (row : AnomalyDetection) :
  (ClassicAnalysis.analyze_metrics rt thresholds f metrics db).1 = Some row →
  0 <= severity_score row <= 10.
Proof.
  unfold ClassicAnalysis.analyze_metrics.
  destruct (objects_create _ _ _) as [db1|]; [|discriminate].
  destruct (metrics_save _ _ _) as [db2|]; [|discriminate].
  intros [= <-]. simpl. apply score_in_range.
Qed.

End ScoreClaim.

(** ** Strict and inclusive comparisons *)

Section Comparisons.
Import ClassicAnomalyDetector ClassicRecommendationGenerator.

Lemma detected_flag (thresholds : gmap string Q) (metrics : InfrastructureMetrics) :
  let flags := detect_anomalies thresholds metrics in
  flags !! "cpu_anomaly"
    = Some (Qgt_bool (cpu_usage metrics) (threshold thresholds "cpu_usage" (80 # 1)))
  ∧ flags !! "memory_anomaly"
    = Some (Qgt_bool (memory_usage metrics) (threshold thresholds "memory_usage" (85 # 1)))
  ∧ flags !! "latency_anomaly"
    = Some (Qgt_bool (latency_ms metrics) (threshold thresholds "latency_ms" (500 # 1)))
  ∧ flags !! "disk_anomaly"
    = Some (Qgt_bool (disk_usage metrics) (threshold thresholds "disk_usage" (90 # 1)))
  ∧ flags !! "io_anomaly"
    = Some (Qgt_bool (io_wait metrics) (threshold thresholds "io_wait" (20 # 1)))
  ∧ flags !! "error_rate_anomaly"
    = Some (Qgt_bool (error_rate metrics) (threshold thresholds "error_rate" float_0_05))
  ∧ flags !! "temperature_anomaly"
    = Some (Qgt_bool (temperature_celsius metrics)
              (threshold thresholds "temperature_celsius" (75 # 1)))
  ∧ flags !! "power_anomaly"
    = Some (Qgt_bool (power_consumption_watts metrics)
              (threshold thresholds "power_consumption_watts" (400 # 1)))
  ∧ flags !! "service_anomaly" = Some (has_degraded_services metrics).
Proof. unfold detect_anomalies. repeat split; by simplify_map_eq. Qed.

Lemma some_true_iff (b : bool) (P : Prop) : (b = true ↔ P) → (Some b = Some true ↔ P).
Proof. intros <-. split; congruence. Qed.

(** A tiered analysis fires from the lower threshold on, that value
    included. *)
Lemma analyze_tier_fires (rules : rule) (value : Q) (lead : string) :
  (high_threshold rules <= critical_threshold rules)%Q →
  is_Some (analyze_tier rules value lead) ↔ (high_threshold rules <= value)%Q.
Proof.
  intros Hle. unfold analyze_tier.
  destruct (Qge_bool value (critical_threshold rules)) eqn:Hc.
  - apply Qge_bool_iff in Hc. split; [intros _; by eapply Qle_trans|eauto].
  - destruct (Qge_bool value (high_threshold rules)) eqn:Hh.
    + apply Qge_bool_iff in Hh. split; eauto.
    + split; [by intros [? ?]|]. intros Hv. apply Qge_bool_iff in Hv. congruence.
Qed.

(** C10.  Each of the eight numeric flags of the threshold detector is true
    exactly when the measured value is strictly greater than its threshold,
    so a snapshot whose values equal the thresholds raises none of them;
    the tiered rules of the rule-based generator fire from the threshold on,
    that value included. *)
Theorem detector_strict_generator_inclusive (rt : runtime) (thresholds : gmap string Q)
  (metrics : InfrastructureMetrics) :
  let flags := detect_anomalies thresholds metrics in
  (flags !! "cpu_anomaly" = Some true
     ↔ (threshold thresholds "cpu_usage" (80 # 1) < cpu_usage metrics)%Q)
  ∧ (flags !! "memory_anomaly" = Some true
     ↔ (threshold thresholds "memory_usage" (85 # 1) < memory_usage metrics)%Q)
  ∧ (flags !! "latency_anomaly" = Some true
     ↔ (threshold thresholds "latency_ms" (500 # 1) < latency_ms metrics)%Q)
  ∧ (flags !! "disk_anomaly" = Some true
     ↔ (threshold thresholds "disk_usage" (90 # 1) < disk_usage metrics)%Q)
  ∧ (flags !! "io_anomaly" = Some true
     ↔ (threshold thresholds "io_wait" (20 # 1) < io_wait metrics)%Q)
  ∧ (flags !! "error_rate_anomaly" = Some true
     ↔ (threshold thresholds "error_rate" float_0_05 < error_rate metrics)%Q)
  ∧ (flags !! "temperature_anomaly" = Some true
     ↔ (threshold thresholds "temperature_celsius" (75 # 1) < temperature_celsius metrics)%Q)
  ∧ (flags !! "power_anomaly" = Some true
     ↔ (threshold thresholds "power_consumption_watts" (400 # 1)
          < power_consumption_watts metrics)%Q)
  ∧ (∀ key, key ∈ nine_flags →
       detect_anomalies default_thresholds at_threshold_snapshot !! key = Some false)
  ∧ (is_Some (_analyze_cpu rt (cpu_usage metrics)) ↔ (80 # 1 <= cpu_usage metrics)%Q)
  ∧ (is_Some (_analyze_memory rt (memory_usage metrics)) ↔ (85 # 1 <= memory_usage metrics)%Q)
  ∧ (is_Some (_analyze_disk rt (disk_usage metrics)) ↔ (85 # 1 <= disk_usage metrics)%Q)
  ∧ (is_Some (_analyze_latency rt (latency_ms metrics)) ↔ (300 # 1 <= latency_ms metrics)%Q)
  ∧ (is_Some (_analyze_temperature rt (temperature_celsius metrics))
     ↔ (70 # 1 <= temperature_celsius metrics)%Q)
  ∧ priority <$> _analyze_cpu rt (80 # 1) = Some "high"
  ∧ priority <$> _analyze_cpu rt (95 # 1) = Some "critical".
Proof.
  cbv zeta.
  destruct (detected_flag thresholds metrics)
    as (-> & -> & -> & -> & -> & -> & -> & -> & _).
  repeat match goal with |- _ ∧ _ => split end;
    try (apply some_true_iff, Qgt_bool_iff);
    try (by apply analyze_tier_fires);
    try reflexivity.
  intros key Hkey. unfold nine_flags in Hkey.
  repeat (apply elem_of_cons in Hkey as [-> | Hkey]; [reflexivity|]).
  by apply elem_of_nil in Hkey.
Qed.

End Comparisons.

(** ** The CPU rule *)

Section CpuRule.
Import ClassicRecommendationGenerator.

(** C8.  With CPU usage 96% the CPU rule yields the critical action and
    not the high one, with 82% the high action, with 50% none: the critical
    tier is tested before the high tier, and from the critical threshold on
    the critical action is the one returned. *)
Theorem cpu_rule_tiers (rt : runtime) :
  _analyze_cpu rt (96 # 1)
    = Some {| title := "CPU critique - Action immédiate";
              description := ("CPU à " +:+ float_str rt (96 # 1) +:+ "%. ")
                +:+ "Usage CPU critique. Intervention immédiate requise pour éviter la dégradation.";
              priority := "critical";
              category := "performance" |}
  ∧ _analyze_cpu rt (82 # 1)
    = Some {| title := "Optimisation CPU";
              description := ("CPU à " +:+ float_str rt (82 # 1) +:+ "%. ")
                +:+ "Usage CPU élevé détecté. Considérer l'ajout de ressources ou l'optimisation des processus.";
              priority := "high";
              category := "performance" |}
  ∧ _analyze_cpu rt (50 # 1) = None
  ∧ ∀ cpu_usage : Q,
      priority <$> _analyze_cpu rt cpu_usage
      = if Qge_bool cpu_usage (95 # 1) then Some "critical"
        else if Qge_bool cpu_usage (80 # 1) then Some "high"
        else None.
Proof.
  repeat match goal with |- _ ∧ _ => split end.
  - reflexivity.
  - reflexivity.
  - reflexivity.
  - intros cpu_usage. unfold _analyze_cpu, analyze_tier.
    change (critical_threshold rules_cpu) with (95 # 1).
    change (high_threshold rules_cpu) with (80 # 1).
    by repeat case_match.
Qed.

End CpuRule.

(** ** The three tiers of the response parser *)

Section Parser.
Import AzureOpenAIService.





End Parser.

(** ** The severity stored by the AI detector *)

(** C2.  The severity the AI detector stores is the one the severity
    assessment answers, whatever it is: with the answer 15 the result
    returned and the row stored carry 15, outside [0,10]. *)
Theorem llm_severity_stored_unclamped :
  let '(result, db') :=
    LLMAnomalyDetector.analyze_metrics Sample.runtime (Some tt) Sample.replies_15
      no_faults quiet_snapshot Sample.db0 in
  severity_score <$> result = Some 15
  ∧ severity_score <$> anomaly_table db' = [15]
  ∧ analysis_method <$> result = Some "llm".
Proof. vm_compute. repeat split. Qed.

(** ** Writes of one analysis *)

(** Splits on the outcome that heads a chain of binds in [H]. *)
Ltac bind_inv H :=
  repeat match type of H with
         | (mbind _ ?x) = _ =>
             let E := fresh "E" in
             destruct x eqn:E; simpl in H; [|discriminate H]
         | (match ?x with Ok _ => _ | Raise _ => _ end) = _ =>
             let E := fresh "E" in
             destruct x eqn:E; simpl in H; [|discriminate H]
         end.

Lemma stored_status_saved (f : faults) (metrics : InfrastructureMetrics)
  (anomalous : bool) (db db' : database) :
  metrics_save f (set_status metrics anomalous true) db = Ok db' →
  stored_status db' (id metrics) = Some (anomalous, true)
  ∧ anomaly_table db' = anomaly_table db.
Proof.
  unfold metrics_save. destruct (save_fails f); [discriminate|].
  intros [= <-]. unfold stored_status. simpl. by rewrite lookup_insert_eq.
Qed.

Lemma objects_create_appends (f : faults) (row : AnomalyDetection) (db db' : database) :
  objects_create f row db = Ok db' →
  metrics_table db' = metrics_table db ∧ anomaly_table db' = anomaly_table db ++ [row].
Proof.
  unfold objects_create. destruct (create_fails f); [discriminate|].
  destruct (existsb _ _); [discriminate|]. by intros [= <-].
Qed.

Lemma classic_two_step (rt : runtime) (thresholds : gmap string Q) (f : faults)
  (metrics : InfrastructureMetrics) (db : database) :
  two_step_outcome metrics db (ClassicAnalysis.analyze_metrics rt thresholds f metrics db).
Proof.
  unfold ClassicAnalysis.analyze_metrics, two_step_outcome.
  destruct (objects_create _ _ _) as [db1|] eqn:Hcreate; simpl; [|by auto].
  apply objects_create_appends in Hcreate as [Hm Ha].
  destruct (metrics_save _ _ _) as [db2|] eqn:Hsave; simpl.
  - apply stored_status_saved in Hsave as [Hs Ha2].
    split; [reflexivity|]. split; [congruence|]. eauto.
  - split; [done|]. right. eexists. split; [|done]. reflexivity.
Qed.

Lemma llm_new_row_id (rt : runtime) (metrics : InfrastructureMetrics)
  (model_anomalies : gmap string json) (summary : string) (score : json)
  (row : AnomalyDetection) :
  LLMAnomalyDetector.new_row rt metrics model_anomalies summary score = Ok row →
  metrics_id row = id metrics.
Proof.
  unfold LLMAnomalyDetector.new_row. intros H. bind_inv H. by injection H as <-.
Qed.

Lemma llm_two_step (rt : runtime) (azure_client : option unit) (r : replies) (f : faults)
  (metrics : InfrastructureMetrics) (db : database) :
  two_step_outcome metrics db
    (LLMAnomalyDetector.analyze_metrics rt azure_client r f metrics db).
Proof.
  unfold LLMAnomalyDetector.analyze_metrics, two_step_outcome.
  destruct (LLMAnomalyDetector.detect_anomalies _ _ _) as [llm_analysis|]; simpl; [|by auto].
  destruct (truthy llm_analysis); simpl; [|by auto].
  match goal with |- context [match ?p with Ok _ => _ | Raise _ => _ end] =>
    destruct p as [[model_anomalies row]|] eqn:Hprep end; simpl; [|by auto].
  assert (Hid : metrics_id row = id metrics).
  { bind_inv Hprep. injection Hprep as <- <-. by eapply llm_new_row_id. }
  destruct (objects_create _ _ _) as [db1|] eqn:Hcreate; simpl; [|by auto].
  apply objects_create_appends in Hcreate as [Hm Ha].
  match goal with |- context [match ?p with Ok _ => _ | Raise _ => _ end] =>
    destruct p as [db2|] eqn:Hsave end; simpl.
  - bind_inv Hsave. apply stored_status_saved in Hsave as [Hs Ha2].
    split; [done|]. split; [congruence|]. eauto.
  - split; [done|]. right. eauto.
Qed.

(** C3, as the code has it.  The detector writes the result first and the
    status of the snapshot second, each write committed on its own: a
    result returned means both are stored; [None] returned means the stored
    status is untouched, and the results too unless the row was already
    written when the failure came, in which case it stays. *)
Theorem analyze_writes_result_then_status (rt : runtime) (svc : service) (r : replies)
  (f : faults) (metrics : InfrastructureMetrics) (db : database) :
  two_step_outcome metrics db (AnomalyDetectionService.analyze_metrics rt svc r f metrics db).
Proof.
  unfold AnomalyDetectionService.analyze_metrics.
  destruct (the_detector svc); [apply classic_two_step | apply llm_two_step].
Qed.

(** C3, as stated, fails: when the save of the status fails, the row of the
    result is in the store, the stored status of the snapshot is unset and
    the caller gets [None]. *)
Lemma analyze_leaves_result_without_status :
  let '(result, db') :=
    ClassicAnalysis.analyze_metrics Sample.runtime ClassicAnomalyDetector.default_thresholds
      {| create_fails := false; save_fails := true |} quiet_snapshot Sample.db0 in
  result = None
  ∧ metrics_id <$> anomaly_table db' = [id quiet_snapshot]
  ∧ stored_status db' (id quiet_snapshot) = Some (false, false).
Proof. vm_compute. repeat split. Qed.

(** The AI detector needs no failing write for that: a criticality that the
    boolean column refuses is assigned after the row of the result is
    written. *)
Lemma llm_analyze_leaves_result_without_status :
  let '(result, db') :=
    LLMAnomalyDetector.analyze_metrics Sample.runtime (Some tt) Sample.replies_oui
      no_faults quiet_snapshot Sample.db0 in
  result = None
  ∧ metrics_id <$> anomaly_table db' = [id quiet_snapshot]
  ∧ stored_status db' (id quiet_snapshot) = Some (false, false).
Proof. vm_compute. repeat split. Qed.

(** ** Analysing a snapshot that has a result *)

Lemma existing_row_blocks_create (f : faults) (metrics : InfrastructureMetrics)
  (db : database) (existing row : AnomalyDetection) :
  anomaly_detection_of db metrics = Some existing →
  metrics_id row = id metrics →
  ∃ e, objects_create f row db = Raise e.
Proof.
  unfold anomaly_detection_of, objects_create. intros Hfind Hid.
  destruct (create_fails f); [by eexists|].
  apply find_some in Hfind as [Hin Heq].
  assert (Hex : existsb (fun r => Nat.eqb (metrics_id r) (metrics_id row)) (anomaly_table db)
                = true).
  { apply existsb_exists. exists existing. by rewrite Hid. }
  rewrite Hex. by eexists.
Qed.

Lemma classic_reanalysis (rt : runtime) (thresholds : gmap string Q) (f : faults)
  (metrics : InfrastructureMetrics) (db : database) (existing : AnomalyDetection) :
  anomaly_detection_of db metrics = Some existing →
  ClassicAnalysis.analyze_metrics rt thresholds f metrics db = (None, db).
Proof.
  intros Hfind. unfold ClassicAnalysis.analyze_metrics.
  edestruct (existing_row_blocks_create f metrics db existing) as [e ->]; [done| |done].
  reflexivity.
Qed.

Lemma llm_reanalysis (rt : runtime) (azure_client : option unit) (r : replies) (f : faults)
  (metrics : InfrastructureMetrics) (db : database) (existing : AnomalyDetection) :
  anomaly_detection_of db metrics = Some existing →
  LLMAnomalyDetector.analyze_metrics rt azure_client r f metrics db = (None, db).
Proof.
  intros Hfind. unfold LLMAnomalyDetector.analyze_metrics.
  destruct (LLMAnomalyDetector.detect_anomalies _ _ _) as [llm_analysis|]; [|done].
  destruct (truthy llm_analysis); simpl; [|done].
  match goal with |- context [match ?p with Ok _ => _ | Raise _ => _ end] =>
    destruct p as [[model_anomalies row]|] eqn:Hprep end; [|done].
  assert (Hid : metrics_id row = id metrics).
  { bind_inv Hprep. injection Hprep as <- <-. by eapply llm_new_row_id. }
  by edestruct (existing_row_blocks_create f metrics db existing row) as [e ->].
Qed.




(** ** The merge of the three analyses *)

Section Merge.
Import LLMAnomalyDetector MergeRule.

Lemma merge_severity_rule (base : gmap string json) (call2 : option (gmap string json)) :
  merge_severity (JObj base) (JObj <$> call2) = Ok (JObj (with_severity base call2)).
Proof.
  destruct call2 as [severity|]; [|reflexivity].
  unfold merge_severity, with_severity, override_score. simpl.
  destruct (bool_decide (severity = ∅)); simpl; [reflexivity|].
  by destruct (severity !! "severity_score").
Qed.

(** The severity branch leaves the correlations of the base alone. *)
Lemma with_severity_correlations (base : gmap string json)
  (call2 : option (gmap string json)) :
  with_severity base call2 !! "correlations_found" = base !! "correlations_found".
Proof.
  destruct call2 as [severity|]; [|reflexivity]. unfold with_severity, override_score.
  destruct (bool_decide (severity = ∅)); [reflexivity|].
  assert (Hrisk : (risk_fields severity ∪ base) !! "correlations_found"
                  = base !! "correlations_found").
  { apply lookup_union_r. unfold risk_fields. by simplify_map_eq. }
  destruct (severity !! "severity_score"); [by rewrite lookup_insert_ne|done].
Qed.

Lemma merge_severity_shape (base : gmap string json) (severity_analysis : option json)
  (call2 : option (gmap string json)) :
  severity_analysis = JObj <$> call2
  ∨ (call2 = None ∧ truthy_opt severity_analysis = false) →
  merge_severity (JObj base) severity_analysis = Ok (JObj (with_severity base call2)).
Proof.
  intros [-> | [-> Hfalsy]]; [apply merge_severity_rule|].
  destruct severity_analysis as [v|]; [|reflexivity].
  unfold merge_severity. simpl in Hfalsy. by rewrite Hfalsy.
Qed.

Lemma merge_correlations_absent (rt : runtime) (complete_analysis : json)
  (correlation_analysis : option json) :
  truthy_opt correlation_analysis = false →
  merge_correlations rt complete_analysis correlation_analysis = Ok complete_analysis.
Proof.
  destruct correlation_analysis as [v|]; [|reflexivity].
  unfold merge_correlations. simpl. by intros ->.
Qed.

Lemma merge_correlations_present (rt : runtime) (complete call3 : gmap string json)
  (existing items findings : list json) :
  call3 ≠ ∅ →
  default (JArr []) (complete !! "correlations_found") = JArr existing →
  py_iter rt (strong_correlations (Some call3)) = Ok items →
  mapM (correlation_desc rt) items = Ok findings →
  merge_correlations rt (JObj complete) (Some (JObj call3))
  = Ok (JObj (with_correlations complete (Some call3) existing findings)).
Proof.
  intros Hne Hexisting Hiter Hdesc.
  unfold merge_correlations, with_correlations. simpl in *.
  rewrite bool_decide_eq_false_2 by done. simpl.
  rewrite Hexisting, Hiter. simpl. rewrite Hdesc. reflexivity.
Qed.

Lemma merge_severity_raises (complete_analysis v : json) :
  truthy v = true → (∀ m, v ≠ JObj m) →
  merge_severity complete_analysis (Some v) = Raise AttributeError.
Proof.
  intros Htruthy Hshape. unfold merge_severity. rewrite Htruthy.
  destruct v as [| | | | | |m]; try reflexivity. by destruct (Hshape m).
Qed.

Lemma merge_correlations_raises (rt : runtime) (complete_analysis v : json) :
  truthy v = true → (∀ m, v ≠ JObj m) →
  ∃ e, merge_correlations rt complete_analysis (Some v) = Raise e.
Proof.
  intros Htruthy Hshape. unfold merge_correlations. rewrite Htruthy.
  destruct (py_get complete_analysis "correlations_found" (JArr [])) as [existing|e];
    [|by exists e].
  cbn [mbind outcome_bind].
  destruct v as [| | | | | |m]; try (by exists AttributeError). by destruct (Hshape m).
Qed.

(** C6, as the code has it.  When call (1) gave a non-empty dict, the base,
    the detector returns:
    - when the answers of calls (2) and (3) are dicts or count as absent
      (no answer, or an empty one): the base with the risk fields of call
      (2) and its severity score, if it has one, in place of that of the
      base, and, when call (3) answered, with the first three of its
      findings appended to the correlations of the base;
    - nothing at all, the base included, when call (2) or call (3) gave a
      non-empty answer that is not a dict, or when call (3) answered and the
      correlations of the base are not a list or a finding cannot be
      described.
    An absent answer of call (2) adds nothing to the base, and the fields
    the two calls do not write are those of the base. *)
Theorem detect_anomalies_merge_rule (rt : runtime) (azure_client : option unit)
  (r : replies) (base : gmap string json) :
  LLMAnalysisEngine.call_llm_analysis rt azure_client (anomaly_detection_reply r)
    = Some (JObj base) →
  base ≠ ∅ →
  let severity_analysis :=
    LLMAnalysisEngine.call_llm_analysis rt azure_client (severity_assessment_reply r) in
  let correlation_analysis :=
    LLMAnalysisEngine.call_llm_analysis rt azure_client (correlation_analysis_reply r) in
  let shaped (answer : option json) (call : option (gmap string json)) :=
    answer = JObj <$> call ∨ (call = None ∧ truthy_opt answer = false) in
  (∀ call2, shaped severity_analysis call2 →
     truthy_opt correlation_analysis = false →
     detect_anomalies rt azure_client r = Some (JObj (with_severity base call2)))
  ∧ (∀ call2 call3 existing items findings,
       shaped severity_analysis call2 →
       correlation_analysis = Some (JObj call3) → call3 ≠ ∅ →
       default (JArr []) (base !! "correlations_found") = JArr existing →
       py_iter rt (strong_correlations (Some call3)) = Ok items →
       mapM (correlation_desc rt) items = Ok findings →
       detect_anomalies rt azure_client r
       = Some (JObj (with_correlations (with_severity base call2) (Some call3)
                       existing findings)))
  ∧ (∀ v, severity_analysis = Some v → truthy v = true → (∀ m, v ≠ JObj m) →
       detect_anomalies rt azure_client r = None)
  ∧ (∀ v, correlation_analysis = Some v → truthy v = true → (∀ m, v ≠ JObj m) →
       detect_anomalies rt azure_client r = None)
  ∧ (∀ call2 call3, shaped severity_analysis call2 →
       correlation_analysis = Some (JObj call3) → call3 ≠ ∅ →
       (∀ existing, default (JArr []) (base !! "correlations_found") ≠ JArr existing)
       ∨ (∃ e, (items ← py_iter rt (strong_correlations (Some call3));
                mapM (correlation_desc rt) items) = Raise e) →
       detect_anomalies rt azure_client r = None)
  ∧ with_severity base None = base
  ∧ (∀ severity score, severity !! "severity_score" = Some score →
       with_severity base (Some severity) !! "severity_score" = Some score)
  ∧ (∀ severity, severity ≠ ∅ →
       risk_fields severity ⊆ with_severity base (Some severity))
  ∧ (∀ call2 correlation existing findings, correlation ≠ ∅ →
       with_correlations (with_severity base call2) (Some correlation) existing findings
         !! "correlations_found" = Some (JArr (existing ++ take 3 findings))
       ∧ (length (take 3 findings) <= 3)%nat)
  ∧ (∀ call2 call3 existing findings key,
       key ∉ ["severity_justification"; "immediate_risk"; "cascade_risk";
              "business_impact"; "time_to_failure"; "severity_score";
              "correlations_found"; "correlation_insights"] →
       with_correlations (with_severity base call2) call3 existing findings !! key
       = base !! key).
Proof.
  intros Hbase Hne. cbv zeta.
  assert (Hdetect : detect_anomalies rt azure_client r
            = match _merge_llm_analyses rt (JObj base)
                      (LLMAnalysisEngine.call_llm_analysis rt azure_client
                         (severity_assessment_reply r))
                      (LLMAnalysisEngine.call_llm_analysis rt azure_client
                         (correlation_analysis_reply r)) with
              | Ok complete_analysis => Some complete_analysis
              | Raise _ => None
              end).
  { unfold detect_anomalies. destruct azure_client as [c|]; [|discriminate Hbase].
    cbn [LLMAnalysisEngine.is_available negb]. rewrite Hbase. cbn [truthy].
    by rewrite bool_decide_eq_false_2 by done. }
  rewrite Hdetect. clear Hdetect Hbase.
  generalize (LLMAnalysisEngine.call_llm_analysis rt azure_client
                (severity_assessment_reply r)).
  generalize (LLMAnalysisEngine.call_llm_analysis rt azure_client
                (correlation_analysis_reply r)).
  intros correlation_analysis severity_analysis.
  unfold _merge_llm_analyses. cbn [py_copy mbind outcome_bind].
  repeat match goal with |- _ ∧ _ => split end.
  - intros call2 Hshape Habsent. rewrite (merge_severity_shape _ _ _ Hshape).
    cbn [mbind outcome_bind]. by rewrite merge_correlations_absent.
  - intros call2 call3 existing items findings Hshape -> Hne3 Hexisting Hiter Hdesc.
    rewrite (merge_severity_shape _ _ _ Hshape). cbn [mbind outcome_bind].
    rewrite (merge_correlations_present rt _ call3 existing items findings); try done.
    by rewrite with_severity_correlations.
  - intros v -> Htruthy Hshape. by rewrite merge_severity_raises.
  - intros v -> Htruthy Hshape.
    destruct (merge_severity (JObj base) severity_analysis) as [complete|e]; [|done].
    cbn [mbind outcome_bind].
    destruct (merge_correlations_raises rt complete v Htruthy Hshape) as [e ->]. done.
  - intros call2 call3 Hshape -> Hne3 Hbad.
    rewrite (merge_severity_shape _ _ _ Hshape). cbn [mbind outcome_bind].
    unfold merge_correlations. cbn [truthy]. rewrite bool_decide_eq_false_2 by done.
    cbn [negb py_get mbind outcome_bind]. rewrite with_severity_correlations.
    change (default (JArr []) (call3 !! "strong_correlations"))
      with (strong_correlations (Some call3)).
    destruct Hbad as [Hexisting | [e Hitems]].
    + destruct (py_iter rt _) as [items|e]; [|done]. cbn [mbind outcome_bind].
      destruct (mapM _ items) as [findings|e]; [|done]. cbn [mbind outcome_bind].
      destruct (default (JArr []) (base !! "correlations_found")) as [| | | | |existing|m];
        try done.
      by destruct (Hexisting existing).
    + destruct (py_iter rt _) as [items|e']; [|done]. cbn [mbind outcome_bind] in Hitems |- *.
      by rewrite Hitems.
  - reflexivity.
  - intros severity score Hscore. unfold with_severity, override_score.
    assert (Hne2 : severity ≠ ∅) by (intros ->; by rewrite lookup_empty in Hscore).
    rewrite bool_decide_eq_false_2 by done. rewrite Hscore. apply lookup_insert_eq.
  - intros severity Hne2. unfold with_severity, override_score.
    rewrite bool_decide_eq_false_2 by done.
    destruct (severity !! "severity_score").
    + apply map_subseteq_spec. intros key value Hkey.
      destruct (decide (key = "severity_score")) as [->|Hother].
      * unfold risk_fields in Hkey. by simplify_map_eq.
      * rewrite lookup_insert_ne by done. by apply lookup_union_Some_l.
    + apply map_union_subseteq_l.
  - intros call2 correlation existing findings Hne3. split.
    + unfold with_correlations. rewrite bool_decide_eq_false_2 by done. by simplify_map_eq.
    + rewrite length_take. lia.
  - intros call2 call3 existing findings key Hkey.
    repeat (apply not_elem_of_cons in Hkey as [? Hkey]).
    assert (Hsev : with_severity base call2 !! key = base !! key).
    { destruct call2 as [severity|]; [|reflexivity]. unfold with_severity, override_score.
      destruct (bool_decide (severity = ∅)); [reflexivity|].
      assert (Hrisk : (risk_fields severity ∪ base) !! key = base !! key).
      { apply lookup_union_r. unfold risk_fields. by simplify_map_eq. }
      destruct (severity !! "severity_score"); [by rewrite lookup_insert_ne|done]. }
    destruct call3 as [correlation|]; [|exact Hsev]. unfold with_correlations.
    destruct (bool_decide (correlation = ∅)); [exact Hsev|].
    by rewrite !lookup_insert_ne.
Qed.

(** The three answers of the example: a base with one correlation, a
    severity assessment that answers 15 and a correlation analysis with four
    findings, of which three are kept. *)
Lemma detect_anomalies_merge_rule_witness :
  detect_anomalies Sample.runtime (Some tt) Sample.replies_merge
  = Some (JObj (with_correlations (with_severity Sample.merge_base (Some Sample.merge_call2))
                  (Some Sample.merge_call3) [JStr "cpu & memory: swap"]
                  Sample.merge_findings)).
Proof.
  refine (proj1 (proj2 (detect_anomalies_merge_rule Sample.runtime (Some tt)
                          Sample.replies_merge Sample.merge_base eq_refl _))
            (Some Sample.merge_call2) Sample.merge_call3 [JStr "cpu & memory: swap"]
            Sample.merge_items Sample.merge_findings (or_introl eq_refl) eq_refl _
            eq_refl eq_refl eq_refl).
  - intros Hempty. apply (f_equal (fun m => m !! "severity_score")) in Hempty.
    vm_compute in Hempty. discriminate Hempty.
  - intros Hempty. apply (f_equal (fun m => m !! "insights")) in Hempty.
    vm_compute in Hempty. discriminate Hempty.
Defined.

(** C6, as stated, fails: call (1) answers a detection with the score 7,
    call (2) answers the JSON list [[1]], call (3) fails.  The merge raises
    on the list and the detector returns nothing: the base is lost. *)
Lemma ill_shaped_answer_loses_base :
  LLMAnalysisEngine.call_llm_analysis Sample.runtime (Some tt)
    (anomaly_detection_reply Sample.replies_list) = Some Sample.detection_value
  ∧ LLMAnalysisEngine.call_llm_analysis Sample.runtime (Some tt)
      (severity_assessment_reply Sample.replies_list) = Some Sample.list_value
  ∧ LLMAnalysisEngine.call_llm_analysis Sample.runtime (Some tt)
      (correlation_analysis_reply Sample.replies_list) = None
  ∧ _merge_llm_analyses Sample.runtime Sample.detection_value (Some Sample.list_value) None
    = Raise AttributeError
  ∧ detect_anomalies Sample.runtime (Some tt) Sample.replies_list = None.
Proof. vm_compute. repeat split. Qed.

End Merge.

(** ** The overall priority of a report *)

Section Priority.
Import ClassicRecommendationGenerator.

Lemma priority_order_cases (p : string) :
  p ∈ priority_order → p = "low" ∨ p = "medium" ∨ p = "high" ∨ p = "critical".
Proof.
  unfold priority_order. intros Hp.
  repeat (apply elem_of_cons in Hp as [-> | Hp]; [tauto|]).
  by apply elem_of_nil in Hp.
Qed.

Lemma update_priority_max (current new : string) :
  current ∈ priority_order → new ∈ priority_order →
  _update_priority current new ∈ priority_order
  ∧ priority_rank (_update_priority current new)
    = Nat.max (priority_rank current) (priority_rank new).
Proof.
  intros Hc Hn.
  apply priority_order_cases in Hc as [-> | [-> | [-> | ->]]];
    apply priority_order_cases in Hn as [-> | [-> | [-> | ->]]];
    (split; [vm_compute; set_solver | reflexivity]).
Qed.

Lemma max_rank_snoc (ps : list string) (p : string) :
  max_rank (ps ++ [p]) = Nat.max (max_rank ps) (priority_rank p).
Proof.
  unfold max_rank. induction ps as [|q ps IH]; simpl; [lia|]. rewrite IH. lia.
Qed.

Lemma analyze_tier_levelled (rules : rule) (value : Q) (lead : string) :
  priority (high rules) ∈ priority_order →
  priority (critical rules) ∈ priority_order →
  levelled (analyze_tier rules value lead).
Proof.
  intros Hh Hc. unfold analyze_tier.
  destruct (Qge_bool value (critical_threshold rules)); [done|].
  by destruct (Qge_bool value (high_threshold rules)).
Qed.

Lemma rules_levelled (rt : runtime) (metrics : InfrastructureMetrics) :
  levelled (_analyze_cpu rt (cpu_usage metrics))
  ∧ levelled (_analyze_memory rt (memory_usage metrics))
  ∧ levelled (_analyze_disk rt (disk_usage metrics))
  ∧ levelled (_analyze_latency rt (latency_ms metrics))
  ∧ levelled (_analyze_temperature rt (temperature_celsius metrics))
  ∧ levelled (_analyze_services metrics)
  ∧ levelled (_analyze_errors rt (error_rate metrics)).
Proof.
  repeat match goal with |- _ ∧ _ => split end;
    try (apply analyze_tier_levelled; vm_compute; set_solver).
  - unfold _analyze_services. case_match; [|done]. vm_compute. set_solver.
  - unfold _analyze_errors. repeat case_match; try done; vm_compute; set_solver.
Qed.

Lemma record_rec_recorded (acc : list recommendation * string)
  (rec : option recommendation) :
  recorded acc → levelled rec → recorded (record_rec acc rec).
Proof.
  intros [Hin Hrank] Hrec. destruct rec as [r|]; [|done].
  destruct (update_priority_max acc.2 (priority r) Hin Hrec) as [Hin' Hrank'].
  split; [done|]. unfold record_rec. cbn [fst snd].
  rewrite fmap_app. change (priority <$> [r]) with [priority r].
  rewrite max_rank_snoc. lia.
Qed.

Lemma generated_priority_is_max (rt : runtime) (metrics : InfrastructureMetrics)
  (anomalies_summary : string) :
  let data := generate_recommendations rt metrics anomalies_summary in
  priority_level data ∈ priority_order
  ∧ priority_rank (priority_level data) = max_rank (priority <$> recommendations data).
Proof.
  destruct (rules_levelled rt metrics) as (H1 & H2 & H3 & H4 & H5 & H6 & H7).
  unfold generate_recommendations.
  set (acc := record_rec _ (_analyze_errors rt (error_rate metrics))).
  assert (Hacc : recorded acc).
  { subst acc. repeat (apply record_rec_recorded; [|done]). split; [|reflexivity].
    vm_compute. set_solver. }
  destruct Hacc as [Hin Hrank]. simpl.
  destruct acc.1 as [|r recs] eqn:Hrecs; [|done].
  split; [done|]. rewrite Hrank. reflexivity.
Qed.

Lemma action_priority_of_recommendation (r : recommendation) :
  action_priority (recommendation_to_json r) = Some (priority r).
Proof. unfold action_priority, recommendation_to_json. by simplify_map_eq. Qed.

Lemma omap_action_priority (recs : list recommendation) :
  omap action_priority (recommendation_to_json <$> recs) = priority <$> recs.
Proof.
  induction recs as [|r recs IH]; [done|].
  rewrite !fmap_cons. cbn [omap list_omap].
  rewrite action_priority_of_recommendation. by f_equal.
Qed.

(** A report built from the fields of the rule-based generator, possibly
    with the fallback marks of the AI generator on them. *)
Lemma report_of_generated (write_fails : bool) (metrics : InfrastructureMetrics)
  (data : recommendations_data) (fields : gmap string json) (method : string) :
  fields !! "recommendations" = Some (JArr (recommendation_to_json <$> recommendations data)) →
  fields !! "priority_level" = Some (JStr (priority_level data)) →
  is_Some (fields !! "executive_summary") → is_Some (fields !! "detailed_analysis") →
  is_Some (fields !! "estimated_impact") → is_Some (fields !! "implementation_timeframe") →
  priority_level data ∈ priority_order →
  priority_rank (priority_level data) = max_rank (priority <$> recommendations data) →
  match report_of write_fails metrics fields method with
  | Some rep => priority_is_max rep
  | None => write_fails = true
  end.
Proof.
  intros Hrecs Hlevel [? Hs] [? Ha] [? Hi] [? Ht] Hin Hrank.
  unfold report_of, py_getitem. rewrite Hrecs, Hlevel, Hs, Ha, Hi, Ht. simpl.
  destruct write_fails; [done|]. simpl.
  exists (priority_level data). split; [done|]. split; [done|].
  unfold action_priorities, report_recommendations. simpl.
  rewrite lookup_insert_eq. simpl. by rewrite omap_action_priority.
Qed.

(** C7, as stated, fails: the AI generator takes the overall priority from
    the primary answer and appends the focused actions without touching it.
    Here the report has priority low and a critical action. *)
Lemma llm_report_priority_below_action :
  ∃ rep,
    LLMGeneration.generate_report Sample.runtime (Some tt) Sample.rec_replies_low false
      Sample.hot_snapshot None = Some rep
    ∧ report_priority_level rep = JStr "low"
    ∧ action_priorities rep = ["critical"]
    ∧ ¬ priority_is_max rep.
Proof.
  eexists. split; [vm_compute; reflexivity|].
  split; [reflexivity|]. split; [reflexivity|].
  intros (level & Hlevel & _ & Hrank). injection Hlevel as <-.
  vm_compute in Hrank. discriminate Hrank.
Qed.

End Priority.

(** ** The availability probes *)

Section Availability.

Lemma present_strict (settings : gmap string (option string)) (name : string) :
  present settings name = true →
  getattr_strict settings name = Ok (getattr_none settings name).
Proof.
  unfold present, getattr_strict, getattr_none.
  by destruct (settings !! name) as [v|].
Qed.

Lemma present_default (settings : gmap string (option string)) (name : string) :
  truthy_str (getattr_default settings name "") = present settings name.
Proof.
  unfold present, getattr_default, getattr_none. by destruct (settings !! name) as [v|].
Qed.

Lemma engine_available (rt : runtime) (settings : gmap string (option string)) :
  LLMAnalysisEngine.is_available (LLMAnalysisEngine._initialize_azure_client rt settings) = true
  ↔ present settings "AZURE_OPENAI_ENDPOINT" = true
    ∧ present settings "AZURE_OPENAI_API_KEY" = true
    ∧ present settings "AZURE_OPENAI_DEPLOYMENT_NAME" = true
    ∧ ∃ version, settings !! "AZURE_OPENAI_API_VERSION" = Some version
        ∧ is_ok (AzureOpenAI rt (getattr_none settings "AZURE_OPENAI_ENDPOINT")
                   (getattr_none settings "AZURE_OPENAI_API_KEY") version) = true.
Proof.
  unfold LLMAnalysisEngine._initialize_azure_client, LLMAnalysisEngine.required_settings.
  cbn [List.filter].
  fold (present settings "AZURE_OPENAI_ENDPOINT").
  fold (present settings "AZURE_OPENAI_API_KEY").
  fold (present settings "AZURE_OPENAI_DEPLOYMENT_NAME").
  destruct (present settings "AZURE_OPENAI_ENDPOINT") eqn:He; simpl;
    [|split; [done|by intros (? & _)]].
  destruct (present settings "AZURE_OPENAI_API_KEY") eqn:Hk; simpl;
    [|split; [done|by intros (_ & ? & _)]].
  destruct (present settings "AZURE_OPENAI_DEPLOYMENT_NAME") eqn:Hd; simpl;
    [|split; [done|by intros (_ & _ & ? & _)]].
  rewrite (present_strict settings "AZURE_OPENAI_ENDPOINT") by done.
  rewrite (present_strict settings "AZURE_OPENAI_API_KEY") by done. simpl.
  unfold getattr_strict.
  destruct (settings !! "AZURE_OPENAI_API_VERSION") as [version|]; simpl.
  - destruct (AzureOpenAI rt _ _ version) eqn:Hc; simpl.
    + split; [|done]. intros _. repeat split. exists version. by rewrite Hc.
    + split; [done|]. intros (_ & _ & _ & v & [= <-] & Hok). by rewrite Hc in Hok.
  - split; [done|]. by intros (_ & _ & _ & v & ? & _).
Qed.

Lemma service_available (rt : runtime) (settings : gmap string (option string)) :
  AzureOpenAIService.is_available (AzureOpenAIService._initialize_client rt settings) = true
  ↔ present settings "AZURE_OPENAI_API_KEY" = true
    ∧ present settings "AZURE_OPENAI_ENDPOINT" = true
    ∧ is_ok (AzureOpenAI rt (getattr_default settings "AZURE_OPENAI_ENDPOINT" "")
               (getattr_default settings "AZURE_OPENAI_API_KEY" "")
               (getattr_default settings "AZURE_OPENAI_API_VERSION" "2024-02-01")) = true.
Proof.
  unfold AzureOpenAIService._initialize_client. rewrite !present_default.
  destruct (present settings "AZURE_OPENAI_API_KEY"); simpl;
    [|split; [done|by intros (? & _)]].
  destruct (present settings "AZURE_OPENAI_ENDPOINT"); simpl;
    [|split; [done|by intros (_ & ? & _)]].
  destruct (AzureOpenAI rt _ _ _); simpl; [done|].
  split; [done|]. by intros (_ & _ & ?).
Qed.

(** C9, as the code has it.  The engine of the AI detector is available
    exactly when endpoint, key and deployment name are present, the version
    setting is defined and the client is constructed from them.  The shared
    completion service is available exactly when key and endpoint are
    present and the client is constructed: it does not look at the
    deployment name, which it reads with the default 'gpt-4'. *)
Theorem availability_probes (rt : runtime) (settings : gmap string (option string)) :
  (LLMAnalysisEngine.is_available (LLMAnalysisEngine._initialize_azure_client rt settings)
     = true
   ↔ present settings "AZURE_OPENAI_ENDPOINT" = true
     ∧ present settings "AZURE_OPENAI_API_KEY" = true
     ∧ present settings "AZURE_OPENAI_DEPLOYMENT_NAME" = true
     ∧ ∃ version, settings !! "AZURE_OPENAI_API_VERSION" = Some version
         ∧ is_ok (AzureOpenAI rt (getattr_none settings "AZURE_OPENAI_ENDPOINT")
                    (getattr_none settings "AZURE_OPENAI_API_KEY") version) = true)
  ∧ (AzureOpenAIService.is_available (AzureOpenAIService._initialize_client rt settings)
       = true
     ↔ present settings "AZURE_OPENAI_API_KEY" = true
       ∧ present settings "AZURE_OPENAI_ENDPOINT" = true
       ∧ is_ok (AzureOpenAI rt (getattr_default settings "AZURE_OPENAI_ENDPOINT" "")
                  (getattr_default settings "AZURE_OPENAI_API_KEY" "")
                  (getattr_default settings "AZURE_OPENAI_API_VERSION" "2024-02-01")) = true)
  ∧ (settings !! "AZURE_OPENAI_DEPLOYMENT_NAME" = None →
     AzureOpenAIService.deployment_name settings = Some "gpt-4").
Proof.
  split; [apply engine_available|]. split; [apply service_available|].
  unfold AzureOpenAIService.deployment_name, getattr_default. by intros ->.
Qed.

(** C9, as stated, fails: with an endpoint and a key and no deployment name
    the shared completion service reports itself available, while the
    engine of the AI detector does not. *)
Lemma service_available_without_deployment :
  present Sample.settings_no_deployment "AZURE_OPENAI_DEPLOYMENT_NAME" = false
  ∧ AzureOpenAIService.is_available
      (AzureOpenAIService._initialize_client Sample.runtime Sample.settings_no_deployment)
    = true
  ∧ LLMAnalysisEngine.is_available
      (LLMAnalysisEngine._initialize_azure_client Sample.runtime Sample.settings_no_deployment)
    = false.
Proof. vm_compute. repeat split. Qed.

End Availability.

(** * Further properties of the code *)

(** ** The result of the threshold detector and the status of the snapshot *)

Section ClassicResult.
Import ClassicAnomalyDetector ClassicAnalysis.

(** The flags of a detection, in the order of the fields of a result. *)
Lemma detect_anomalies_flags (thresholds : gmap string Q) (metrics : InfrastructureMetrics) :
  ∃ b1 b2 b3 b4 b5 b6 b7 b8,
    detect_anomalies thresholds metrics
    = <["service_anomaly" := has_degraded_services metrics]> (
      <["power_anomaly" := b8]> (<["temperature_anomaly" := b7]> (
      <["error_rate_anomaly" := b6]> (<["io_anomaly" := b5]> (
      <["disk_anomaly" := b4]> (<["latency_anomaly" := b3]> (
      <["memory_anomaly" := b2]> (<["cpu_anomaly" := b1]> ∅)))))))).
Proof. unfold detect_anomalies. by eexists _, _, _, _, _, _, _, _. Qed.

Lemma nine_inserts_any (b1 b2 b3 b4 b5 b6 b7 b8 b9 : bool) (metrics : InfrastructureMetrics)
  (summary method : string) (score : Z) :
  let anomalies : gmap string bool :=
    <["service_anomaly" := b9]> (
    <["power_anomaly" := b8]> (<["temperature_anomaly" := b7]> (
    <["error_rate_anomaly" := b6]> (<["io_anomaly" := b5]> (
    <["disk_anomaly" := b4]> (<["latency_anomaly" := b3]> (
    <["memory_anomaly" := b2]> (<["cpu_anomaly" := b1]> ∅)))))))) in
  any_values anomalies = (0 <? total_anomalies (new_row metrics anomalies summary score method))
  ∧ any_values anomalies = (0 <? calculate_severity_score anomalies)
  ∧ total_anomalies (new_row metrics anomalies summary score method) <= 9.
Proof.
  destruct b1, b2, b3, b4, b5, b6, b7, b8, b9; vm_compute; repeat split; congruence.
Qed.

(** What a successful analysis returns and stores. *)
Lemma classic_analysis_success (rt : runtime) (thresholds : gmap string Q) (f : faults)
  (metrics : InfrastructureMetrics) (db db' : database) (row : AnomalyDetection) :
  analyze_metrics rt thresholds f metrics db = (Some row, db') →
  let anomalies := detect_anomalies thresholds metrics in
  row = new_row metrics anomalies (generate_summary rt anomalies metrics)
          (calculate_severity_score anomalies) "classic"
  ∧ stored_status db' (id metrics) = Some (any_values anomalies, true).
Proof.
  unfold analyze_metrics.
  destruct (objects_create _ _ _) as [db1|]; [|discriminate].
  destruct (metrics_save _ _ _) as [db2|] eqn:Hsave; [|discriminate].
  intros [= <- <-]. split; [reflexivity|].
  by apply stored_status_saved in Hsave as [-> _].
Qed.

(** X1.  When the threshold detector returns a result, the snapshot is
    stored as anomalous exactly when the result counts at least one anomaly,
    and exactly when its severity is positive; the count is at most 9. *)
Theorem classic_anomalous_iff_counted (rt : runtime) (thresholds : gmap string Q)
  (f : faults) (metrics : InfrastructureMetrics) (db db' : database)
  (row : AnomalyDetection) :
  analyze_metrics rt thresholds f metrics db = (Some row, db') →
  stored_status db' (id metrics) = Some (0 <? total_anomalies row, true)
  ∧ (0 <? total_anomalies row) = (0 <? severity_score row)
  ∧ total_anomalies row <= 9.
Proof.
  intros Hrun. apply classic_analysis_success in Hrun as [-> ->]. cbv zeta.
  generalize (generate_summary rt (detect_anomalies thresholds metrics) metrics).
  intros summary.
  destruct (detect_anomalies_flags thresholds metrics)
    as (b1 & b2 & b3 & b4 & b5 & b6 & b7 & b8 & ->).
  match goal with |- context [new_row _ ?a _ ?sc _] =>
    destruct (nine_inserts_any b1 b2 b3 b4 b5 b6 b7 b8 (has_degraded_services metrics)
                metrics summary "classic" sc) as (Hany & Hscore & Hmax)
  end.
  cbv zeta in Hany, Hscore, Hmax. rewrite <- Hany.
  split; [done|]. split; [exact Hscore|exact Hmax].
Qed.

End ClassicResult.

(** ** The summary of the threshold detector *)

Section ClassicSummary.
Import ClassicAnomalyDetector ClassicAnalysis.

Lemma degraded_services_nonempty (metrics : InfrastructureMetrics) :
  has_degraded_services metrics = true → degraded_services metrics ≠ [].
Proof.
  unfold has_degraded_services, degraded_services.
  destruct (service_status metrics) as [|kv l] eqn:Hs; [discriminate|].
  intros Hex Hnil. apply existsb_exists in Hex as (x & Hin & Hx).
  apply fmap_nil_inv in Hnil.
  assert (Hf : In x (List.filter (fun kv => degraded_status kv.2) (kv :: l))).
  { apply filter_In. by split. }
  rewrite Hnil in Hf. destruct Hf.
Qed.

Lemma no_anomaly_sentence_differs (rest : string) :
  "Analyse classique - Seuils dépassés: " +:+ rest
  ≠ "Aucune anomalie détectée par analyse classique".
Proof. intros H. cbn in H. inversion H. Qed.

(** The summary, on the flags written out. *)
Lemma generate_summary_inserts (rt : runtime) (metrics : InfrastructureMetrics)
  (b1 b2 b3 b4 b5 b6 b7 b8 b9 : bool) :
  let anomalies : gmap string bool :=
    <["service_anomaly" := b9]> (
    <["power_anomaly" := b8]> (<["temperature_anomaly" := b7]> (
    <["error_rate_anomaly" := b6]> (<["io_anomaly" := b5]> (
    <["disk_anomaly" := b4]> (<["latency_anomaly" := b3]> (
    <["memory_anomaly" := b2]> (<["cpu_anomaly" := b1]> ∅)))))))) in
  (b1 || b2 || b3 || b4 || b5 || b6 || b7 || b8
   || (b9 && match degraded_services metrics with [] => false | _ => true end) = false
   → generate_summary rt anomalies metrics = "Aucune anomalie détectée par analyse classique")
  ∧ (b1 || b2 || b3 || b4 || b5 || b6 || b7 || b8
     || (b9 && match degraded_services metrics with [] => false | _ => true end) = true
     → ∃ rest, generate_summary rt anomalies metrics
               = "Analyse classique - Seuils dépassés: " +:+ rest).
Proof.
  cbv zeta. unfold generate_summary, when_flag.
  change (flag _ "cpu_anomaly") with b1. change (flag _ "memory_anomaly") with b2.
  change (flag _ "latency_anomaly") with b3. change (flag _ "disk_anomaly") with b4.
  change (flag _ "io_anomaly") with b5. change (flag _ "error_rate_anomaly") with b6.
  change (flag _ "temperature_anomaly") with b7. change (flag _ "power_anomaly") with b8.
  change (flag _ "service_anomaly") with b9.
  match goal with |- context [match ?m with [] => _ | _ :: _ => String.append _ _ end] =>
    set (messages := m) end.
  assert (Hnil : messages = []
                 ↔ b1 || b2 || b3 || b4 || b5 || b6 || b7 || b8
                   || (b9 && match degraded_services metrics with [] => false | _ => true end)
                   = false).
  { subst messages. rewrite !app_nil, !orb_false_iff.
    assert (Hwhen : ∀ (b : bool) (x : string), (if b then [x] else []) = [] ↔ b = false)
      by (intros [] x; split; congruence).
    rewrite !Hwhen.
    lazymatch goal with |- context [(if b9 then ?t else []) = []] =>
      assert (Hs : (if b9 then t else []) = []
                   ↔ b9 && match degraded_services metrics with [] => false | _ => true end
                     = false)
        by (destruct b9, (degraded_services metrics); split; simpl; congruence)
    end.
    rewrite Hs. tauto. }
  split; intros H.
  - apply Hnil in H. by rewrite H.
  - destruct messages; [|by eexists].
    destruct Hnil as [Hnil _]. rewrite Hnil in H by done. discriminate H.
Qed.

Lemma nine_inserts_any_values (b1 b2 b3 b4 b5 b6 b7 b8 b9 : bool) :
  any_values (<["service_anomaly" := b9]> (
    <["power_anomaly" := b8]> (<["temperature_anomaly" := b7]> (
    <["error_rate_anomaly" := b6]> (<["io_anomaly" := b5]> (
    <["disk_anomaly" := b4]> (<["latency_anomaly" := b3]> (
    <["memory_anomaly" := b2]> (<["cpu_anomaly" := b1]> ∅)))))))))
  = b1 || b2 || b3 || b4 || b5 || b6 || b7 || b8 || b9.
Proof. by destruct b1, b2, b3, b4, b5, b6, b7, b8, b9. Qed.

(** X2.  The summary of the threshold detector is the fixed sentence of a
    snapshot without anomaly exactly when no flag of the detection is set;
    otherwise it starts with the heading of the thresholds exceeded. *)
Theorem summary_fixed_iff_no_anomaly (rt : runtime) (thresholds : gmap string Q)
  (metrics : InfrastructureMetrics) :
  let anomalies := detect_anomalies thresholds metrics in
  (generate_summary rt anomalies metrics = "Aucune anomalie détectée par analyse classique"
   ↔ any_values anomalies = false)
  ∧ (any_values anomalies = true
     ↔ ∃ rest, generate_summary rt anomalies metrics
               = "Analyse classique - Seuils dépassés: " +:+ rest).
Proof.
  cbv zeta.
  destruct (detect_anomalies_flags thresholds metrics)
    as (b1 & b2 & b3 & b4 & b5 & b6 & b7 & b8 & ->).
  rewrite nine_inserts_any_values.
  destruct (generate_summary_inserts rt metrics b1 b2 b3 b4 b5 b6 b7 b8
              (has_degraded_services metrics)) as [Hnone Hsome].
  cbv zeta in Hnone, Hsome.
  assert (Hd : has_degraded_services metrics
               && match degraded_services metrics with [] => false | _ => true end
               = has_degraded_services metrics).
  { destruct (has_degraded_services metrics) eqn:Hdeg; [|done].
    apply degraded_services_nonempty in Hdeg. by destruct (degraded_services metrics). }
  rewrite Hd in Hnone, Hsome.
  destruct (b1 || b2 || b3 || b4 || b5 || b6 || b7 || b8 || has_degraded_services metrics).
  - destruct (Hsome eq_refl) as [rest Hrest]. split.
    + split; [|done]. rewrite Hrest. intros H. by apply no_anomaly_sentence_differs in H.
    + split; [by eexists|done].
  - rewrite (Hnone eq_refl). split; [done|].
    split; [done|]. intros [rest H]. symmetry in H.
    by apply no_anomaly_sentence_differs in H.
Qed.

Lemma objects_create_fresh (f : faults) (metrics : InfrastructureMetrics)
  (row : AnomalyDetection) (db : database) :
  create_fails f = false → anomaly_detection_of db metrics = None →
  metrics_id row = id metrics →
  objects_create f row db
  = Ok {| metrics_table := metrics_table db; anomaly_table := anomaly_table db ++ [row] |}.
Proof.
  unfold objects_create, anomaly_detection_of. intros -> Hnone Hid.
  rewrite Hid.
  destruct (existsb _ _) eqn:Hex; [|done].
  apply existsb_exists in Hex as (x & Hin & Hx).
  by eapply find_none in Hnone; [rewrite Hx in Hnone|].
Qed.

Lemma Qgt_bool_le (a b : Q) : (a <= b)%Q → Qgt_bool a b = false.
Proof. intros Hle. unfold Qgt_bool. apply Qle_bool_iff in Hle. by rewrite Hle. Qed.

(** X3.  A snapshot none of whose eight values exceeds its threshold and
    none of whose services is degraded, analysed for the first time and
    without a failing write, gets a result with no anomaly, severity 0 and
    the fixed summary, and is stored as analysed and not anomalous. *)
Theorem quiet_snapshot_analysis (rt : runtime) (thresholds : gmap string Q) (f : faults)
  (metrics : InfrastructureMetrics) (db : database) :
  (cpu_usage metrics <= threshold thresholds "cpu_usage" (80 # 1))%Q →
  (memory_usage metrics <= threshold thresholds "memory_usage" (85 # 1))%Q →
  (latency_ms metrics <= threshold thresholds "latency_ms" (500 # 1))%Q →
  (disk_usage metrics <= threshold thresholds "disk_usage" (90 # 1))%Q →
  (io_wait metrics <= threshold thresholds "io_wait" (20 # 1))%Q →
  (error_rate metrics <= threshold thresholds "error_rate" float_0_05)%Q →
  (temperature_celsius metrics <= threshold thresholds "temperature_celsius" (75 # 1))%Q →
  (power_consumption_watts metrics
     <= threshold thresholds "power_consumption_watts" (400 # 1))%Q →
  has_degraded_services metrics = false →
  create_fails f = false → save_fails f = false →
  anomaly_detection_of db metrics = None →
  ∃ row db',
    analyze_metrics rt thresholds f metrics db = (Some row, db')
    ∧ total_anomalies row = 0 ∧ severity_score row = 0
    ∧ anomaly_summary row = "Aucune anomalie détectée par analyse classique"
    ∧ analysis_method row = "classic"
    ∧ anomaly_table db' = anomaly_table db ++ [row]
    ∧ stored_status db' (id metrics) = Some (false, true).
Proof.
  intros H1 H2 H3 H4 H5 H6 H7 H8 Hdeg Hcreate Hsave Hfresh.
  unfold analyze_metrics.
  assert (Hflags : detect_anomalies thresholds metrics
                   = <["service_anomaly" := false]> (
                     <["power_anomaly" := false]> (<["temperature_anomaly" := false]> (
                     <["error_rate_anomaly" := false]> (<["io_anomaly" := false]> (
                     <["disk_anomaly" := false]> (<["latency_anomaly" := false]> (
                     <["memory_anomaly" := false]> (<["cpu_anomaly" := false]> ∅))))))))).
  { unfold detect_anomalies. by rewrite !Qgt_bool_le, Hdeg. }
  rewrite Hflags.
  erewrite objects_create_fresh by done.
  unfold metrics_save. rewrite Hsave.
  eexists _, _. split; [reflexivity|].
  repeat split. unfold stored_status. simpl. by rewrite lookup_insert_eq.
Qed.

End ClassicSummary.

Lemma classic_anomalous_iff_counted_witness :
  ClassicAnalysis.analyze_metrics Sample.runtime ClassicAnomalyDetector.default_thresholds
    no_faults quiet_snapshot Sample.db0 = (Some Sample.existing, Sample.db1)
  ∧ stored_status Sample.db1 (id quiet_snapshot)
    = Some (0 <? total_anomalies Sample.existing, true)
  ∧ (0 <? total_anomalies Sample.existing) = (0 <? severity_score Sample.existing)
  ∧ total_anomalies Sample.existing <= 9.
Proof.
  assert (H : ClassicAnalysis.analyze_metrics Sample.runtime
                ClassicAnomalyDetector.default_thresholds no_faults quiet_snapshot Sample.db0
              = (Some Sample.existing, Sample.db1)) by (vm_compute; reflexivity).
  split; [exact H|].
  exact (classic_anomalous_iff_counted Sample.runtime ClassicAnomalyDetector.default_thresholds
           no_faults quiet_snapshot Sample.db0 Sample.db1 Sample.existing H).
Defined.

Lemma quiet_snapshot_analysis_witness :
  ∃ row db',
    ClassicAnalysis.analyze_metrics Sample.runtime ClassicAnomalyDetector.default_thresholds
      no_faults quiet_snapshot Sample.db0 = (Some row, db')
    ∧ total_anomalies row = 0 ∧ severity_score row = 0
    ∧ anomaly_summary row = "Aucune anomalie détectée par analyse classique"
    ∧ analysis_method row = "classic"
    ∧ anomaly_table db' = anomaly_table Sample.db0 ++ [row]
    ∧ stored_status db' (id quiet_snapshot) = Some (false, true).
Proof.
  apply (quiet_snapshot_analysis Sample.runtime ClassicAnomalyDetector.default_thresholds
           no_faults quiet_snapshot Sample.db0);
    first [ reflexivity | vm_compute; discriminate ].
Defined.

(** ** The actions of the rule-based generator *)

Section GeneratedActions.
Import ClassicRecommendationGenerator.

Ltac in_list :=
  vm_compute; repeat first [apply list_elem_of_here | apply list_elem_of_further].

Lemma analyze_tier_none (rules : rule) (value : Q) (lead : string) :
  (high_threshold rules <= critical_threshold rules)%Q →
  analyze_tier rules value lead = None ↔ (value < high_threshold rules)%Q.
Proof.
  intros Hle. unfold analyze_tier.
  destruct (Qge_bool value (critical_threshold rules)) eqn:Hc.
  - apply Qge_bool_iff in Hc. split; [done|]. intros Hlt.
    exfalso. apply (Qlt_irrefl value). eapply Qlt_le_trans; [exact Hlt|].
    by eapply Qle_trans.
  - destruct (Qge_bool value (high_threshold rules)) eqn:Hh.
    + apply Qge_bool_iff in Hh. split; [done|]. intros Hlt.
      exfalso. apply (Qlt_irrefl value). by eapply Qlt_le_trans.
    + split; [|done]. intros _. apply Qnot_le_lt. intros Hge.
      apply Qge_bool_iff in Hge. congruence.
Qed.

Lemma analyze_errors_none (rt : runtime) (error_rate : Q) :
  _analyze_errors rt error_rate = None ↔ (float_mul100 rt error_rate <= 1 # 1)%Q.
Proof.
  unfold _analyze_errors. cbv zeta.
  destruct (Qgt_bool (float_mul100 rt error_rate) (5 # 1)) eqn:H5.
  - apply Qgt_bool_iff in H5. split; [done|]. intros Hle. exfalso.
    apply (Qlt_irrefl (5 # 1)). eapply Qlt_le_trans; [exact H5|].
    eapply Qle_trans; [exact Hle|]. by vm_compute.
  - destruct (Qgt_bool (float_mul100 rt error_rate) (1 # 1)) eqn:H1.
    + apply Qgt_bool_iff in H1. split; [done|]. intros Hle. exfalso.
      apply (Qlt_irrefl (1 # 1)). by eapply Qlt_le_trans.
    + split; [|done]. intros _. apply Qnot_lt_le. intros Hlt.
      apply Qgt_bool_iff in Hlt. congruence.
Qed.

Lemma analyze_services_none (metrics : InfrastructureMetrics) :
  _analyze_services metrics = None ↔ has_degraded_services metrics = false.
Proof. unfold _analyze_services. by destruct (has_degraded_services metrics). Qed.

Lemma analyze_tier_fired (rules : rule) (value : Q) (lead : string) :
  priority (high rules) ∈ ["medium"; "high"; "critical"] →
  priority (critical rules) ∈ ["medium"; "high"; "critical"] →
  fired (analyze_tier rules value lead).
Proof.
  intros Hh Hc. unfold analyze_tier.
  destruct (Qge_bool value (critical_threshold rules)); [done|].
  by destruct (Qge_bool value (high_threshold rules)).
Qed.

Lemma rules_fired (rt : runtime) (metrics : InfrastructureMetrics) :
  fired (_analyze_cpu rt (cpu_usage metrics))
  ∧ fired (_analyze_memory rt (memory_usage metrics))
  ∧ fired (_analyze_disk rt (disk_usage metrics))
  ∧ fired (_analyze_latency rt (latency_ms metrics))
  ∧ fired (_analyze_temperature rt (temperature_celsius metrics))
  ∧ fired (_analyze_services metrics)
  ∧ fired (_analyze_errors rt (error_rate metrics)).
Proof.
  repeat match goal with |- _ ∧ _ => split end;
    try (apply analyze_tier_fired; in_list).
  - unfold _analyze_services. destruct (has_degraded_services metrics); [|done].
    vm_compute. set_solver.
  - unfold _analyze_errors. cbv zeta.
    destruct (Qgt_bool _ (5 # 1)); [in_list|].
    destruct (Qgt_bool _ (1 # 1)); [in_list|done].
Qed.

Lemma above_low_cases (p : string) :
  p ∈ ["medium"; "high"; "critical"] → p = "medium" ∨ p = "high" ∨ p = "critical".
Proof.
  intros Hp. repeat (apply elem_of_cons in Hp as [-> | Hp]; [tauto|]).
  by apply elem_of_nil in Hp.
Qed.

Lemma record_rec_tally (n : nat) (acc : list recommendation * string)
  (rec : option recommendation) :
  tally n acc → fired rec → tally (S n) (record_rec acc rec).
Proof.
  intros (Hlen & Hall & Hin & Hlow) Hrec.
  destruct rec as [r|]; unfold tally, record_rec; cbn [fst snd].
  - split; [rewrite length_app; simpl; lia|].
    split; [apply Forall_app; split; [done|by constructor]|].
    simpl in Hrec.
    assert (Hnew : _update_priority acc.2 (priority r) ∈ priority_order
                   ∧ _update_priority acc.2 (priority r) ≠ "low").
    { apply priority_order_cases in Hin as [-> | [-> | [-> | ->]]];
        apply above_low_cases in Hrec as [-> | [-> | ->]];
        (split; [in_list | vm_compute; discriminate]). }
    destruct Hnew as [Hin' Hne]. split; [done|].
    split; [done|]. intros Hnil. by destruct acc.1.
  - split; [lia|]. by split.
Qed.

Lemma generated_tally (rt : runtime) (metrics : InfrastructureMetrics) :
  let start : list recommendation * string := ([], "low") in
  let acc := record_rec start (_analyze_cpu rt (cpu_usage metrics)) in
  let acc := record_rec acc (_analyze_memory rt (memory_usage metrics)) in
  let acc := record_rec acc (_analyze_disk rt (disk_usage metrics)) in
  let acc := record_rec acc (_analyze_latency rt (latency_ms metrics)) in
  let acc := record_rec acc (_analyze_temperature rt (temperature_celsius metrics)) in
  let acc := record_rec acc (_analyze_services metrics) in
  let acc := record_rec acc (_analyze_errors rt (error_rate metrics)) in
  tally 7 acc.
Proof.
  cbv zeta. destruct (rules_fired rt metrics) as (H1 & H2 & H3 & H4 & H5 & H6 & H7).
  repeat (apply record_rec_tally; [|done]).
  split; [simpl; lia|]. split; [constructor|].
  split; [in_list|done].
Qed.

Lemma record_rec_nil (acc : list recommendation * string) (rec : option recommendation) :
  (record_rec acc rec).1 = [] ↔ acc.1 = [] ∧ rec = None.
Proof.
  destruct rec as [r|]; simpl.
  - split; [|by intros [_ ?]]. intros H. by destruct acc.1.
  - tauto.
Qed.

(** X4.  The rule-based generator returns between one and seven actions,
    each with one of the four priorities.  The overall priority is ['low']
    exactly when the only action is the one asking to keep monitoring; no
    action of a rule has the priority ['low']. *)
Theorem generated_actions_bounded (rt : runtime) (metrics : InfrastructureMetrics)
  (anomalies_summary : string) :
  let data := generate_recommendations rt metrics anomalies_summary in
  (1 <= length (recommendations data) <= 7)%nat
  ∧ Forall (fun r => priority r ∈ priority_order) (recommendations data)
  ∧ (priority_level data = "low" ↔ recommendations data = [monitoring_action])
  ∧ (priority_level data ≠ "low" →
     Forall (fun r => priority r ≠ "low") (recommendations data)).
Proof.
  cbv zeta. pose proof (generated_tally rt metrics) as Ht. cbv zeta in Ht.
  unfold generate_recommendations. cbv zeta.
  set (acc := record_rec _ (_analyze_errors rt (error_rate metrics))) in *.
  destruct Ht as (Hlen & Hall & Hin & Hlow). simpl.
  destruct acc.1 as [|r recs] eqn:Hrecs.
  - split; [simpl; lia|]. split; [repeat constructor; in_list|].
    split; [by split; [|intros _; apply Hlow]|].
    intros Hne. by destruct Hne; apply Hlow.
  - split; [simpl in *; lia|].
    split.
    { eapply Forall_impl; [exact Hall|]. intros x Hx. simpl in Hx.
      apply above_low_cases in Hx as [-> | [-> | ->]]; in_list. }
    split.
    { split; [intros Hl; by apply Hlow in Hl|].
      intros Hmon. injection Hmon as -> ->. apply Forall_cons in Hall as [Hr _].
      apply above_low_cases in Hr as [Hr | [Hr | Hr]]; discriminate Hr. }
    intros _. eapply Forall_impl; [exact Hall|]. intros x Hx. simpl in Hx.
    apply above_low_cases in Hx as [-> | [-> | ->]]; discriminate.
Qed.

(** X5.  The generator answers with the single monitoring action exactly
    on a stable snapshot: every tiered value under the first threshold of its
    rule, no degraded service, and an error rate of at most one percent. *)
Theorem monitoring_iff_stable (rt : runtime) (metrics : InfrastructureMetrics)
  (anomalies_summary : string) :
  recommendations (generate_recommendations rt metrics anomalies_summary)
  = [monitoring_action]
  ↔ stable rt metrics.
Proof.
  pose proof (generated_tally rt metrics) as Ht. cbv zeta in Ht.
  unfold generate_recommendations. cbv zeta.
  set (acc := record_rec _ (_analyze_errors rt (error_rate metrics))) in *.
  destruct Ht as (_ & Hall & _ & _). simpl.
  assert (Hnil : acc.1 = [] ↔ stable rt metrics).
  { subst acc. rewrite !record_rec_nil. simpl.
    unfold _analyze_cpu, _analyze_memory, _analyze_disk, _analyze_latency,
      _analyze_temperature.
    rewrite !analyze_tier_none by (by vm_compute).
    rewrite analyze_services_none, analyze_errors_none. unfold stable.
    simpl. tauto. }
  rewrite <- Hnil.
  destruct acc.1 as [|r recs] eqn:Hrecs; [done|].
  split; [|done]. intros Hmon. injection Hmon as -> ->.
  apply Forall_cons in Hall as [Hr _].
  apply above_low_cases in Hr as [Hr | [Hr | Hr]]; discriminate Hr.
Qed.

(** X6.  The implementation time frame of a generated result is the entry
    of its overall priority in the table of time frames: the default of the
    lookup is never taken. *)
Theorem generated_timeframe_from_table (rt : runtime) (metrics : InfrastructureMetrics)
  (anomalies_summary : string) :
  let data := generate_recommendations rt metrics anomalies_summary in
  timeframe_map !! priority_level data = Some (implementation_timeframe data).
Proof.
  cbv zeta.
  destruct (generated_priority_is_max rt metrics anomalies_summary) as [Hin _].
  cbv zeta in Hin.
  assert (Htf : implementation_timeframe (generate_recommendations rt metrics anomalies_summary)
                = default "1-2 semaines"
                    (timeframe_map
                       !! priority_level (generate_recommendations rt metrics anomalies_summary)))
    by reflexivity.
  rewrite Htf.
  apply priority_order_cases in Hin as [-> | [-> | [-> | ->]]]; reflexivity.
Qed.

End GeneratedActions.

(** ** Cleaning and parsing the text of a completion *)

Section Cleaning.

Lemma list_ascii_app (a b : string) :
  list_ascii_of_string (a +:+ b) = list_ascii_of_string a ++ list_ascii_of_string b.
Proof. induction a as [|c a IH]; simpl; [done|]. by rewrite IH. Qed.

Lemma string_of_list_app (l k : list ascii) :
  string_of_list_ascii (l ++ k) = string_of_list_ascii l +:+ string_of_list_ascii k.
Proof. induction l as [|c l IH]; simpl; [done|]. by rewrite IH. Qed.

Lemma str_rev_app (a b : string) : str_rev (a +:+ b) = str_rev b +:+ str_rev a.
Proof.
  unfold str_rev. by rewrite list_ascii_app, rev_app_distr, string_of_list_app.
Qed.

Lemma str_rev_involutive (s : string) : str_rev (str_rev s) = s.
Proof.
  unfold str_rev.
  by rewrite list_ascii_of_string_of_list_ascii, rev_involutive,
    string_of_list_ascii_of_string.
Qed.

Lemma prefix_app (p s : string) : String.prefix p (p +:+ s) = true.
Proof.
  induction p as [|c p IH]; simpl; [by destruct s|].
  by destruct (ascii_dec c c).
Qed.

Lemma str_drop_app (p s : string) : str_drop (String.length p) (p +:+ s) = s.
Proof.
  unfold str_drop. rewrite list_ascii_app.
  assert (Hlen : String.length p = length (list_ascii_of_string p)).
  { clear. induction p as [|c p IH]; simpl; [done|]. by rewrite IH. }
  rewrite Hlen, drop_app_length. apply string_of_list_ascii_of_string.
Qed.

Lemma str_rev_length (s : string) : String.length (str_rev s) = String.length s.
Proof.
  assert (Hlen : ∀ t, String.length t = length (list_ascii_of_string t)).
  { intros t. induction t as [|c t IH]; simpl; [done|]. by rewrite IH. }
  unfold str_rev. rewrite (Hlen (string_of_list_ascii _)),
    list_ascii_of_string_of_list_ascii, length_rev. symmetry. apply Hlen.
Qed.

Lemma str_endswith_app (s p : string) : str_endswith (s +:+ p) p = true.
Proof. unfold str_endswith. rewrite str_rev_app. apply prefix_app. Qed.

Lemma str_drop_end_app (s p : string) : str_drop_end (String.length p) (s +:+ p) = s.
Proof.
  unfold str_drop_end. rewrite str_rev_app, <- (str_rev_length p), str_drop_app.
  apply str_rev_involutive.
Qed.

Lemma prefix_json_fence (body : string) :
  String.prefix "json" (body +:+ "```") = String.prefix "json" body.
Proof.
  do 4 (destruct body as [|a body]; [reflexivity|];
        change (String a body +:+ "```") with (String a (body +:+ "```"));
        cbn [String.prefix];
        match goal with
        | |- context [ascii_dec ?x a] => destruct (ascii_dec x a); [|reflexivity]
        end; clear dependent a).
  by destruct body.
Qed.

(** X8.  Both cleaners unwrap a fenced block: the text between an opening
    fence, with or without the word json, and a closing fence comes back
    stripped, whatever it is.  The two cleaners give the same text except
    on a text that starts with the bare word json. *)
Theorem cleaners_unwrap_fence (rt : runtime) (body : string) :
  AzureOpenAIService._clean_response rt ("```json" +:+ body +:+ "```") = str_strip rt body
  ∧ LLMAnalysisEngine._clean_json_response rt ("```json" +:+ body +:+ "```")
    = str_strip rt body
  ∧ (str_startswith body "json" = false →
     AzureOpenAIService._clean_response rt ("```" +:+ body +:+ "```") = str_strip rt body
     ∧ LLMAnalysisEngine._clean_json_response rt ("```" +:+ body +:+ "```")
       = str_strip rt body)
  ∧ (str_startswith body "json" = false →
     LLMAnalysisEngine._clean_json_response rt body
     = AzureOpenAIService._clean_response rt body).
Proof.
  assert (H7 : str_drop 7 ("```json" +:+ (body +:+ "```")) = body +:+ "```")
    by apply (str_drop_app "```json").
  assert (H3 : str_drop 3 ("```" +:+ (body +:+ "```")) = body +:+ "```")
    by apply (str_drop_app "```").
  assert (Hend : str_endswith (body +:+ "```") "```" = true) by apply str_endswith_app.
  assert (Hcut : str_drop_end 3 (body +:+ "```") = body)
    by apply (str_drop_end_app body "```").
  assert (Hopen : str_startswith ("```json" +:+ (body +:+ "```")) "```json" = true)
    by apply (prefix_app "```json").
  assert (Hopen3 : str_startswith ("```" +:+ (body +:+ "```")) "```" = true)
    by apply (prefix_app "```").
  split; [|split; [|split]].
  - unfold AzureOpenAIService._clean_response.
    change ("```json" +:+ body +:+ "```") with ("```json" +:+ (body +:+ "```")).
    by rewrite Hopen, H7, Hend, Hcut.
  - unfold LLMAnalysisEngine._clean_json_response.
    change ("```json" +:+ body +:+ "```") with ("```json" +:+ (body +:+ "```")).
    by rewrite Hopen, H7, Hend, Hcut.
  - intros Hbody.
    assert (Hnot : str_startswith ("```" +:+ (body +:+ "```")) "```json" = false).
    { unfold str_startswith in *.
      change (String.prefix "```json" ("```" +:+ (body +:+ "```")))
        with (String.prefix "json" (body +:+ "```")).
      rewrite prefix_json_fence. exact Hbody. }
    change ("```" +:+ body +:+ "```") with ("```" +:+ (body +:+ "```")).
    unfold AzureOpenAIService._clean_response, LLMAnalysisEngine._clean_json_response.
    by rewrite Hnot, Hopen3, H3, Hend, Hcut.
  - intros Hbody.
    unfold AzureOpenAIService._clean_response, LLMAnalysisEngine._clean_json_response.
    destruct (str_startswith body "```json"); [done|].
    destruct (str_startswith body "```"); [done|]. by rewrite Hbody.
Qed.

End Cleaning.

(** ** The executive summary of the rule-based generator *)

Section ExecutiveSummary.
Import ClassicRecommendationGenerator.

Lemma priority_rank_le (p : string) : (priority_rank p <= 3)%nat.
Proof.
  unfold priority_rank, index_or_0, priority_order. simpl.
  repeat (case_decide; simpl; [lia|]). lia.
Qed.

Lemma priority_rank_critical (p : string) : priority_rank p = 3%nat ↔ p = "critical".
Proof.
  unfold priority_rank, index_or_0, priority_order. simpl.
  repeat (case_decide; simpl; [split; [lia|intros ->; done]|]).
  case_decide; simpl; [done|]. split; [lia|]. by intros ->.
Qed.

Lemma max_rank_critical (ps : list string) : max_rank ps = 3%nat ↔ "critical" ∈ ps.
Proof.
  induction ps as [|p ps IH]; simpl.
  - split; [done|]. by intros ?%elem_of_nil.
  - rewrite elem_of_cons. rewrite <- IH.
    pose proof (priority_rank_le p) as Hp.
    assert (Hps : (max_rank ps <= 3)%nat).
    { clear. induction ps as [|q ps IH]; simpl; [lia|].
      pose proof (priority_rank_le q). lia. }
    fold (max_rank ps). split.
    + intros Hmax. destruct (decide (priority_rank p = 3%nat)) as [Heq | Hne].
      * left. symmetry. by apply priority_rank_critical.
      * right. lia.
    + intros [Heq | Hrest]; [|lia]. symmetry in Heq.
      apply priority_rank_critical in Heq. lia.
Qed.

Lemma critical_count_positive (recs : list recommendation) :
  (0 <? length (List.filter (fun r => String.eqb (priority r) "critical") recs))%nat = true
  ↔ "critical" ∈ priority <$> recs.
Proof.
  induction recs as [|r recs IH].
  - simpl. split; [done|]. by intros ?%elem_of_nil.
  - rewrite fmap_cons, elem_of_cons. cbn [List.filter].
    destruct (String.eqb (priority r) "critical") eqn:Heq; cbn [length Nat.ltb Nat.leb].
    + apply String.eqb_eq in Heq. split; [by left|done].
    + apply String.eqb_neq in Heq. rewrite IH. split; [by right|].
      by intros [? | ?].
Qed.

(** X7.  The executive summary of a generated result opens with the words
    of a critical analysis exactly when the overall priority is
    ['critical'], which is exactly when one of the actions is critical. *)
Theorem critical_summary_iff_critical_level (rt : runtime)
  (metrics : InfrastructureMetrics) (anomalies_summary : string) :
  let data := generate_recommendations rt metrics anomalies_summary in
  (str_startswith (executive_summary data) "Analyse critique: " = true
   ↔ priority_level data = "critical")
  ∧ (priority_level data = "critical" ↔ "critical" ∈ priority <$> recommendations data).
Proof.
  cbv zeta.
  destruct (generated_priority_is_max rt metrics anomalies_summary) as [Hin Hrank].
  cbv zeta in Hin, Hrank.
  assert (Hlevel : priority_level (generate_recommendations rt metrics anomalies_summary)
                   = "critical"
                   ↔ "critical" ∈ priority
                       <$> recommendations (generate_recommendations rt metrics anomalies_summary)).
  { rewrite <- max_rank_critical, <- Hrank. symmetry. apply priority_rank_critical. }
  split; [|exact Hlevel].
  rewrite Hlevel, <- critical_count_positive.
  set (data := generate_recommendations rt metrics anomalies_summary) in *.
  assert (Hsummary : executive_summary data
    = let rec_count := length (recommendations data) in
      let critical_count :=
        length (List.filter (fun r => String.eqb (priority r) "critical")
                  (recommendations data)) in
      if (0 <? critical_count)%nat then
        "Analyse critique: " +:+ pretty critical_count +:+ " problèmes critiques parmi "
        +:+ pretty rec_count +:+ " recommandations. Action immédiate requise."
      else if String.eqb (priority_level data) "high" then
        "Attention: " +:+ pretty rec_count
        +:+ " recommandations prioritaires identifiées pour optimiser l'infrastructure."
      else
        "Analyse de " +:+ pretty rec_count
        +:+ " points d'amélioration identifiés pour maintenir la performance.")
    by reflexivity.
  rewrite Hsummary. cbv zeta.
  destruct (0 <? _)%nat;
    [split; intros _; [reflexivity|apply (prefix_app "Analyse critique: ")]|].
  destruct (String.eqb (priority_level data) "high"); split; intros H; discriminate H.
Qed.

End ExecutiveSummary.

(** ** An object embedded in the text of a completion *)

Section Embedded.
Import AzureOpenAIService.

Lemma app_cons (a : ascii) (s t : string) : String a s +:+ t = String a (s +:+ t).
Proof. reflexivity. Qed.

Lemma find_from_absent (c : ascii) (pre t : string) (j i : Z) :
  0 <= j → find_from c pre j = -1 →
  find_from c (pre +:+ t) i = find_from c t (i + Z.of_nat (String.length pre)).
Proof.
  revert j i. induction pre as [|a pre IH]; intros j i Hj Habs.
  - change ("" +:+ t) with t. simpl. f_equal. lia.
  - rewrite app_cons. simpl in *. destruct (Ascii.eqb a c); [lia|].
    rewrite (IH (j + 1) (i + 1)) by (done || lia). f_equal. lia.
Qed.

Lemma rfind_from_app (c : ascii) (a b : string) (i last : Z) :
  rfind_from c (a +:+ b) i last
  = rfind_from c b (i + Z.of_nat (String.length a)) (rfind_from c a i last).
Proof.
  revert i last. induction a as [|x a IH]; intros i last.
  - change ("" +:+ b) with b. simpl. f_equal. lia.
  - rewrite app_cons. simpl. rewrite IH. f_equal. lia.
Qed.

Lemma rfind_from_nonneg (c : ascii) (s : string) (i last : Z) :
  0 <= i → 0 <= last → 0 <= rfind_from c s i last.
Proof.
  revert i last. induction s as [|a s IH]; intros i last Hi Hlast; simpl; [done|].
  apply IH; [lia|]. by destruct (Ascii.eqb a c).
Qed.

Lemma rfind_from_absent (c : ascii) (post : string) (j i last : Z) :
  0 <= j → rfind_from c post j (-1) = -1 → rfind_from c post i last = last.
Proof.
  revert j i last. induction post as [|a post IH]; intros j i last Hj Habs; [done|].
  simpl in *. destruct (Ascii.eqb a c).
  - pose proof (rfind_from_nonneg c post (j + 1) j). lia.
  - apply (IH (j + 1)); [lia|done].
Qed.

Lemma substring_prefix (b c : string) : substring 0 (String.length b) (b +:+ c) = b.
Proof.
  induction b as [|x b IH]; [by destruct c|].
  rewrite app_cons. simpl. by rewrite IH.
Qed.

Lemma substring_middle (a b c : string) :
  substring (String.length a) (String.length b) (a +:+ (b +:+ c)) = b.
Proof.
  induction a as [|x a IH]; [exact (substring_prefix b c)|].
  rewrite app_cons. simpl. exact IH.
Qed.

Lemma app_length (a b : string) :
  String.length (a +:+ b) = (String.length a + String.length b)%nat.
Proof. induction a as [|x a IH]; [done|]. rewrite app_cons. simpl. by rewrite IH. Qed.

Lemma braces_found (pre inner post : string) :
  str_find pre "{" = -1 → str_rfind post "}" = -1 →
  let text := pre +:+ ("{" +:+ inner +:+ "}") +:+ post in
  str_find text "{" = Z.of_nat (String.length pre)
  ∧ str_rfind text "}" + 1
    = Z.of_nat (String.length pre) + Z.of_nat (String.length ("{" +:+ inner +:+ "}"))
  ∧ str_slice (str_find text "{") (str_rfind text "}" + 1) text = "{" +:+ inner +:+ "}".
Proof.
  intros Hpre Hpost. cbv zeta.
  assert (Hfind : str_find (pre +:+ ("{" +:+ inner +:+ "}") +:+ post) "{"
                  = Z.of_nat (String.length pre)).
  { unfold str_find in *. rewrite (find_from_absent _ pre _ 0 0) by done.
    change (("{" +:+ inner +:+ "}") +:+ post) with (String "{" ((inner +:+ "}") +:+ post)).
    simpl. lia. }
  assert (Hrfind : str_rfind (pre +:+ ("{" +:+ inner +:+ "}") +:+ post) "}" + 1
                   = Z.of_nat (String.length pre)
                     + Z.of_nat (String.length ("{" +:+ inner +:+ "}"))).
  { unfold str_rfind in *. rewrite rfind_from_app. rewrite rfind_from_app.
    rewrite (rfind_from_absent _ post 0) by done.
    generalize (rfind_from "}" pre 0 (-1)). intros last.
    change ("{" +:+ inner +:+ "}") with (String "{" (inner +:+ "}")).
    cbn [rfind_from String.length]. rewrite rfind_from_app, app_length.
    simpl. lia. }
  split; [done|]. split; [done|].
  unfold str_slice. rewrite Hrfind, Hfind.
  replace (Z.to_nat (Z.of_nat (String.length pre))) with (String.length pre) by lia.
  replace (Z.to_nat _) with (String.length ("{" +:+ inner +:+ "}")) by lia.
  apply substring_middle.
Qed.

Lemma parse_json_response_raise (rt : runtime) (response : string) (e : exc) :
  parse_json_response rt response = Raise e
  ↔ json_loads rt (_clean_response rt response) = Raise e ∧ e ≠ JSONDecodeError.
Proof.
  unfold parse_json_response. cbv zeta.
  destruct (json_loads rt (_clean_response rt response)) as [direct|e0].
  { split; [discriminate|]. by intros [? _]. }
  destruct e0;
    try (split; [intros [= <-]; by split|by intros [[= <-] _]]).
  destruct (_extract_json_from_text rt response); simpl.
  - split; [discriminate|]. by intros [[= <-] Hne].
  - split; [discriminate|]. by intros [[= <-] Hne].
Qed.

(** X9.  An object embedded in prose is recovered: when the text holds no
    opening brace before the object and no closing brace after it, the part
    taken runs from the first opening to the last closing brace.  The
    extraction returns its decoding, the reconstructed structure when the
    part is not JSON, and raises what the decoder raises otherwise.  When
    the cleaned text as a whole is not JSON, the parser returns the decoding
    of the part, the reconstructed structure when the part is not JSON, and
    the minimal structure when the decoder raises anything else on it. *)
Theorem embedded_object_recovered (rt : runtime) (pre inner post : string) :
  str_find pre "{" = -1 → str_rfind post "}" = -1 →
  let text := pre +:+ ("{" +:+ inner +:+ "}") +:+ post in
  let part := "{" +:+ inner +:+ "}" in
  json_part text = Some part
  ∧ _extract_json_from_text rt text
    = match json_loads rt part with
      | Ok extracted => Ok extracted
      | Raise JSONDecodeError => Ok reconstructed_structure
      | Raise other => Raise other
      end
  ∧ (json_loads rt (_clean_response rt text) = Raise JSONDecodeError →
     parse_json_response rt text
     = Ok match json_loads rt part with
          | Ok extracted => extracted
          | Raise JSONDecodeError => reconstructed_structure
          | Raise _ => minimal_structure
          end).
Proof.
  intros Hpre Hpost. cbv zeta.
  destruct (braces_found pre inner post Hpre Hpost) as (Hfind & Hrfind & Hslice).
  cbv zeta in Hfind, Hrfind, Hslice.
  assert (Hpart : json_part (pre +:+ ("{" +:+ inner +:+ "}") +:+ post)
                  = Some ("{" +:+ inner +:+ "}")).
  { unfold json_part. cbv zeta. rewrite Hslice, Hrfind, Hfind.
    destruct (_ =? -1) eqn:H1; [lia|]. destruct (_ =? 0) eqn:H2; [|done].
    change ("{" +:+ inner +:+ "}") with (String "{" (inner +:+ "}")) in H2.
    cbn [String.length] in H2. apply Z.eqb_eq in H2.
      generalize dependent (String.length (inner +:+ "}")). intros n Hn. lia. }
  assert (Hextract : _extract_json_from_text rt (pre +:+ ("{" +:+ inner +:+ "}") +:+ post)
                     = match json_loads rt ("{" +:+ inner +:+ "}") with
                       | Ok extracted => Ok extracted
                       | Raise JSONDecodeError => Ok reconstructed_structure
                       | Raise other => Raise other
                       end).
  { unfold _extract_json_from_text. cbv zeta. rewrite Hslice, Hrfind, Hfind.
    destruct (_ =? -1) eqn:H1; [lia|]. destruct (_ =? 0) eqn:H2.
    { change ("{" +:+ inner +:+ "}") with (String "{" (inner +:+ "}")) in H2.
      cbn [String.length] in H2. apply Z.eqb_eq in H2.
      generalize dependent (String.length (inner +:+ "}")). intros n Hn. lia. }
    reflexivity. }
  split; [done|]. split; [done|].
  intros Hnone. unfold parse_json_response. cbv zeta. rewrite Hnone, Hextract.
  destruct (json_loads rt ("{" +:+ inner +:+ "}")) as [extracted|e]; [reflexivity|].
  by destruct e.
Qed.

(** X10.  A JSON completion raises exactly when the reply is there and not
    empty and the decoder raises, on its cleaned text, something that is not
    a JSON decoding error.  It gives nothing when there is no client, when
    the request failed, when the stripped reply is empty, and when the reply
    parses to [null], and in no other case: a value it gives is never
    [null]. *)
Theorem call_json_completion_outcomes (rt : runtime) (client : option unit)
  (reply : outcome string) :
  (∀ e, call_json_completion rt client reply = Raise e
        ↔ client ≠ None
          ∧ ∃ content, reply = Ok content ∧ str_strip rt content ≠ ""
              ∧ json_loads rt (_clean_response rt (str_strip rt content)) = Raise e
              ∧ e ≠ JSONDecodeError)
  ∧ (call_json_completion rt client reply = Ok None
     ↔ client = None ∨ (∃ e, reply = Raise e)
       ∨ ∃ content, reply = Ok content
           ∧ (str_strip rt content = ""
              ∨ parse_json_response rt (str_strip rt content) = Ok JNull))
  ∧ (∀ v, call_json_completion rt client reply = Ok (Some v) → v ≠ JNull).
Proof.
  unfold call_json_completion, call_completion.
  destruct client as [c|].
  2:{ split; [intros e; split; [discriminate|by intros [? _]]|].
      split; [split; [by left|done]|discriminate]. }
  destruct reply as [content|e0].
  2:{ split; [intros e; split; [discriminate|by intros (_ & ? & ? & _)]|].
      split; [split; [right; left; by eexists|done]|discriminate]. }
  destruct (String.eqb (str_strip rt content) "") eqn:Hempty.
  - apply String.eqb_eq in Hempty. split.
    { intros e. split; [discriminate|]. intros (_ & content' & [= <-] & Hne & _). done. }
    split; [|discriminate]. split; [|done]. intros _. right. right.
    exists content. split; [done|by left].
  - apply String.eqb_neq in Hempty.
    pose proof (parse_json_response_raise rt (str_strip rt content)) as Hraise.
    destruct (parse_json_response rt (str_strip rt content)) as [v|e0] eqn:Hparse; simpl.
    + split.
      { intros e. split; [discriminate|].
        intros (_ & content' & [= <-] & _ & Hload & Hne).
        assert (Hr : Ok v = Raise e) by (apply Hraise; by split). discriminate Hr. }
      split.
      * split.
        -- intros Hnone. right. right. exists content. split; [done|]. right.
           destruct v; try discriminate Hnone. exact Hparse.
        -- intros [Hc | [[e He] | (content' & [= <-] & [Hs | Hv])]]; try done.
           rewrite Hparse in Hv. by injection Hv as ->.
      * intros v' Hv' ->. by destruct v.
    + split.
      { intros e. split.
        - intros [= <-]. split; [done|]. exists content.
          destruct (Hraise e0) as [Hr _]. destruct (Hr eq_refl) as [Hload Hne]. done.
        - intros (_ & content' & [= <-] & _ & Hload & Hne).
          assert (Hr : @Raise json e0 = Raise e) by (apply Hraise; by split).
          by injection Hr as ->. }
      split; [|discriminate].
      split; [discriminate|].
      intros [Hc | [[e He] | (content' & [= <-] & [Hs | Hv])]]; try done.
      rewrite Hparse in Hv. discriminate Hv.
Qed.

End Embedded.

Lemma embedded_object_recovered_witness :
  let inner := Sample.quoted "anomalies_detected" +:+ ": {" +:+ Sample.quoted "cpu"
               +:+ ": true}, " +:+ Sample.quoted "severity_score" +:+ ": 7" in
  let text := "Voici l'analyse: " +:+ ("{" +:+ inner +:+ "}") +:+ " Fin." in
  AzureOpenAIService.json_part text = Some ("{" +:+ inner +:+ "}")
  ∧ AzureOpenAIService._extract_json_from_text Sample.runtime text
    = Ok Sample.detection_value
  ∧ (json_loads Sample.runtime (AzureOpenAIService._clean_response Sample.runtime text)
     = Raise JSONDecodeError
     → AzureOpenAIService.parse_json_response Sample.runtime text = Ok Sample.detection_value).
Proof.
  cbv zeta.
  apply (embedded_object_recovered Sample.runtime "Voici l'analyse: "
           (Sample.quoted "anomalies_detected" +:+ ": {" +:+ Sample.quoted "cpu"
            +:+ ": true}, " +:+ Sample.quoted "severity_score" +:+ ": 7") " Fin.");
    reflexivity.
Defined.

(** ** The view on a snapshot that has a result *)

Section ViewOnResults.

Lemma rows_of_app (db : database) (row : AnomalyDetection) (i : nat) (tbl : list AnomalyDetection) :
  anomaly_table db = tbl ++ [row] →
  rows_of db i
  = List.filter (fun r => Nat.eqb (metrics_id r) i) tbl
    ++ (if Nat.eqb (metrics_id row) i then [row] else []).
Proof. unfold rows_of. intros ->. by rewrite List.filter_app. Qed.

Lemma rows_of_none (db : database) (metrics : InfrastructureMetrics) :
  anomaly_detection_of db metrics = None ↔ rows_of db (id metrics) = [].
Proof.
  unfold anomaly_detection_of, rows_of.
  induction (anomaly_table db) as [|r tbl IH]; simpl; [done|].
  destruct (Nat.eqb (metrics_id r) (id metrics)); [done|exact IH].
Qed.



Lemma service_two_step (rt : runtime) (svc : service) (r : replies) (f : faults)
  (metrics : InfrastructureMetrics) (db : database) :
  two_step_outcome metrics db (AnomalyDetectionService.analyze_metrics rt svc r f metrics db).
Proof.
  unfold AnomalyDetectionService.analyze_metrics.
  destruct (the_detector svc); [apply classic_two_step | apply llm_two_step].
Qed.

Lemma service_reanalysis (rt : runtime) (svc : service) (r : replies) (f : faults)
  (metrics : InfrastructureMetrics) (db : database) (existing : AnomalyDetection) :
  anomaly_detection_of db metrics = Some existing →
  AnomalyDetectionService.analyze_metrics rt svc r f metrics db = (None, db).
Proof.
  intros Hfind. unfold AnomalyDetectionService.analyze_metrics.
  destruct (the_detector svc); [by eapply classic_reanalysis | by eapply llm_reanalysis].
Qed.

(** X11.  A snapshot whose result was written while its status was not
    stays out of reach of the view: as long as it is not marked as analysed
    and has a result, every analysis asked for it fails and leaves the store
    as it is; the answer blames the configuration of the AI when the method
    asked for is ['llm']. *)
Theorem unfinished_snapshot_stuck (rt : runtime) (cfg : config) (r : replies) (f : faults)
  (metrics : InfrastructureMetrics) (method : string) (db : database)
  (existing : AnomalyDetection) :
  analysis_completed metrics = false →
  anomaly_detection_of db metrics = Some existing →
  AnomalyAnalysisView._analyze_single_metric rt cfg r f metrics method db
  = (if String.eqb method "llm" then LlmNotConfigured else AnalysisFailed, db).
Proof.
  intros Hdone Hfind. unfold AnomalyAnalysisView._analyze_single_metric.
  rewrite Hdone. rewrite (service_reanalysis _ _ _ _ _ _ existing Hfind).
  by destruct (String.eqb method "llm").
Qed.


(** The object the AI detector returns holds what [objects.create] was
    given: the flags converted from the merged answer and its severity
    score, of which the row stored holds the coercions. *)
Lemma llm_returned_object (rt : runtime) (azure_client : option unit) (r : replies)
  (f : faults) (metrics : InfrastructureMetrics) (db db' : database)
  (row : AnomalyDetection) :
  LLMAnomalyDetector.analyze_metrics rt azure_client r f metrics db = (Some row, db') →
  ∃ llm_analysis model_anomalies severity_score summary,
    LLMAnomalyDetector.detect_anomalies rt azure_client r = Some llm_analysis
    ∧ LLMAnomalyDetector._convert_llm_to_model_format llm_analysis = Ok model_anomalies
    ∧ py_get llm_analysis "severity_score" (JInt 5) = Ok severity_score
    ∧ LLMAnomalyDetector.new_row rt metrics model_anomalies summary severity_score = Ok row
    ∧ returned_attributes rt {| method := "llm"; the_detector := LLM azure_client |} r row
      = ((fun fk => default (JBool false) (model_anomalies !! fk.1))
           <$> LLMAnomalyDetector.anomaly_keys,
         severity_score).
Proof.
  unfold LLMAnomalyDetector.analyze_metrics, returned_attributes. cbn [the_detector].
  destruct (LLMAnomalyDetector.detect_anomalies rt azure_client r) as [llm_analysis|];
    [|discriminate].
  destruct (negb (truthy llm_analysis)); [discriminate|].
  destruct (LLMAnomalyDetector._convert_llm_to_model_format llm_analysis)
    as [model_anomalies|e] eqn:Hconverted; cbn [mbind outcome_bind]; [|discriminate].
  destruct (py_get llm_analysis "severity_score" (JInt 5)) as [severity_score|e]
    eqn:Hscore; cbn [mbind outcome_bind]; [|discriminate].
  destruct (LLMAnomalyDetector.generate_llm_summary rt llm_analysis) as [summary|e];
    cbn [mbind outcome_bind]; [|discriminate].
  destruct (LLMAnomalyDetector.new_row rt metrics model_anomalies summary severity_score)
    as [anomaly_detection|e] eqn:Hrow; cbn [mbind outcome_bind]; [|discriminate].
  destruct (objects_create f anomaly_detection db) as [db1|e]; [|discriminate].
  match goal with
  | |- context [match ?saved with Ok _ => _ | Raise _ => _ end = _] =>
      destruct saved as [db2|e]; [|discriminate]
  end.
  intros [= <- <-]. by exists llm_analysis, model_anomalies, severity_score, summary.
Qed.


Lemma NoDup_filter_ids (keep : AnomalyDetection → bool) (tbl : list AnomalyDetection) :
  NoDup (metrics_id <$> tbl) → NoDup (metrics_id <$> List.filter keep tbl).
Proof.
  induction tbl as [|r tbl IH]; [done|].
  rewrite fmap_cons, NoDup_cons. intros [Hnotin Hnodup]. cbn [List.filter].
  destruct (keep r); [|by apply IH].
  rewrite fmap_cons, NoDup_cons. split; [|by apply IH].
  intros Hin. apply Hnotin.
  apply list_elem_of_fmap in Hin as (x & -> & Hx).
  apply list_elem_of_fmap. exists x. split; [done|].
  apply list_elem_of_In in Hx. apply filter_In in Hx as [Hx _].
  by apply list_elem_of_In.
Qed.

Lemma rows_of_nil_notin (db : database) (i : nat) :
  rows_of db i = [] → i ∉ metrics_id <$> anomaly_table db.
Proof.
  unfold rows_of. induction (anomaly_table db) as [|r tbl IH].
  - intros _ Hin. by apply elem_of_nil in Hin.
  - cbn [List.filter]. destruct (Nat.eqb_spec (metrics_id r) i); [done|].
    intros Hnil. rewrite fmap_cons, not_elem_of_cons. split; [done|]. by apply IH.
Qed.

Lemma service_one_to_one (rt : runtime) (svc : service) (r : replies) (f : faults)
  (metrics : InfrastructureMetrics) (db : database) :
  one_to_one db →
  one_to_one (AnomalyDetectionService.analyze_metrics rt svc r f metrics db).2.
Proof.
  intros Hnodup. unfold one_to_one in *.
  destruct (anomaly_detection_of db metrics) as [existing|] eqn:Hfind.
  { by rewrite (service_reanalysis _ _ _ _ _ _ existing Hfind). }
  apply rows_of_none, rows_of_nil_notin in Hfind.
  pose proof (service_two_step rt svc r f metrics db) as Hstep.
  unfold two_step_outcome in Hstep.
  assert (Hsnoc : ∀ row, metrics_id row = id metrics →
                         NoDup (metrics_id <$> anomaly_table db ++ [row])).
  { intros row Hid. rewrite fmap_app. apply NoDup_app. split; [done|].
    split; [|apply NoDup_singleton].
    intros x Hx Hrow. apply list_elem_of_singleton in Hrow. simpl in Hrow. congruence. }
  destruct (AnomalyDetectionService.analyze_metrics rt svc r f metrics db) as [[row|] db'];
    simpl in *.
  - destruct Hstep as (Hid & -> & _). by apply Hsnoc.
  - destruct Hstep as (_ & [-> | (row & Hid & ->)]); [done|by apply Hsnoc].
Qed.

(** X13.  The one-to-one link between a snapshot and its result is kept:
    in a store where no two results belong to the same snapshot, neither an
    analysis by the selector nor a request to the view, whatever the method
    and whatever fails, leaves two results for one snapshot. *)
Theorem one_result_per_snapshot (rt : runtime) (cfg : config) (r : replies) (f : faults)
  (metrics : InfrastructureMetrics) (method : string) (db : database) :
  one_to_one db →
  (∀ svc, one_to_one (AnomalyDetectionService.analyze_metrics rt svc r f metrics db).2)
  ∧ one_to_one (AnomalyAnalysisView._analyze_single_metric rt cfg r f metrics method db).2.
Proof.
  intros Hnodup. split; [intros svc; by apply service_one_to_one|].
  unfold AnomalyAnalysisView._analyze_single_metric.
  assert (Hrerun : ∀ m db0, one_to_one db0 →
    one_to_one
      (match AnomalyDetectionService.analyze_metrics rt
               (AnomalyDetectionService.init rt cfg method) r f m db0 with
       | (None, db') =>
           if String.eqb method "llm" then (LlmNotConfigured, db') else (AnalysisFailed, db')
       | (Some anomaly_detection, db') =>
           let attributes :=
             returned_attributes rt (AnomalyDetectionService.init rt cfg method) r
               anomaly_detection in
           match read_result rt attributes with
           | Ok (total_anomalies, is_critical) =>
               (AnalysisSuccess anomaly_detection total_anomalies attributes.2 is_critical,
                db')
           | Raise _ => (ServerError, db')
           end
       end).2).
  { intros m db0 H0.
    pose proof (service_one_to_one rt (AnomalyDetectionService.init rt cfg method)
                  r f m db0 H0) as H1.
    destruct (AnomalyDetectionService.analyze_metrics rt _ r f m db0) as [[row|] db'];
      cbn [fst snd] in *.
    - cbv zeta. by destruct (read_result rt _) as [[total_anomalies is_critical]|e].
    - by destruct (String.eqb method "llm"). }
  destruct (if analysis_completed metrics then anomaly_detection_of db metrics else None)
    as [existing|]; [|by apply Hrerun].
  destruct (String.eqb (analysis_method existing) method); [done|].
  assert (Hdel : one_to_one (anomaly_delete existing db)).
  { unfold one_to_one, anomaly_delete. simpl. by apply NoDup_filter_ids. }
  unfold metrics_save. destruct (save_fails f); [done|]. simpl.
  by apply Hrerun.
Qed.

End ViewOnResults.

Lemma unfinished_snapshot_stuck_witness :
  anomaly_detection_of half_written quiet_snapshot = Some Sample.existing
  ∧ stored_status half_written (id quiet_snapshot) = Some (false, false)
  ∧ AnomalyAnalysisView._analyze_single_metric Sample.runtime Sample.cfg Sample.replies_15
      no_faults quiet_snapshot "llm" half_written
    = (LlmNotConfigured, half_written).
Proof.
  split; [reflexivity|]. split; [reflexivity|].
  apply (unfinished_snapshot_stuck Sample.runtime Sample.cfg Sample.replies_15 no_faults
           quiet_snapshot "llm" half_written Sample.existing); reflexivity.
Defined.


(** The model answers the flag of the CPU as the text ['True']: the column
    reads it as a boolean, the result is stored and the snapshot marked as
    analysed and anomalous, and the sum of the flags of the returned object
    raises; the view answers a server error. *)
Lemma text_flag_server_error :
  let out := AnomalyAnalysisView._analyze_single_metric Sample.runtime Sample.cfg
               Sample.replies_text_flag no_faults quiet_snapshot "llm" Sample.db0 in
  out.1 = ServerError
  ∧ (∃ row, rows_of out.2 (id quiet_snapshot) = [row]
            ∧ cpu_anomaly row = true ∧ analysis_method row = "llm")
  ∧ stored_status out.2 (id quiet_snapshot) = Some (true, true)
  ∧ py_sum Sample.runtime (JInt 0) [JStr "True"; JBool false] = Raise TypeError.
Proof.
  cbv zeta. split; [vm_compute; reflexivity|].
  split; [eexists; vm_compute; repeat split|]. split; vm_compute; reflexivity.
Qed.

Lemma one_result_per_snapshot_witness :
  (∀ svc, one_to_one (AnomalyDetectionService.analyze_metrics Sample.runtime svc
                        Sample.replies_15 no_faults Sample.analyzed_snapshot Sample.db1).2)
  ∧ one_to_one (AnomalyAnalysisView._analyze_single_metric Sample.runtime Sample.cfg
                  Sample.replies_15 no_faults Sample.analyzed_snapshot "llm" Sample.db1).2.
Proof.
  apply (one_result_per_snapshot Sample.runtime Sample.cfg Sample.replies_15 no_faults
           Sample.analyzed_snapshot "llm" Sample.db1).
  unfold one_to_one. vm_compute. apply NoDup_singleton.
Defined.

(** ** The AI detector without an answer, and the fields it stores *)

Section LLMDetection.
Import LLMAnomalyDetector.

(** X14.  The AI detector writes nothing unless the first request gave a
    usable answer: without a client, when the request fails, when the
    decoder raises on its reply, whatever it raises, or decodes it to an
    empty value, the analysis returns nothing and the store is as before,
    whatever the two other requests would have given. *)
Theorem llm_no_answer_no_write (rt : runtime) (azure_client : option unit) (r : replies)
  (f : faults) (metrics : InfrastructureMetrics) (db : database) :
  (azure_client = None → analyze_metrics rt azure_client r f metrics db = (None, db))
  ∧ (∀ e, anomaly_detection_reply r = Raise e →
          analyze_metrics rt azure_client r f metrics db = (None, db))
  ∧ (∀ content, anomaly_detection_reply r = Ok content →
       match json_loads rt (LLMAnalysisEngine._clean_json_response rt
                              (str_strip rt content)) with
       | Ok parsed_response => truthy parsed_response = false
       | Raise _ => True
       end →
       analyze_metrics rt azure_client r f metrics db = (None, db)).
Proof.
  split; [by intros ->|].
  unfold analyze_metrics, detect_anomalies, LLMAnalysisEngine.call_llm_analysis.
  destruct azure_client as [c|]; [|done]. simpl. split.
  - intros e ->. reflexivity.
  - intros content -> Hfalsy. cbv zeta.
    destruct (json_loads rt _) as [v|e]; [|done].
    destruct v as [| | | | | |m]; cbn [py_optional]; try reflexivity;
      cbn [negb]; by rewrite Hfalsy.
Qed.

(** X15.  The conversion of the answer to the fields of a result always
    gives the nine flags and nothing else: each is what the model answered
    under its key, and [False] for a key the model left out; ['services'] is
    the key of the flag of the services.  It fails only when the answer, or
    what it holds under ['anomalies_detected'], is not a dict. *)
Theorem convert_gives_nine_flags (llm_analysis : json) :
  match llm_analysis with
  | JObj a =>
      match default (JObj ∅) (a !! "anomalies_detected") with
      | JObj d =>
          ∃ m, _convert_llm_to_model_format llm_analysis = Ok m
               ∧ Forall (fun fk => m !! fk.1 = Some (default (JBool false) (d !! fk.2)))
                   anomaly_keys
               ∧ (∀ k, is_Some (m !! k) → k ∈ nine_flags)
      | _ => _convert_llm_to_model_format llm_analysis = Raise AttributeError
      end
  | _ => _convert_llm_to_model_format llm_analysis = Raise AttributeError
  end.
Proof.
  destruct llm_analysis as [| | | | | |a]; try reflexivity.
  unfold _convert_llm_to_model_format. simpl.
  destruct (default (JObj ∅) (a !! "anomalies_detected")) as [| | | | | |d]; try reflexivity.
  simpl. eexists. split; [reflexivity|]. split.
  - unfold anomaly_keys. repeat constructor; simpl; by simplify_map_eq.
  - intros k [v Hk]. simpl in Hk. unfold nine_flags.
    repeat match type of Hk with
           | <[?key := _]> _ !! k = Some v =>
               destruct (decide (k = key)) as [-> | ?];
               [repeat first [apply list_elem_of_here | apply list_elem_of_further]
               | rewrite lookup_insert_ne in Hk by done]
           end.
    by rewrite lookup_empty in Hk.
Qed.

End LLMDetection.

(** ** The answer of the model, validated *)

Section Validation.
Import RecommendationEngine.

Lemma fill_lookup (fields : list string) (m : gmap string json) (k : string) :
  foldl (fun (response : gmap string json) field =>
           match response !! field with
           | Some _ => response
           | None => <[field := _get_default_value field]> response
           end) m fields !! k
  = match m !! k with
    | Some v => Some v
    | None => if bool_decide (k ∈ fields) then Some (_get_default_value k) else None
    end.
Proof.
  revert m. induction fields as [|f fields IH]; intros m.
  - cbn [foldl]. destruct (m !! k); [done|].
    by rewrite bool_decide_eq_false_2 by apply not_elem_of_nil.
  - cbn [foldl]. rewrite IH. destruct (decide (k = f)) as [-> | Hne].
    + destruct (m !! f) eqn:Hf.
      * by rewrite Hf.
      * rewrite lookup_insert_eq.
        by rewrite (bool_decide_eq_true_2 (f ∈ f :: fields)) by apply list_elem_of_here.
    + assert (Hmem : bool_decide (k ∈ f :: fields) = bool_decide (k ∈ fields)).
      { apply bool_decide_ext. rewrite elem_of_cons. split; [by intros [? | ?]|by right]. }
      rewrite Hmem. destruct (m !! f); [done|]. by rewrite lookup_insert_ne.
Qed.

Lemma estimate_confidence_le (rt : runtime) (response : gmap string json) (c : Q) :
  _estimate_confidence rt response = Ok c → (c <= 1)%Q.
Proof.
  unfold _estimate_confidence. intros H. bind_inv H. injection H as <-.
  destruct (Qle_bool _ 1) eqn:Hle; [by apply Qle_bool_iff|apply Qle_refl].
Qed.

Lemma in_required (field : string) :
  field ∈ required_fields →
  field = "executive_summary" ∨ field = "detailed_analysis" ∨ field = "recommendations"
  ∨ field = "priority_level" ∨ field = "estimated_impact"
  ∨ field = "implementation_timeframe".
Proof.
  unfold required_fields. intros H.
  repeat (apply elem_of_cons in H as [-> | H]; [tauto|]).
  by apply elem_of_nil in H.
Qed.

(** X16.  What the engine returns for an answer of the model that is a
    dict has the six required fields, a list of recommendations, one of the
    four priorities, the marks of the analysis and a confidence of at most 1.
    A list of recommendations and a valid priority given by the model are
    kept, and so is every other field of the answer. *)
Theorem validated_response_shape (rt : runtime) (m : gmap string json)
  (metrics : InfrastructureMetrics) :
  match _validate_and_enrich_response rt (JObj m) metrics with
  | Ok v =>
      ∃ m', v = JObj m'
        ∧ (∀ field, field ∈ required_fields → is_Some (m' !! field))
        ∧ (∃ l, m' !! "recommendations" = Some (JArr l)
                ∧ ∀ l0, m !! "recommendations" = Some (JArr l0) → l = l0)
        ∧ (∃ p, m' !! "priority_level" = Some (JStr p) ∧ p ∈ valid_priorities
                ∧ ∀ p0, m !! "priority_level" = Some (JStr p0) → p0 ∈ valid_priorities →
                        p = p0)
        ∧ m' !! "analysis_type" = Some (JStr "llm_recommendations")
        ∧ m' !! "metrics_id" = Some (JInt (Z.of_nat (id metrics)))
        ∧ (∃ c, m' !! "llm_confidence" = Some (JFloat c) ∧ (c <= 1)%Q)
        ∧ (∀ k, k ∉ ["recommendations"; "priority_level"; "analysis_type"; "metrics_id";
                     "llm_confidence"] →
                is_Some (m !! k) → m' !! k = m !! k)
  | Raise e => True
  end.
Proof.
  unfold _validate_and_enrich_response.
  set (filled := foldl _ m required_fields).
  assert (Hfilled : ∀ k, filled !! k
                         = match m !! k with
                           | Some v => Some v
                           | None => if bool_decide (k ∈ required_fields)
                                     then Some (_get_default_value k) else None
                           end) by (intros k; apply fill_lookup).
  set (listed := match filled !! "recommendations" with
                 | Some (JArr _) => filled
                 | _ => <["recommendations" := JArr []]> filled
                 end).
  assert (Hlisted : ∀ k, k ≠ "recommendations" → listed !! k = filled !! k).
  { intros k Hk. subst listed. destruct (filled !! "recommendations") as [[]|];
      by rewrite ?lookup_insert_ne. }
  assert (Hrecs : ∃ l, listed !! "recommendations" = Some (JArr l)
                       ∧ ∀ l0, m !! "recommendations" = Some (JArr l0) → l = l0).
  { subst listed. destruct (filled !! "recommendations") as [v|] eqn:Hv.
    - pose proof Hv as Hm. rewrite Hfilled in Hm.
      destruct v as [| | | | |l|];
        try (exists []; split; [by rewrite lookup_insert_eq|];
             intros l0 Hl0; rewrite Hl0 in Hm; discriminate Hm).
      exists l. split; [done|]. intros l0 Hl0. rewrite Hl0 in Hm. by injection Hm.
    - exists []. split; [by rewrite lookup_insert_eq|].
      intros l0 Hl0. rewrite Hfilled, Hl0 in Hv. discriminate Hv. }
  cbv zeta.
  set (tagged := <["metrics_id" := _]> (<["analysis_type" := _]> listed)).
  destruct (_estimate_confidence rt tagged) as [c|e] eqn:Hconf; [|done].
  cbn [mbind outcome_bind]. apply estimate_confidence_le in Hconf.
  set (scored := <["llm_confidence" := JFloat c]> tagged).
  assert (Hscored : ∀ k, k ∉ ["analysis_type"; "metrics_id"; "llm_confidence"] →
                         scored !! k = listed !! k).
  { intros k Hk. subst scored tagged.
    rewrite !lookup_insert_ne; [done|..]; intros <-; apply Hk;
      repeat first [apply list_elem_of_here | apply list_elem_of_further]. }
  assert (Hnot : ∀ k (ks avoid : list string),
             k ∈ ks → (∀ x, x ∈ ks → x ∉ avoid) → k ∉ avoid) by (intros; auto).
  assert (Hprio : scored !! "priority_level" = filled !! "priority_level").
  { rewrite Hscored, Hlisted; [done|done|].
    intros H. repeat (apply elem_of_cons in H as [H | H]; [discriminate H|]).
    by apply elem_of_nil in H. }
  assert (Hprio_in : is_Some (filled !! "priority_level")).
  { rewrite Hfilled. destruct (m !! "priority_level"); [by eexists|].
    rewrite bool_decide_eq_true_2; [by eexists|].
    unfold required_fields.
    repeat first [apply list_elem_of_here | apply list_elem_of_further]. }
  set (final := if invalid_priority (default JNull (scored !! "priority_level"))
                then <["priority_level" := JStr "medium"]> scored else scored).
  assert (Hfinal : ∀ k, k ≠ "priority_level" → final !! k = scored !! k).
  { intros k Hk. subst final. destruct (invalid_priority _); by rewrite ?lookup_insert_ne. }
  exists final. split; [done|].
  assert (Hlevel : ∃ p, final !! "priority_level" = Some (JStr p) ∧ p ∈ valid_priorities
             ∧ ∀ p0, m !! "priority_level" = Some (JStr p0) → p0 ∈ valid_priorities →
                     p = p0).
  { subst final. destruct (invalid_priority _) eqn:Hinv.
    - exists "medium". split; [by rewrite lookup_insert_eq|].
      split; [unfold valid_priorities;
              repeat first [apply list_elem_of_here | apply list_elem_of_further]|].
      intros p0 Hp0 Hvalid. rewrite Hprio, Hfilled, Hp0 in Hinv. simpl in Hinv.
      by rewrite bool_decide_eq_true_2 in Hinv.
    - destruct Hprio_in as [v Hv]. rewrite Hprio, Hv in Hinv. simpl in Hinv.
      destruct v as [| | | |p| |]; try discriminate Hinv.
      exists p. split; [by rewrite Hprio|].
      apply negb_false_iff, bool_decide_eq_true in Hinv. split; [done|].
      intros p0 Hp0 _. rewrite Hfilled, Hp0 in Hv. by injection Hv. }
  assert (Hlist : ∃ l, final !! "recommendations" = Some (JArr l)
                       ∧ ∀ l0, m !! "recommendations" = Some (JArr l0) → l = l0).
  { destruct Hrecs as (l & Hl & Hkeep). exists l. split; [|done].
    rewrite Hfinal, Hscored; [done| |done].
    intros H. repeat (apply elem_of_cons in H as [H | H]; [discriminate H|]).
    by apply elem_of_nil in H. }
  assert (Hother : ∀ k, k ∉ ["recommendations"; "priority_level"; "analysis_type";
                             "metrics_id"; "llm_confidence"] →
                        final !! k = filled !! k).
  { intros k Hk.
    rewrite Hfinal, Hscored, Hlisted; [done|..].
    - intros ->. apply Hk. apply list_elem_of_here.
    - intros H. apply Hk. by do 2 apply list_elem_of_further.
    - intros ->. apply Hk. apply list_elem_of_further, list_elem_of_here. }
  split.
  { intros field Hfield.
    apply in_required in Hfield as [-> | [-> | [-> | [-> | [-> | ->]]]]];
      try (destruct Hlist as (l & -> & _); by eexists);
      try (destruct Hlevel as (p & -> & _); by eexists);
      (rewrite Hother, Hfilled;
       [match goal with |- context [m !! ?f] => destruct (m !! f) end; [by eexists|];
        rewrite bool_decide_eq_true_2; [by eexists|];
        unfold required_fields;
        repeat first [apply list_elem_of_here | apply list_elem_of_further]
       |intros H; repeat (apply elem_of_cons in H as [H | H]; [discriminate H|]);
        by apply elem_of_nil in H]). }
  split; [done|]. split; [done|].
  split.
  { rewrite Hfinal by done. subst scored tagged.
    rewrite lookup_insert_ne by done. rewrite lookup_insert_ne by done.
    by rewrite lookup_insert_eq. }
  split.
  { rewrite Hfinal by done. subst scored tagged.
    rewrite lookup_insert_ne by done. by rewrite lookup_insert_eq. }
  split.
  { exists c. split; [|done]. rewrite Hfinal by done. subst scored.
    by rewrite lookup_insert_eq. }
  intros k Hk [v Hv]. rewrite Hother, Hfilled by done. by rewrite Hv.
Qed.

End Validation.

(** ** The enrichment of the answer and the report of the AI generator *)

Section Enrichment.
Import LLMRecommendationGenerator.

Lemma add_note_other (rt : runtime) (recommendations : gmap string json)
  (primary_area : string) (k : string) :
  k ≠ "detailed_analysis" →
  add_note rt recommendations primary_area !! k = recommendations !! k.
Proof.
  intros Hk. unfold add_note.
  destruct (recommendations !! "detailed_analysis") as [analysis|]; [|done].
  destruct (py_iadd_str rt analysis _); [|done]. by rewrite lookup_insert_ne.
Qed.

Lemma add_note_analysis (rt : runtime) (recommendations : gmap string json)
  (primary_area : string) :
  is_Some (recommendations !! "detailed_analysis") →
  is_Some (add_note rt recommendations primary_area !! "detailed_analysis").
Proof.
  intros [analysis Ha]. unfold add_note. rewrite Ha.
  destruct (py_iadd_str rt analysis _); [|by rewrite Ha].
  rewrite lookup_insert_eq. by eexists.
Qed.

Lemma append_focused_spec (area : string) (items base : list json) :
  ∃ extra, (append_focused ("focused_" +:+ area) items base).1 = base ++ extra
           ∧ (length extra <= length items)%nat
           ∧ Forall (marked area) extra.
Proof.
  revert base. induction items as [|item items IH]; intros base.
  - exists []. simpl. by rewrite app_nil_r.
  - simpl. destruct (py_setitem item "source" _) as [rec'|e] eqn:Hset.
    + destruct (IH (base ++ [rec'])) as (extra & Heq & Hlen & Hall).
      exists (rec' :: extra). split; [by rewrite Heq, <- app_assoc|].
      split; [simpl; lia|]. constructor; [|done].
      destruct item; try discriminate Hset. injection Hset as <-.
      eexists. split; [done|]. by rewrite lookup_insert_eq.
    + exists []. simpl. split; [by rewrite app_nil_r|]. split; [lia|constructor].
Qed.

Lemma append_focused_strings (source : string) (l : list string) (base : list json) :
  (append_focused source (JStr <$> l) base).1 = base.
Proof. by destruct l. Qed.

Lemma focused_items_cases (rt : runtime) (v : json) (items : list json) :
  focused_items rt v = Ok items →
  (length items <= 2)%nat ∨ ∃ l, items = JStr <$> l.
Proof.
  unfold focused_items. destruct v; try discriminate; simpl.
  - intros [= <-]. right. by eexists.
  - intros [= <-]. left. rewrite length_take. lia.
Qed.

Lemma merge_focused_other (rt : runtime) (recommendations focused_analysis : gmap string json)
  (primary_area : string) (k : string) :
  k ≠ "recommendations" → k ≠ "detailed_analysis" →
  merge_focused rt recommendations focused_analysis primary_area !! k = recommendations !! k.
Proof.
  intros Hrecs Hdetail. unfold merge_focused. cbv zeta.
  destruct (focused_items rt _) as [items|]; [|done].
  destruct (default (JArr []) (recommendations !! "recommendations")) as [| | | | |base|];
    try (destruct items; [by apply add_note_other|done]).
  destruct (append_focused _ items base) as [base' completed].
  destruct completed.
  - by rewrite add_note_other, lookup_insert_ne.
  - destruct (bool_decide _); by rewrite ?lookup_insert_ne.
Qed.

Lemma merge_focused_spec (rt : runtime) (recommendations focused_analysis : gmap string json)
  (primary_area : string) (base : list json) :
  recommendations !! "recommendations" = Some (JArr base) →
  let merged := merge_focused rt recommendations focused_analysis primary_area in
  (is_Some (recommendations !! "detailed_analysis") →
   is_Some (merged !! "detailed_analysis"))
  ∧ ∃ extra, merged !! "recommendations" = Some (JArr (base ++ extra))
             ∧ (length extra <= 2)%nat ∧ Forall (marked primary_area) extra.
Proof.
  intros Hbase. cbv zeta. unfold merge_focused. cbv zeta. rewrite Hbase. simpl.
  destruct (focused_items rt _) as [items|] eqn:Hitems.
  2:{ split; [done|]. exists []. rewrite app_nil_r.
    split; [done|]. split; [simpl; lia|constructor]. }
  destruct (append_focused_spec primary_area items base) as (extra & Heq & Hlen & Hall).
  assert (Hextra : (length extra <= 2)%nat ∨ extra = []).
  { apply focused_items_cases in Hitems as [Hshort | [l ->]]; [left; lia|right].
    rewrite append_focused_strings in Heq.
    apply (f_equal length) in Heq. rewrite length_app in Heq.
    destruct extra; [done|simpl in Heq; lia]. }
  assert (Hlen2 : (length extra <= 2)%nat) by (destruct Hextra as [? | ->]; simpl; lia).
  destruct (append_focused _ items base) as [base' completed]. simpl in Heq. subst base'.
  destruct completed.
  - split.
    + intros Hdetail. apply add_note_analysis. by rewrite lookup_insert_ne.
    + exists extra. rewrite add_note_other by done. by rewrite lookup_insert_eq.
  - split; [by rewrite lookup_insert_ne|].
    exists extra. by rewrite lookup_insert_eq.
Qed.

(** X17.  The enrichment of the primary answer only appends: the answer
    stays a dict, every field other than the list of recommendations and the
    detailed analysis, the overall priority among them, is as the model
    gave it, and the list of recommendations is the primary one followed by
    at most two actions, each marked with the area of the focused analysis.
    Without a critical area, or without a client, the answer is unchanged. *)
Theorem enrichment_appends (rt : runtime) (client : option unit) (r : rec_replies)
  (recs : gmap string json) (metrics : InfrastructureMetrics) :
  ∃ recs',
    _enrich_recommendations rt client r (JObj recs) metrics = JObj recs'
    ∧ (∀ k, k ≠ "recommendations" → k ≠ "detailed_analysis" → recs' !! k = recs !! k)
    ∧ (∀ base, recs !! "recommendations" = Some (JArr base) →
         ∃ extra, recs' !! "recommendations" = Some (JArr (base ++ extra))
                  ∧ (length extra <= 2)%nat
                  ∧ Forall (marked (default "" (head (_detect_critical_areas metrics))))
                      extra)
    ∧ (_detect_critical_areas metrics = [] ∨ client = None → recs' = recs).
Proof.
  unfold _enrich_recommendations. cbv zeta.
  assert (Hsame : ∃ recs', JObj recs = JObj recs'
    ∧ (∀ k, k ≠ "recommendations" → k ≠ "detailed_analysis" → recs' !! k = recs !! k)
    ∧ (∀ base, recs !! "recommendations" = Some (JArr base) →
         ∃ extra, recs' !! "recommendations" = Some (JArr (base ++ extra))
                  ∧ (length extra <= 2)%nat
                  ∧ Forall (marked (default "" (head (_detect_critical_areas metrics))))
                      extra)
    ∧ (_detect_critical_areas metrics = [] ∨ client = None → recs' = recs)).
  { exists recs. split; [done|]. split; [done|]. split; [|done].
    intros base Hbase. exists []. rewrite app_nil_r.
    split; [done|]. split; [simpl; lia|constructor]. }
  destruct (_detect_critical_areas metrics) as [|primary_area areas] eqn:Hareas; [done|].
  destruct client as [c|]; [|done]. simpl.
  destruct (RecommendationEngine.generate_focused_recommendations rt (Some c) r primary_area)
    as [[| | | | | |focused_analysis]|]; try done.
  destruct (bool_decide _); [|done].
  exists (merge_focused rt recs focused_analysis primary_area).
  split; [done|]. split; [intros k; apply merge_focused_other|].
  split; [|by intros [? | ?]].
  intros base Hbase.
  by destruct (merge_focused_spec rt recs focused_analysis primary_area base Hbase)
    as [_ Hextra].
Qed.

Lemma enrich_keeps_fields (rt : runtime) (client : option unit) (r : rec_replies)
  (recs : gmap string json) (metrics : InfrastructureMetrics) :
  (∃ base, recs !! "recommendations" = Some (JArr base)) →
  ∃ recs', _enrich_recommendations rt client r (JObj recs) metrics = JObj recs'
           ∧ ∀ k, is_Some (recs !! k) → is_Some (recs' !! k).
Proof.
  intros [base Hbase]. unfold _enrich_recommendations. cbv zeta.
  destruct (_detect_critical_areas metrics) as [|primary_area areas]; [by eexists|].
  destruct (AzureOpenAIService.is_available client); [|by eexists].
  destruct (RecommendationEngine.generate_focused_recommendations rt client r primary_area)
    as [[| | | | | |focused_analysis]|]; try by eexists.
  destruct (bool_decide _); [|by eexists].
  eexists. split; [done|]. intros k Hk.
  destruct (merge_focused_spec rt recs focused_analysis primary_area base Hbase)
    as [Hdetail (extra & Hextra & _)]. cbv zeta in Hdetail, Hextra.
  destruct (decide (k = "recommendations")) as [-> | Hk1]; [by rewrite Hextra|].
  destruct (decide (k = "detailed_analysis")) as [-> | Hk2]; [by apply Hdetail|].
  by rewrite merge_focused_other.
Qed.

Lemma validated_required (rt : runtime) (response : json) (metrics : InfrastructureMetrics) :
  match RecommendationEngine._validate_and_enrich_response rt response metrics with
  | Ok v =>
      ∃ m', v = JObj m'
            ∧ (∀ field, field ∈ RecommendationEngine.required_fields → is_Some (m' !! field))
            ∧ ∃ base, m' !! "recommendations" = Some (JArr base)
  | Raise _ => True
  end.
Proof.
  unfold RecommendationEngine._validate_and_enrich_response.
  destruct response as [| | | | | |m]; [exact I..|].
  set (filled := foldl _ m RecommendationEngine.required_fields).
  assert (Hfilled : ∀ field, field ∈ RecommendationEngine.required_fields →
                             is_Some (filled !! field)).
  { intros field Hfield. subst filled. rewrite fill_lookup.
    destruct (m !! field); [by eexists|]. rewrite bool_decide_eq_true_2 by done.
    by eexists. }
  set (listed := match filled !! "recommendations" with
                 | Some (JArr _) => filled
                 | _ => <["recommendations" := JArr []]> filled
                 end).
  assert (Hlisted : (∀ field, is_Some (filled !! field) → is_Some (listed !! field))
                    ∧ ∃ base, listed !! "recommendations" = Some (JArr base)).
  { subst listed. destruct (filled !! "recommendations") as [[| | | | |l|]|] eqn:Hrecs;
      try (split; [|by exists []; rewrite lookup_insert_eq];
           intros field Hfield;
           destruct (decide (field = "recommendations")) as [-> | ?];
           [rewrite lookup_insert_eq; by eexists|by rewrite lookup_insert_ne]).
    split; [done|by exists l]. }
  destruct Hlisted as [Hkeep [base Hbase]]. cbv zeta.
  destruct (RecommendationEngine._estimate_confidence rt _) as [c|e]; [|exact I].
  cbn [mbind outcome_bind].
  eexists. split; [reflexivity|].
  assert (Hins : ∀ (k field : string) (x : json) (d : gmap string json),
             is_Some (d !! field) → is_Some (<[k := x]> d !! field)).
  { intros k field x d Hd. destruct (decide (field = k)) as [-> | ?];
      [rewrite lookup_insert_eq; by eexists|by rewrite lookup_insert_ne]. }
  split.
  - intros field Hfield.
    destruct (RecommendationEngine.invalid_priority _); repeat apply Hins; auto.
  - destruct (RecommendationEngine.invalid_priority _);
      rewrite ?lookup_insert_ne by done; by exists base.
Qed.

Lemma report_of_fields (write_fails : bool) (metrics : InfrastructureMetrics)
  (fields : gmap string json) (method : string) :
  (∀ field, field ∈ RecommendationEngine.required_fields → is_Some (fields !! field)) →
  (report_of write_fails metrics fields method = None ↔ write_fails = true)
  ∧ ∀ rep, report_of write_fails metrics fields method = Some rep →
           generation_method rep = method ∧ report_metrics_id rep = id metrics.
Proof.
  intros Hfields. unfold report_of, py_getitem.
  assert (Hin : ∀ field, field ∈ RecommendationEngine.required_fields →
                         ∃ v, fields !! field = Some v) by (intros; by apply Hfields).
  destruct (Hin "executive_summary") as [v1 ->];
    [unfold RecommendationEngine.required_fields;
     repeat first [apply list_elem_of_here | apply list_elem_of_further]|].
  destruct (Hin "detailed_analysis") as [v2 ->];
    [unfold RecommendationEngine.required_fields;
     repeat first [apply list_elem_of_here | apply list_elem_of_further]|].
  destruct (Hin "recommendations") as [v3 ->];
    [unfold RecommendationEngine.required_fields;
     repeat first [apply list_elem_of_here | apply list_elem_of_further]|].
  destruct (Hin "priority_level") as [v4 ->];
    [unfold RecommendationEngine.required_fields;
     repeat first [apply list_elem_of_here | apply list_elem_of_further]|].
  destruct (Hin "estimated_impact") as [v5 ->];
    [unfold RecommendationEngine.required_fields;
     repeat first [apply list_elem_of_here | apply list_elem_of_further]|].
  destruct (Hin "implementation_timeframe") as [v6 ->];
    [unfold RecommendationEngine.required_fields;
     repeat first [apply list_elem_of_here | apply list_elem_of_further]|].
  simpl. destruct write_fails; simpl.
  - split; [done|]. intros rep H. discriminate H.
  - split; [split; discriminate|]. by intros rep [= <-].
Qed.

Lemma fallback_fields (rt : runtime) (metrics : InfrastructureMetrics)
  (anomalies_summary : string) (field : string) :
  field ∈ RecommendationEngine.required_fields →
  is_Some (LLMGeneration._get_fallback_recommendations rt metrics anomalies_summary !! field).
Proof.
  intros Hfield. unfold LLMGeneration._get_fallback_recommendations, data_to_dict. cbv zeta.
  apply in_required in Hfield as [-> | [-> | [-> | [-> | [-> | ->]]]]];
    by simplify_map_eq.
Qed.

Lemma llm_generated_fields (rt : runtime) (client : option unit) (r : rec_replies)
  (metrics : InfrastructureMetrics) (anomalies_summary : string) :
  ∃ d, LLMGeneration.generate_recommendations rt client r metrics anomalies_summary = JObj d
       ∧ ∀ field, field ∈ RecommendationEngine.required_fields → is_Some (d !! field).
Proof.
  unfold LLMGeneration.generate_recommendations.
  assert (Hfallback : ∃ d,
    JObj (LLMGeneration._get_fallback_recommendations rt metrics anomalies_summary) = JObj d
    ∧ ∀ field, field ∈ RecommendationEngine.required_fields → is_Some (d !! field)).
  { eexists. split; [done|]. apply fallback_fields. }
  destruct (negb _); [done|].
  destruct (RecommendationEngine.generate_recommendations rt client r metrics)
    as [recommendations|] eqn:Hgen; [|done].
  destruct (truthy recommendations); [|done].
  unfold RecommendationEngine.generate_recommendations in Hgen.
  destruct (negb _); [discriminate|].
  destruct (AzureOpenAIService.call_json_completion rt client _) as [response|];
    simpl in Hgen; [|discriminate].
  destruct (truthy_opt response); simpl in Hgen; [|discriminate].
  destruct (RecommendationEngine._validate_and_enrich_response rt _ metrics) as [v|] eqn:Hv;
    simpl in Hgen; [|discriminate].
  injection Hgen as <-.
  pose proof (validated_required rt (default JNull response) metrics) as Hshape.
  rewrite Hv in Hshape. destruct Hshape as (m' & -> & Hfields & Hbase).
  destruct (enrich_keeps_fields rt client r m' metrics Hbase) as (recs' & -> & Hkeep).
  exists recs'. split; [done|]. intros field Hfield. by apply Hkeep, Hfields.
Qed.

(** X18.  Both generators always have a report to write: the report is
    missing exactly when its write failed.  The report of the AI generator is
    labelled ['llm'] whether its content came from the model or, the model
    being unavailable or its answer unusable, from the rules. *)
Theorem report_missing_iff_write_failed (rt : runtime) (client : option unit)
  (r : rec_replies) (write_fails : bool) (metrics : InfrastructureMetrics)
  (existing : option AnomalyDetection) :
  (LLMGeneration.generate_report rt client r write_fails metrics existing = None
   ↔ write_fails = true)
  ∧ (classic_generate_report rt write_fails metrics existing = None ↔ write_fails = true)
  ∧ (∀ rep, LLMGeneration.generate_report rt client r write_fails metrics existing = Some rep →
            generation_method rep = "llm" ∧ report_metrics_id rep = id metrics)
  ∧ (∀ rep, classic_generate_report rt write_fails metrics existing = Some rep →
            generation_method rep = "classic" ∧ report_metrics_id rep = id metrics).
Proof.
  unfold LLMGeneration.generate_report, classic_generate_report. cbv zeta.
  set (summary := match existing with Some _ => _ | None => _ end).
  destruct (llm_generated_fields rt client r metrics summary) as (d & -> & Hfields).
  destruct (report_of_fields write_fails metrics d "llm" Hfields) as [Hnone Hsome].
  assert (Hclassic : ∀ field, field ∈ RecommendationEngine.required_fields →
            is_Some (data_to_dict
                       (ClassicRecommendationGenerator.generate_recommendations rt metrics
                          summary) !! field)).
  { intros field Hfield. unfold data_to_dict.
    apply in_required in Hfield as [-> | [-> | [-> | [-> | [-> | ->]]]]];
      by simplify_map_eq. }
  destruct (report_of_fields write_fails metrics _ "classic" Hclassic) as [Hnone' Hsome'].
  done.
Qed.

End Enrichment.

(** ** The overall priority of the reports of both generators *)

Section ReportPriority.
Import LLMRecommendationGenerator.

Lemma validated_priority (rt : runtime) (raw : gmap string json)
  (metrics : InfrastructureMetrics) :
  match RecommendationEngine._validate_and_enrich_response rt (JObj raw) metrics with
  | Ok v =>
      ∃ m p, v = JObj m ∧ m !! "priority_level" = Some (JStr p)
             ∧ p ∈ RecommendationEngine.valid_priorities
             ∧ p = match raw !! "priority_level" with
                   | Some (JStr given) =>
                       if bool_decide (given ∈ RecommendationEngine.valid_priorities)
                       then given else "medium"
                   | _ => "medium"
                   end
  | Raise _ => True
  end.
Proof.
  unfold RecommendationEngine._validate_and_enrich_response.
  set (filled := foldl _ raw RecommendationEngine.required_fields).
  assert (Hfilled : filled !! "priority_level"
                    = Some (default (JStr "medium") (raw !! "priority_level"))).
  { subst filled. rewrite fill_lookup. destruct (raw !! "priority_level"); [done|].
    rewrite bool_decide_eq_true_2; [done|]. unfold RecommendationEngine.required_fields.
    repeat first [apply list_elem_of_here | apply list_elem_of_further]. }
  set (listed := match filled !! "recommendations" with
                 | Some (JArr _) => filled
                 | _ => <["recommendations" := JArr []]> filled
                 end).
  assert (Hlisted : listed !! "priority_level" = filled !! "priority_level").
  { subst listed. destruct (filled !! "recommendations") as [[]|];
      by rewrite ?lookup_insert_ne. }
  cbv zeta.
  destruct (RecommendationEngine._estimate_confidence rt _) as [c|e]; [|exact I].
  cbn [mbind outcome_bind].
  set (scored := <["llm_confidence" := JFloat c]> _).
  assert (Hscored : scored !! "priority_level"
                    = Some (default (JStr "medium") (raw !! "priority_level"))).
  { subst scored. rewrite !lookup_insert_ne by done. by rewrite Hlisted. }
  rewrite Hscored. cbn [from_option Datatypes.id].
  assert (Hmedium : "medium" ∈ RecommendationEngine.valid_priorities).
  { unfold RecommendationEngine.valid_priorities.
    repeat first [apply list_elem_of_here | apply list_elem_of_further]. }
  destruct (raw !! "priority_level") as [given|]; cbn [from_option Datatypes.id].
  2:{ exists scored, "medium". cbn [RecommendationEngine.invalid_priority].
      rewrite (bool_decide_eq_true_2 _ Hmedium). cbn [negb].
      split; [done|]. split; [done|]. by split. }
  destruct given as [| | | |given| |]; cbn [RecommendationEngine.invalid_priority];
    try (eexists _, "medium"; split; [reflexivity|];
         split; [by rewrite lookup_insert_eq|]; by split).
  destruct (bool_decide (given ∈ RecommendationEngine.valid_priorities)) eqn:Hvalid;
    cbn [negb].
  - exists scored, given. split; [done|]. split; [done|]. split; [|done].
    by apply bool_decide_eq_true in Hvalid.
  - eexists _, "medium". split; [reflexivity|].
    split; [by rewrite lookup_insert_eq|]. by split.
Qed.

Lemma enrich_appends_only (rt : runtime) (client : option unit) (r : rec_replies)
  (recs : gmap string json) (metrics : InfrastructureMetrics) (base : list json) :
  recs !! "recommendations" = Some (JArr base) →
  ∃ recs' extra,
    _enrich_recommendations rt client r (JObj recs) metrics = JObj recs'
    ∧ recs' !! "priority_level" = recs !! "priority_level"
    ∧ recs' !! "recommendations" = Some (JArr (base ++ extra))
    ∧ (length extra <= 2)%nat
    ∧ ∀ k, is_Some (recs !! k) → is_Some (recs' !! k).
Proof.
  intros Hbase.
  assert (Hsame : ∃ recs' extra,
    JObj recs = JObj recs'
    ∧ recs' !! "priority_level" = recs !! "priority_level"
    ∧ recs' !! "recommendations" = Some (JArr (base ++ extra))
    ∧ (length extra <= 2)%nat
    ∧ ∀ k, is_Some (recs !! k) → is_Some (recs' !! k)).
  { exists recs, []. rewrite app_nil_r. split; [done|]. split; [done|].
    split; [done|]. split; [simpl; lia|done]. }
  unfold _enrich_recommendations. cbv zeta.
  destruct (_detect_critical_areas metrics) as [|primary_area areas]; [exact Hsame|].
  destruct (AzureOpenAIService.is_available client); [|exact Hsame].
  destruct (RecommendationEngine.generate_focused_recommendations rt client r primary_area)
    as [[| | | | | |focused_analysis]|]; try exact Hsame.
  destruct (bool_decide _); [|exact Hsame].
  destruct (merge_focused_spec rt recs focused_analysis primary_area base Hbase)
    as [Hdetail (extra & Hextra & Hlen & _)]. cbv zeta in Hdetail, Hextra.
  exists (merge_focused rt recs focused_analysis primary_area), extra.
  split; [reflexivity|]. split; [by apply merge_focused_other|].
  split; [exact Hextra|]. split; [exact Hlen|].
  intros k Hk.
  destruct (decide (k = "recommendations")) as [-> | Hk1]; [by rewrite Hextra|].
  destruct (decide (k = "detailed_analysis")) as [-> | Hk2]; [by apply Hdetail|].
  by rewrite merge_focused_other.
Qed.

Lemma report_of_values (write_fails : bool) (metrics : InfrastructureMetrics)
  (fields : gmap string json) (method : string) (level actions : json) :
  (∀ field, field ∈ RecommendationEngine.required_fields → is_Some (fields !! field)) →
  fields !! "priority_level" = Some level →
  fields !! "recommendations" = Some actions →
  match report_of write_fails metrics fields method with
  | Some rep => report_priority_level rep = level ∧ report_recommendations rep = actions
  | None => write_fails = true
  end.
Proof.
  intros Hfields Hlevel Hactions. unfold report_of, py_getitem.
  assert (Hin : ∀ field, field ∈ RecommendationEngine.required_fields →
                         ∃ v, fields !! field = Some v) by (intros; by apply Hfields).
  rewrite Hlevel, Hactions.
  destruct (Hin "executive_summary") as [v1 ->];
    [unfold RecommendationEngine.required_fields;
     repeat first [apply list_elem_of_here | apply list_elem_of_further]|].
  destruct (Hin "detailed_analysis") as [v2 ->];
    [unfold RecommendationEngine.required_fields;
     repeat first [apply list_elem_of_here | apply list_elem_of_further]|].
  destruct (Hin "estimated_impact") as [v5 ->];
    [unfold RecommendationEngine.required_fields;
     repeat first [apply list_elem_of_here | apply list_elem_of_further]|].
  destruct (Hin "implementation_timeframe") as [v6 ->];
    [unfold RecommendationEngine.required_fields;
     repeat first [apply list_elem_of_here | apply list_elem_of_further]|].
  cbn [mbind outcome_bind]. destruct write_fails; [reflexivity|].
  split; [reflexivity|]. unfold report_recommendations. cbn [recommendations_json].
  by rewrite lookup_insert_eq.
Qed.

(** What the engine returned came from a dict the completion parsed to. *)
Lemma engine_answer_source (rt : runtime) (client : option unit) (r : rec_replies)
  (metrics : InfrastructureMetrics) (answer : json) :
  RecommendationEngine.generate_recommendations rt client r metrics = Some answer →
  AzureOpenAIService.is_available client = true
  ∧ ∃ raw, AzureOpenAIService.call_json_completion rt client (recommendation_reply r)
           = Ok (Some (JObj raw))
           ∧ RecommendationEngine._validate_and_enrich_response rt (JObj raw) metrics
             = Ok answer.
Proof.
  unfold RecommendationEngine.generate_recommendations.
  destruct (AzureOpenAIService.is_available client); [|discriminate]. cbn [negb].
  destruct (AzureOpenAIService.call_json_completion rt client _) as [response|e];
    cbn [mbind outcome_bind]; [|discriminate].
  destruct response as [v|]; cbn [truthy_opt from_option Datatypes.id]; [|discriminate].
  destruct (truthy v); [|discriminate].
  destruct (RecommendationEngine._validate_and_enrich_response rt v metrics)
    as [validated|e] eqn:Hv; cbn [mbind outcome_bind]; [|discriminate].
  intros [= <-]. split; [reflexivity|].
  destruct v as [| | | | | |raw]; try discriminate Hv. by exists raw.
Qed.

(** C7, as the code has it.  A report of the rule-based generator has, as
    its overall priority, one of the four levels, and that level is the
    maximum of the priorities of its actions under
    low < medium < high < critical.  So has a report the AI generator builds
    from the rules, which it does whenever its engine returns nothing: when
    there is no client, when the request failed, when the reply is empty,
    when its parsing raised and when it parsed to anything that is not a
    non-empty dict.  When the engine returns an answer, the overall priority
    of the report is the priority the model gave, if it is one of the four
    levels, and ['medium'] otherwise: it is not computed from the actions,
    which are those of the answer followed by at most two of the focused
    analysis.  (A report is missing only when its write failed.) *)
Theorem report_priority_rule (rt : runtime) (client : option unit) (r : rec_replies)
  (write_fails : bool) (metrics : InfrastructureMetrics)
  (existing : option AnomalyDetection) :
  match classic_generate_report rt write_fails metrics existing with
  | Some rep => priority_is_max rep
  | None => write_fails = true
  end
  ∧ match RecommendationEngine.generate_recommendations rt client r metrics with
    | None =>
        match LLMGeneration.generate_report rt client r write_fails metrics existing with
        | Some rep => priority_is_max rep
        | None => write_fails = true
        end
    | Some answer =>
        ∃ raw m p base,
          AzureOpenAIService.call_json_completion rt client (recommendation_reply r)
            = Ok (Some (JObj raw))
          ∧ answer = JObj m
          ∧ m !! "priority_level" = Some (JStr p)
          ∧ p ∈ RecommendationEngine.valid_priorities
          ∧ p = match raw !! "priority_level" with
                | Some (JStr given) =>
                    if bool_decide (given ∈ RecommendationEngine.valid_priorities)
                    then given else "medium"
                | _ => "medium"
                end
          ∧ m !! "recommendations" = Some (JArr base)
          ∧ match LLMGeneration.generate_report rt client r write_fails metrics existing with
            | Some rep =>
                report_priority_level rep = JStr p
                ∧ ∃ extra, report_recommendations rep = JArr (base ++ extra)
                           ∧ (length extra <= 2)%nat
            | None => write_fails = true
            end
    end
  ∧ (client = None
     ∨ (∃ e, recommendation_reply r = Raise e)
     ∨ (∃ content, recommendation_reply r = Ok content
          ∧ (str_strip rt content = ""
             ∨ (∃ e, AzureOpenAIService.parse_json_response rt (str_strip rt content)
                     = Raise e)
             ∨ (∃ v, AzureOpenAIService.parse_json_response rt (str_strip rt content) = Ok v
                     ∧ ∀ m, v = JObj m → m = ∅))) →
     RecommendationEngine.generate_recommendations rt client r metrics = None).
Proof.
  set (summary := match existing with
                  | Some anomaly_detection => anomaly_summary anomaly_detection
                  | None => "Aucune anomalie détectée"
                  end).
  destruct (generated_priority_is_max rt metrics summary) as [Hin Hrank].
  assert (Hfallback :
    match report_of write_fails metrics
            (LLMGeneration._get_fallback_recommendations rt metrics summary) "llm" with
    | Some rep => priority_is_max rep
    | None => write_fails = true
    end).
  { eapply report_of_generated; try done;
      unfold LLMGeneration._get_fallback_recommendations, data_to_dict; by simplify_map_eq. }
  split; [|split].
  - unfold classic_generate_report. fold summary.
    eapply report_of_generated; try done; unfold data_to_dict; by simplify_map_eq.
  - unfold LLMGeneration.generate_report, LLMGeneration.generate_recommendations.
    fold summary.
    destruct (RecommendationEngine.generate_recommendations rt client r metrics)
      as [answer|] eqn:Hanswer.
    2:{ by destruct (negb (AzureOpenAIService.is_available client)). }
    destruct (engine_answer_source rt client r metrics answer Hanswer)
      as (Havailable & raw & Hcall & Hvalidated).
    rewrite Havailable. cbn [negb].
    pose proof (validated_priority rt raw metrics) as Hpriority.
    pose proof (validated_required rt (JObj raw) metrics) as Hrequired.
    rewrite Hvalidated in Hpriority, Hrequired.
    destruct Hpriority as (m & p & -> & Hlevel & Hvalid & Hgiven).
    destruct Hrequired as (m' & [= <-] & Hfields & base & Hbase).
    exists raw, m, p, base.
    split; [exact Hcall|]. split; [reflexivity|]. split; [exact Hlevel|].
    split; [exact Hvalid|]. split; [exact Hgiven|]. split; [exact Hbase|].
    assert (Htruthy : truthy (JObj m) = true).
    { cbn [truthy]. rewrite bool_decide_eq_false_2; [done|].
      intros ->. by rewrite lookup_empty in Hlevel. }
    rewrite Htruthy.
    destruct (enrich_appends_only rt client r m metrics base Hbase)
      as (recs' & extra & -> & Hlevel' & Hactions & Hlen & Hkeep).
    assert (Hfields' : ∀ field, field ∈ RecommendationEngine.required_fields →
                                is_Some (recs' !! field))
      by (intros field Hfield; by apply Hkeep, Hfields).
    rewrite Hlevel in Hlevel'.
    pose proof (report_of_values write_fails metrics recs' "llm" _ _ Hfields' Hlevel' Hactions)
      as Hreport.
    destruct (report_of write_fails metrics recs' "llm") as [rep|]; [|exact Hreport].
    destruct Hreport as [Hp Ha]. split; [exact Hp|]. by exists extra.
  - unfold RecommendationEngine.generate_recommendations,
      AzureOpenAIService.call_json_completion, AzureOpenAIService.call_completion.
    intros [-> | Hreply]; [reflexivity|].
    destruct client as [c|]; [|reflexivity]. cbn [AzureOpenAIService.is_available negb].
    destruct Hreply as [[e ->] | (content & -> & Hcontent)]; [reflexivity|].
    destruct (String.eqb (str_strip rt content) "") eqn:Hempty; [reflexivity|].
    destruct Hcontent as [Hstrip | [[e ->] | (v & -> & Hshape)]].
    + apply String.eqb_neq in Hempty. by destruct Hempty.
    + reflexivity.
    + cbn [mbind outcome_bind].
      destruct v as [| | | | | |m]; cbn [py_optional truthy_opt truthy from_option Datatypes.id];
        try reflexivity;
        try (match goal with |- context [if ?b then _ else _] => destruct b end;
             reflexivity).
      rewrite (Hshape m eq_refl). rewrite bool_decide_eq_true_2 by done. reflexivity.
Qed.

End ReportPriority.

(** ** Batches of analyses *)

Section Batches.

Ltac dict_lookup :=
  repeat first [ rewrite lookup_insert_eq
               | rewrite lookup_insert_ne by congruence
               | rewrite lookup_empty ].

Ltac dict_eq key :=
  apply map_eq; intros i; unfold py_incr, counts;
  destruct (decide (i = "total")) as [-> | ?]; [dict_lookup; reflexivity|];
  destruct (decide (i = "analyzed")) as [-> | ?]; [dict_lookup; reflexivity|];
  destruct (decide (i = "errors")) as [-> | ?]; [dict_lookup; reflexivity|];
  destruct (decide (i = key)) as [-> | ?]; dict_lookup; reflexivity.

Lemma counts_incr_done (n a e : Z) (key : string) (g : Z) :
  key ≠ "total" → key ≠ "analyzed" → key ≠ "errors" →
  py_incr "analyzed" (counts n a e key g) = counts n (a + 1) e key g.
Proof. intros H1 H2 H3. dict_eq key. Qed.

Lemma counts_incr_failed (n a e : Z) (key : string) (g : Z) :
  key ≠ "total" → key ≠ "analyzed" → key ≠ "errors" →
  py_incr "errors" (counts n a e key g) = counts n a (e + 1) key g.
Proof. intros H1 H2 H3. dict_eq key. Qed.

Lemma counts_incr_key (n a e : Z) (key : string) (g : Z) :
  key ≠ "total" → key ≠ "analyzed" → key ≠ "errors" →
  py_incr key (counts n a e key g) = counts n a e key (g + 1).
Proof. intros H1 H2 H3. dict_eq key. Qed.

Lemma classic_turn_tallied (rt : runtime) (thresholds : gmap string Q)
  (fault_of : InfrastructureMetrics → faults) (n : Z) (k : nat)
  (state : gmap string Z * database) (metrics : InfrastructureMetrics) :
  tallied n "anomalies_detected" k state.1 →
  tallied n "anomalies_detected" (S k)
    (ClassicBatch.turn rt thresholds fault_of state metrics).1.
Proof.
  destruct state as [results db]. intros (a & e & g & Hres & Hsum & Hg & He).
  simpl in Hres. subst results. unfold ClassicBatch.turn.
  destruct (ClassicAnalysis.analyze_metrics _ _ _ _ _) as [[row|] db']; simpl.
  - rewrite counts_incr_done by done.
    destruct (0 <? total_anomalies row).
    + rewrite counts_incr_key by done. exists (a + 1), e, (g + 1). repeat split; lia.
    + exists (a + 1), e, g. repeat split; lia.
  - rewrite counts_incr_failed by done. exists a, (e + 1), g. repeat split; lia.
Qed.

Lemma llm_turn_tallied (rt : runtime) (azure_client : option unit)
  (replies_of : InfrastructureMetrics → replies)
  (fault_of : InfrastructureMetrics → faults) (n : Z) (k : nat)
  (state : gmap string Z * database) (metrics : InfrastructureMetrics) :
  tallied n "llm_available" k state.1 →
  tallied n "llm_available" (S k)
    (LLMBatch.turn rt azure_client replies_of fault_of state metrics).1.
Proof.
  destruct state as [results db]. intros (a & e & g & Hres & Hsum & Hg & He).
  simpl in Hres. subst results. unfold LLMBatch.turn.
  destruct (LLMAnomalyDetector.analyze_metrics _ _ _ _ _ _) as [[row|] db']; simpl.
  - rewrite counts_incr_done by done.
    destruct (str_contains "LLM: " (anomaly_summary row)).
    + rewrite counts_incr_key by done. exists (a + 1), e, (g + 1). repeat split; lia.
    + exists (a + 1), e, g. repeat split; lia.
  - rewrite counts_incr_failed by done. exists a, (e + 1), g. repeat split; lia.
Qed.

Lemma foldl_tallied {A : Type}
  (step : gmap string Z * database → A → gmap string Z * database) (n : Z) (key : string) :
  (∀ k state x, tallied n key k state.1 → tallied n key (S k) (step state x).1) →
  ∀ l k state, tallied n key k state.1 → tallied n key (k + length l) (foldl step state l).1.
Proof.
  intros Hstep l. induction l as [|x l IH]; intros k state Hk; simpl.
  - by rewrite Nat.add_0_r.
  - rewrite <- Nat.add_succ_comm. apply IH. by apply Hstep.
Qed.

(** X19.  The statistics of a batch of analyses add up, whatever happens
    to each snapshot: the total is the size of the queryset, every snapshot
    is counted once, as analysed or as an error, and the snapshots counted by
    the detector's own counter (anomalies for the thresholds, AI summaries
    for the AI) are among the analysed ones. *)
Theorem batch_statistics_add_up (rt : runtime) (svc : service)
  (replies_of : InfrastructureMetrics → replies)
  (fault_of : InfrastructureMetrics → faults)
  (metrics_queryset : list InfrastructureMetrics) (db : database) :
  ∃ done failed marked_ones,
    (AnomalyDetectionInfo.analyze_batch_metrics rt svc replies_of fault_of
       metrics_queryset db).1
    = counts (Z.of_nat (length metrics_queryset)) done failed
        (detector_counter (the_detector svc)) marked_ones
    ∧ done + failed = Z.of_nat (length metrics_queryset)
    ∧ 0 <= marked_ones <= done ∧ 0 <= failed.
Proof.
  unfold AnomalyDetectionInfo.analyze_batch_metrics.
  destruct (the_detector svc) as [thresholds|azure_client]; simpl.
  - unfold ClassicBatch.analyze_batch_metrics. cbv zeta.
    apply (foldl_tallied (ClassicBatch.turn rt thresholds fault_of) _ "anomalies_detected"
             (classic_turn_tallied rt thresholds fault_of _) metrics_queryset 0).
    exists 0, 0, 0. simpl. repeat split; lia.
  - unfold LLMBatch.analyze_batch_metrics. cbv zeta.
    apply (foldl_tallied (LLMBatch.turn rt azure_client replies_of fault_of) _ "llm_available"
             (llm_turn_tallied rt azure_client replies_of fault_of _) metrics_queryset 0).
    exists 0, 0, 0. simpl. repeat split; lia.
Qed.

Lemma classic_stale_fold (rt : runtime) (thresholds : gmap string Q)
  (fault_of : InfrastructureMetrics → faults) (n : Z) (db : database)
  (l : list InfrastructureMetrics) (e : Z) :
  (∀ m, m ∈ l → is_Some (anomaly_detection_of db m)) →
  foldl (ClassicBatch.turn rt thresholds fault_of) (counts n 0 e "anomalies_detected" 0, db) l
  = (counts n 0 (e + Z.of_nat (length l)) "anomalies_detected" 0, db).
Proof.
  revert e. induction l as [|m l IH]; intros e Hall.
  - simpl. by rewrite Z.add_0_r.
  - cbn [foldl]. unfold ClassicBatch.turn at 2.
    destruct (Hall m) as [existing Hm]; [apply list_elem_of_here|].
    rewrite (classic_reanalysis _ _ _ _ _ existing Hm).
    rewrite counts_incr_failed by done. rewrite IH.
    + f_equal. f_equal. cbn [length]. lia.
    + intros m' Hm'. apply Hall. by apply list_elem_of_further.
Qed.

Lemma llm_stale_fold (rt : runtime) (azure_client : option unit)
  (replies_of : InfrastructureMetrics → replies)
  (fault_of : InfrastructureMetrics → faults) (n : Z) (db : database)
  (l : list InfrastructureMetrics) (e : Z) :
  (∀ m, m ∈ l → is_Some (anomaly_detection_of db m)) →
  foldl (LLMBatch.turn rt azure_client replies_of fault_of)
    (counts n 0 e "llm_available" 0, db) l
  = (counts n 0 (e + Z.of_nat (length l)) "llm_available" 0, db).
Proof.
  revert e. induction l as [|m l IH]; intros e Hall.
  - simpl. by rewrite Z.add_0_r.
  - cbn [foldl]. unfold LLMBatch.turn at 2.
    destruct (Hall m) as [existing Hm]; [apply list_elem_of_here|].
    rewrite (llm_reanalysis _ _ _ _ _ _ existing Hm).
    rewrite counts_incr_failed by done. rewrite IH.
    + f_equal. f_equal. cbn [length]. lia.
    + intros m' Hm'. apply Hall. by apply list_elem_of_further.
Qed.

(** X20.  A batch over snapshots that all have a result already, as when
    the same queryset is analysed a second time, counts every snapshot as an
    error, analyses none and leaves the store as it is. *)
Theorem stale_batch_all_errors (rt : runtime) (svc : service)
  (replies_of : InfrastructureMetrics → replies)
  (fault_of : InfrastructureMetrics → faults)
  (metrics_queryset : list InfrastructureMetrics) (db : database) :
  (∀ m, m ∈ metrics_queryset → is_Some (anomaly_detection_of db m)) →
  AnomalyDetectionInfo.analyze_batch_metrics rt svc replies_of fault_of metrics_queryset db
  = (counts (Z.of_nat (length metrics_queryset)) 0 (Z.of_nat (length metrics_queryset))
       (detector_counter (the_detector svc)) 0, db).
Proof.
  intros Hall. unfold AnomalyDetectionInfo.analyze_batch_metrics.
  destruct (the_detector svc) as [thresholds|azure_client]; simpl.
  - unfold ClassicBatch.analyze_batch_metrics. cbv zeta.
    exact (classic_stale_fold rt thresholds fault_of _ db metrics_queryset 0 Hall).
  - unfold LLMBatch.analyze_batch_metrics. cbv zeta.
    exact (llm_stale_fold rt azure_client replies_of fault_of _ db metrics_queryset 0 Hall).
Qed.

End Batches.

Lemma stale_batch_all_errors_witness :
  AnomalyDetectionInfo.analyze_batch_metrics Sample.runtime
    (AnomalyDetectionService.init Sample.runtime Sample.cfg "classic")
    (fun _ => Sample.replies_15) (fun _ => no_faults) [Sample.analyzed_snapshot] Sample.db1
  = (counts 1 0 1 "anomalies_detected" 0, Sample.db1).
Proof.
  apply (stale_batch_all_errors Sample.runtime
           (AnomalyDetectionService.init Sample.runtime Sample.cfg "classic")
           (fun _ => Sample.replies_15) (fun _ => no_faults) [Sample.analyzed_snapshot]
           Sample.db1).
  intros m Hm. apply list_elem_of_singleton in Hm. subst m. by eexists.
Defined.

(** ** A batch over snapshots analysed for the first time *)

Section FreshBatch.
Import ClassicAnomalyDetector ClassicAnalysis.

Lemma classic_fresh_step (rt : runtime) (thresholds : gmap string Q)
  (metrics : InfrastructureMetrics) (db : database) :
  rows_of db (id metrics) = [] →
  ∃ row,
    analyze_metrics rt thresholds no_faults metrics db
    = (Some row,
       {| metrics_table :=
            <[id metrics := set_status metrics (anomalous thresholds metrics) true]>
              (metrics_table db);
          anomaly_table := anomaly_table db ++ [row] |})
    ∧ metrics_id row = id metrics
    ∧ (0 <? total_anomalies row) = anomalous thresholds metrics.
Proof.
  intros Hrows. apply rows_of_none in Hrows. unfold analyze_metrics. cbv zeta.
  erewrite objects_create_fresh by done. simpl.
  eexists. split; [reflexivity|]. split; [reflexivity|].
  unfold anomalous.
  generalize (generate_summary rt (detect_anomalies thresholds metrics) metrics).
  intros summary.
  destruct (detect_anomalies_flags thresholds metrics)
    as (b1 & b2 & b3 & b4 & b5 & b6 & b7 & b8 & ->).
  match goal with |- context [new_row _ ?a _ ?sc _] =>
    destruct (nine_inserts_any b1 b2 b3 b4 b5 b6 b7 b8 (has_degraded_services metrics)
                metrics summary "classic" sc) as (Hany & _ & _)
  end.
  cbv zeta in Hany. by rewrite <- Hany.
Qed.

Lemma count_if_cons {A : Type} (test : A → bool) (x : A) (l : list A) :
  count_if test (x :: l) = (if test x then 1 else 0) + count_if test l.
Proof. unfold count_if. cbn [List.filter]. destruct (test x); cbn [length]; lia. Qed.

Lemma classic_fresh_fold (rt : runtime) (thresholds : gmap string Q) (n : Z)
  (l : list InfrastructureMetrics) (a g : Z) (db : database) :
  NoDup (id <$> l) →
  (∀ m, m ∈ l → rows_of db (id m) = []) →
  ∃ db',
    foldl (ClassicBatch.turn rt thresholds (fun _ => no_faults))
      (counts n a 0 "anomalies_detected" g, db) l
    = (counts n (a + Z.of_nat (length l)) 0 "anomalies_detected"
         (g + count_if (anomalous thresholds) l), db')
    ∧ (∀ m, m ∈ l →
         stored_status db' (id m) = Some (anomalous thresholds m, true)
         ∧ length (rows_of db' (id m)) = 1%nat)
    ∧ (∀ i, i ∉ id <$> l →
         rows_of db' i = rows_of db i ∧ stored_status db' i = stored_status db i).
Proof.
  revert a g db. induction l as [|m l IH]; intros a g db Hnodup Hfresh.
  - exists db. cbn [foldl length]. unfold count_if. cbn [List.filter length].
    rewrite !Z.add_0_r. split; [done|]. split; [|done].
    intros m Hm. by apply elem_of_nil in Hm.
  - rewrite fmap_cons in Hnodup. apply NoDup_cons in Hnodup as [Hm Hnodup].
    destruct (classic_fresh_step rt thresholds m db) as (row & Hrun & Hid & Hflag);
      [apply Hfresh, list_elem_of_here|].
    cbn [foldl]. unfold ClassicBatch.turn at 2. rewrite Hrun.
    rewrite counts_incr_done by done. rewrite Hflag.
    set (db1 := {| metrics_table := _; anomaly_table := _ |}).
    assert (Hrows1 : ∀ i, rows_of db1 i
                          = rows_of db i ++ (if Nat.eqb (id m) i then [row] else [])).
    { intros i. rewrite (rows_of_app db1 row i (anomaly_table db)) by done.
      by rewrite Hid. }
    assert (Hstatus1 : ∀ i, i ≠ id m → stored_status db1 i = stored_status db i).
    { intros i Hi. unfold stored_status. subst db1. simpl. by rewrite lookup_insert_ne. }
    assert (Hfresh1 : ∀ m', m' ∈ l → rows_of db1 (id m') = []).
    { intros m' Hm'. rewrite Hrows1, Hfresh by (by apply list_elem_of_further).
      destruct (Nat.eqb_spec (id m) (id m')) as [Heq | ?]; [|done].
      exfalso. apply Hm. rewrite Heq. apply list_elem_of_fmap.
      exists m'. split; [reflexivity|exact Hm']. }
    set (g1 := if anomalous thresholds m then g + 1 else g).
    assert (Hturn : (if anomalous thresholds m
                     then py_incr "anomalies_detected"
                            (counts n (a + 1) 0 "anomalies_detected" g)
                     else counts n (a + 1) 0 "anomalies_detected" g)
                    = counts n (a + 1) 0 "anomalies_detected" g1).
    { subst g1. destruct (anomalous thresholds m); [|done].
      by rewrite counts_incr_key. }
    cbv zeta. rewrite Hturn.
    destruct (IH (a + 1) g1 db1 Hnodup Hfresh1) as (db' & Hfold & Hin & Hout).
    exists db'. rewrite Hfold. split.
    { f_equal. rewrite count_if_cons. subst g1. cbn [length].
      f_equal; [lia|]. destruct (anomalous thresholds m); lia. }
    split.
    + intros m0 Hm0. apply elem_of_cons in Hm0 as [-> | Hm0]; [|by apply Hin].
      destruct (Hout (id m) Hm) as [Hr Hs]. rewrite Hr, Hs, Hrows1.
      rewrite Hfresh by apply list_elem_of_here. rewrite Nat.eqb_refl.
      split; [|done]. unfold stored_status. subst db1. simpl.
      by rewrite lookup_insert_eq.
    + intros i Hi. rewrite fmap_cons in Hi. apply not_elem_of_cons in Hi as [Hne Hi].
      destruct (Hout i Hi) as [Hr Hs]. rewrite Hr, Hs, Hrows1, Hstatus1 by done.
      destruct (Nat.eqb_spec (id m) i) as [Heq | _];
        [exfalso; apply Hne; symmetry; exact Heq|].
      rewrite app_nil_r. split; reflexivity.
Qed.

(** X21.  A batch of the threshold detector over distinct snapshots that
    have no result yet, with no failing write, analyses them all: no error is
    counted, the anomalies counted are the snapshots in which the detector
    finds one, every snapshot of the queryset ends with exactly one result
    and the status that goes with it, and the others are untouched. *)
Theorem fresh_batch_all_analyzed (rt : runtime) (thresholds : gmap string Q)
  (metrics_queryset : list InfrastructureMetrics) (db : database) :
  NoDup (id <$> metrics_queryset) →
  (∀ m, m ∈ metrics_queryset → anomaly_detection_of db m = None) →
  let out := ClassicBatch.analyze_batch_metrics rt thresholds (fun _ => no_faults)
               metrics_queryset db in
  out.1 = counts (Z.of_nat (length metrics_queryset)) (Z.of_nat (length metrics_queryset)) 0
            "anomalies_detected" (count_if (anomalous thresholds) metrics_queryset)
  ∧ (∀ m, m ∈ metrics_queryset →
       stored_status out.2 (id m) = Some (anomalous thresholds m, true)
       ∧ length (rows_of out.2 (id m)) = 1%nat)
  ∧ (∀ i, i ∉ id <$> metrics_queryset →
       rows_of out.2 i = rows_of db i ∧ stored_status out.2 i = stored_status db i).
Proof.
  intros Hnodup Hfresh. cbv zeta. unfold ClassicBatch.analyze_batch_metrics. cbv zeta.
  destruct (classic_fresh_fold rt thresholds (Z.of_nat (length metrics_queryset))
              metrics_queryset 0 0 db Hnodup) as (db' & Hfold & Hin & Hout).
  { intros m Hm. by apply rows_of_none, Hfresh. }
  fold (counts (Z.of_nat (length metrics_queryset)) 0 0 "anomalies_detected" 0).
  rewrite Hfold. simpl. by rewrite !Z.add_0_l.
Qed.

End FreshBatch.

Lemma fresh_batch_all_analyzed_witness :
  let out := ClassicBatch.analyze_batch_metrics Sample.runtime
               ClassicAnomalyDetector.default_thresholds (fun _ => no_faults)
               batch_queryset batch_db in
  out.1 = counts 2 2 0 "anomalies_detected"
            (count_if (anomalous ClassicAnomalyDetector.default_thresholds) batch_queryset)
  ∧ (∀ m, m ∈ batch_queryset →
       stored_status out.2 (id m)
       = Some (anomalous ClassicAnomalyDetector.default_thresholds m, true)
       ∧ length (rows_of out.2 (id m)) = 1%nat)
  ∧ (∀ i, i ∉ id <$> batch_queryset →
       rows_of out.2 i = rows_of batch_db i
       ∧ stored_status out.2 i = stored_status batch_db i).
Proof.
  apply (fresh_batch_all_analyzed Sample.runtime ClassicAnomalyDetector.default_thresholds
           batch_queryset batch_db).
  - vm_compute. apply NoDup_cons. split; [|apply NoDup_singleton].
    intros H. apply list_elem_of_singleton in H. discriminate H.
  - intros m Hm. reflexivity.
Defined.

(** ** What a batch leaves alone *)

Section BatchStore.

Lemma classic_status_others (rt : runtime) (thresholds : gmap string Q) (f : faults)
  (metrics : InfrastructureMetrics) (db : database) (i : nat) :
  i ≠ id metrics →
  stored_status (ClassicAnalysis.analyze_metrics rt thresholds f metrics db).2 i
  = stored_status db i.
Proof.
  intros Hi. unfold ClassicAnalysis.analyze_metrics. cbv zeta.
  destruct (objects_create _ _ _) as [db1|] eqn:Hcreate; [|reflexivity].
  apply objects_create_appends in Hcreate as [Htable _].
  unfold metrics_save. destruct (save_fails f); unfold stored_status; simpl.
  - by rewrite Htable.
  - by rewrite lookup_insert_ne, Htable.
Qed.

Lemma llm_status_others (rt : runtime) (azure_client : option unit) (r : replies)
  (f : faults) (metrics : InfrastructureMetrics) (db : database) (i : nat) :
  i ≠ id metrics →
  stored_status (LLMAnomalyDetector.analyze_metrics rt azure_client r f metrics db).2 i
  = stored_status db i.
Proof.
  intros Hi. unfold LLMAnomalyDetector.analyze_metrics.
  destruct (LLMAnomalyDetector.detect_anomalies _ _ _) as [llm_analysis|]; [|reflexivity].
  destruct (truthy llm_analysis); simpl; [|reflexivity].
  match goal with |- context [match ?p with Ok _ => _ | Raise _ => _ end] =>
    destruct p as [[model_anomalies row]|] end; [|reflexivity].
  destruct (objects_create _ _ _) as [db1|] eqn:Hcreate; [|reflexivity].
  apply objects_create_appends in Hcreate as [Htable _].
  destruct (py_get llm_analysis "is_critical" (JBool false)) as [critical|]; simpl;
    [|unfold stored_status; by rewrite Htable].
  destruct (bool_field rt _) as [flag|]; simpl;
    [|unfold stored_status; by rewrite Htable].
  unfold metrics_save. destruct (save_fails f); unfold stored_status; simpl.
  - by rewrite Htable.
  - by rewrite lookup_insert_ne, Htable.
Qed.

Lemma service_others (rt : runtime) (svc : service) (r : replies) (f : faults)
  (metrics : InfrastructureMetrics) (db : database) (i : nat) :
  i ≠ id metrics →
  rows_of (AnomalyDetectionService.analyze_metrics rt svc r f metrics db).2 i = rows_of db i
  ∧ stored_status (AnomalyDetectionService.analyze_metrics rt svc r f metrics db).2 i
    = stored_status db i.
Proof.
  intros Hi. split.
  - pose proof (service_two_step rt svc r f metrics db) as Hstep.
    unfold two_step_outcome in Hstep.
    destruct (AnomalyDetectionService.analyze_metrics rt svc r f metrics db)
      as [[row|] db']; simpl in *.
    + destruct Hstep as (Hid & Htbl & _). rewrite (rows_of_app _ _ _ _ Htbl), Hid.
      destruct (Nat.eqb_spec (id metrics) i) as [Heq | _]; [by destruct Hi|].
      apply app_nil_r.
    + destruct Hstep as (_ & [Htbl | (row & Hid & Htbl)]).
      * unfold rows_of. by rewrite Htbl.
      * rewrite (rows_of_app _ _ _ _ Htbl), Hid.
        destruct (Nat.eqb_spec (id metrics) i) as [Heq | _]; [by destruct Hi|].
        apply app_nil_r.
  - unfold AnomalyDetectionService.analyze_metrics.
    destruct (the_detector svc);
      [by apply classic_status_others | by apply llm_status_others].
Qed.

(** The store a batch leaves is the store the analyses leave, one after
    the other. *)
Lemma batch_store (rt : runtime) (svc : service)
  (replies_of : InfrastructureMetrics → replies)
  (fault_of : InfrastructureMetrics → faults)
  (metrics_queryset : list InfrastructureMetrics) (db : database) :
  (AnomalyDetectionInfo.analyze_batch_metrics rt svc replies_of fault_of
     metrics_queryset db).2
  = foldl (fun db metrics =>
             (AnomalyDetectionService.analyze_metrics rt svc (replies_of metrics)
                (fault_of metrics) metrics db).2) db metrics_queryset.
Proof.
  unfold AnomalyDetectionInfo.analyze_batch_metrics,
    AnomalyDetectionService.analyze_metrics.
  destruct (the_detector svc) as [thresholds|azure_client].
  - unfold ClassicBatch.analyze_batch_metrics. cbv zeta.
    generalize (<["total" := Z.of_nat (length metrics_queryset)]>
                  (<["analyzed" := 0]> (<["errors" := 0]>
                  (<["anomalies_detected" := 0]> (∅ : gmap string Z))))).
    revert db. induction metrics_queryset as [|m l IH]; intros db results; [reflexivity|].
    cbn [foldl]. unfold ClassicBatch.turn at 2.
    destruct (ClassicAnalysis.analyze_metrics _ _ _ _ _) as [[row|] db']; apply IH.
  - unfold LLMBatch.analyze_batch_metrics. cbv zeta.
    generalize (<["total" := Z.of_nat (length metrics_queryset)]>
                  (<["analyzed" := 0]> (<["errors" := 0]>
                  (<["llm_available" := 0]> (∅ : gmap string Z))))).
    revert db. induction metrics_queryset as [|m l IH]; intros db results; [reflexivity|].
    cbn [foldl]. unfold LLMBatch.turn at 2.
    destruct (LLMAnomalyDetector.analyze_metrics _ _ _ _ _ _) as [[row|] db']; apply IH.
Qed.

(** X22.  A batch of analyses touches only the snapshots of its queryset:
    the results and the stored status of every other snapshot are as before,
    whatever the detector and whatever fails.  It also keeps the one-to-one
    link: a store without two results for one snapshot stays so. *)
Theorem batch_touches_only_queryset (rt : runtime) (svc : service)
  (replies_of : InfrastructureMetrics → replies)
  (fault_of : InfrastructureMetrics → faults)
  (metrics_queryset : list InfrastructureMetrics) (db : database) :
  let out := AnomalyDetectionInfo.analyze_batch_metrics rt svc replies_of fault_of
               metrics_queryset db in
  (∀ i, i ∉ id <$> metrics_queryset →
        rows_of out.2 i = rows_of db i ∧ stored_status out.2 i = stored_status db i)
  ∧ (one_to_one db → one_to_one out.2).
Proof.
  cbv zeta. rewrite batch_store.
  revert db. induction metrics_queryset as [|m l IH]; intros db.
  - split; [intros i _; split; reflexivity|intros H; exact H].
  - cbn [foldl].
    set (db1 := (AnomalyDetectionService.analyze_metrics rt svc (replies_of m)
                   (fault_of m) m db).2).
    destruct (IH db1) as [Hothers Hone]. split.
    + intros i Hi. rewrite fmap_cons in Hi. apply not_elem_of_cons in Hi as [Hne Hi].
      destruct (Hothers i Hi) as [Hr Hs].
      destruct (service_others rt svc (replies_of m) (fault_of m) m db i Hne) as [Hr1 Hs1].
      fold db1 in Hr1, Hs1. split; [by rewrite Hr, Hr1|by rewrite Hs, Hs1].
    + intros Hdb. apply Hone. subst db1. by apply service_one_to_one.
Qed.

End BatchStore.

(** ** Batches of reports and the information of the selectors *)

Section Selectors.

Ltac report_dict_eq :=
  apply map_eq; intros i; unfold py_incr, report_counts;
  destruct (decide (i = "total")) as [-> | ?];
    [|destruct (decide (i = "generated")) as [-> | ?];
      [|destruct (decide (i = "errors")) as [-> | ?];
        [|destruct (decide (i = "skipped")) as [-> | ?]]]];
  repeat first [ rewrite lookup_insert_eq
               | rewrite lookup_insert_ne by congruence
               | rewrite lookup_empty ];
  reflexivity.

Lemma report_counts_generated (n g e : Z) :
  py_incr "generated" (report_counts n g e) = report_counts n (g + 1) e.
Proof. report_dict_eq. Qed.

Lemma report_counts_failed (n g e : Z) :
  py_incr "errors" (report_counts n g e) = report_counts n g (e + 1).
Proof. report_dict_eq. Qed.

Lemma classic_generated_fields (rt : runtime) (metrics : InfrastructureMetrics)
  (anomalies_summary : string) (field : string) :
  field ∈ RecommendationEngine.required_fields →
  is_Some (data_to_dict
             (ClassicRecommendationGenerator.generate_recommendations rt metrics
                anomalies_summary) !! field).
Proof.
  intros Hfield. unfold data_to_dict.
  apply in_required in Hfield as [-> | [-> | [-> | [-> | [-> | ->]]]]];
    by simplify_map_eq.
Qed.

Lemma service_report_none (rt : runtime) (svc : RecommendationService.t) (r : rec_replies)
  (write_fails : bool) (metrics : InfrastructureMetrics)
  (existing : option AnomalyDetection) :
  RecommendationService.generate_recommendation_report rt svc r write_fails metrics existing
  = None ↔ write_fails = true.
Proof.
  unfold RecommendationService.generate_recommendation_report.
  destruct (RecommendationService.the_generator svc) as [|client].
  - unfold classic_generate_report. cbv zeta.
    apply report_of_fields. intros field. apply classic_generated_fields.
  - unfold LLMGeneration.generate_report. cbv zeta.
    set (summary := match existing with Some _ => _ | None => _ end).
    destruct (llm_generated_fields rt client r metrics summary) as (d & -> & Hfields).
    by apply report_of_fields.
Qed.

Lemma report_fold (rt : runtime) (svc : RecommendationService.t)
  (replies_of : InfrastructureMetrics → rec_replies)
  (write_fails_of : InfrastructureMetrics → bool) (db : database) (n : Z)
  (l : list InfrastructureMetrics) (g e : Z) :
  foldl (fun results metrics =>
           match RecommendationService.generate_recommendation_report rt svc
                   (replies_of metrics) (write_fails_of metrics) metrics
                   (anomaly_detection_of db metrics) with
           | Some report => py_incr "generated" results
           | None => py_incr "errors" results
           end) (report_counts n g e) l
  = report_counts n (g + Z.of_nat (length l) - count_if write_fails_of l)
      (e + count_if write_fails_of l).
Proof.
  revert g e. induction l as [|m l IH]; intros g e.
  - unfold count_if. cbn [foldl List.filter length]. f_equal; lia.
  - cbn [foldl]. rewrite count_if_cons.
    pose proof (service_report_none rt svc (replies_of m) (write_fails_of m) m
                  (anomaly_detection_of db m)) as Hnone.
    destruct (RecommendationService.generate_recommendation_report _ _ _ _ _ _)
      as [report|].
    + destruct (write_fails_of m); [by destruct Hnone as [_ Hn]; discriminate Hn|].
      rewrite report_counts_generated, IH. cbn [length]. f_equal; lia.
    + destruct (write_fails_of m); [|by destruct Hnone as [Hn _]; discriminate Hn].
      rewrite report_counts_failed, IH. cbn [length]. f_equal; lia.
Qed.

(** X23.  The statistics of a batch of reports are those of the writes:
    the errors counted are the snapshots whose report could not be written,
    every other snapshot counts as generated, whatever the generator and
    whatever the model answers, and nothing is ever counted as skipped. *)
Theorem batch_reports_count_failed_writes (rt : runtime) (svc : RecommendationService.t)
  (replies_of : InfrastructureMetrics → rec_replies)
  (write_fails_of : InfrastructureMetrics → bool) (db : database)
  (metrics_queryset : list InfrastructureMetrics) :
  RecommendationService.generate_batch_reports rt svc replies_of write_fails_of db
    metrics_queryset
  = report_counts (Z.of_nat (length metrics_queryset))
      (Z.of_nat (length metrics_queryset) - count_if write_fails_of metrics_queryset)
      (count_if write_fails_of metrics_queryset).
Proof.
  unfold RecommendationService.generate_batch_reports. cbv zeta.
  fold (report_counts (Z.of_nat (length metrics_queryset)) 0 0).
  rewrite report_fold. f_equal; lia.
Qed.

Lemma selected_cases (s : string) :
  (s = "classic" ∧ String.eqb s "classic" = true ∧ String.eqb s "llm" = false)
  ∨ (s = "llm" ∧ String.eqb s "classic" = false ∧ String.eqb s "llm" = true)
  ∨ (String.eqb s "classic" = false ∧ String.eqb s "llm" = false).
Proof.
  destruct (String.eqb s "classic") eqn:Hc.
  - apply String.eqb_eq in Hc. subst s. by left.
  - destruct (String.eqb s "llm") eqn:Hl; [|by right; right].
    apply String.eqb_eq in Hl. subst s. right. by left.
Qed.

(** X24.  A selector built for any method is consistent: its method is
    ['llm'] when that was asked for and ['classic'] otherwise, asking it
    whether the AI is available never raises and is true only for ['llm'] with
    a client, and its information holds the availability only for ['llm'].
    The method validated from a request is always one of the two, and
    ['classic'] when the parameter is absent or empty. *)
Theorem selectors_are_consistent (rt : runtime) (cfg : config) (s : string)
  (param : option string) :
  let detection := AnomalyDetectionService.init rt cfg s in
  let generation := RecommendationService.init rt cfg s in
  let engine := LLMAnalysisEngine._initialize_azure_client rt (settings cfg) in
  let client := AzureOpenAIService._initialize_client rt (settings cfg) in
  method detection = selected s
  ∧ RecommendationService.method generation = selected s
  ∧ AnomalyDetectionInfo.is_llm_available detection
    = Ok (String.eqb s "llm" && LLMAnalysisEngine.is_available engine)
  ∧ RecommendationService.is_llm_available generation
    = Ok (String.eqb s "llm" && AzureOpenAIService.is_available client)
  ∧ AnomalyDetectionInfo.get_method_info detection !! "detector_available"
    = (if String.eqb s "llm" then Some (JBool (LLMAnalysisEngine.is_available engine))
       else None)
  ∧ RecommendationService.get_method_info generation !! "generator_available"
    = (if String.eqb s "llm" then Some (JBool (AzureOpenAIService.is_available client))
       else None)
  ∧ AnomalyDetectionInfo.get_method_info detection !! "current_method"
    = Some (JStr (selected s))
  ∧ AnomalyDetectionInfo.validate_analysis_method rt param ∈ ["classic"; "llm"]
  ∧ (truthy_str param = false →
     AnomalyDetectionInfo.validate_analysis_method rt param = "classic").
Proof.
  cbv zeta.
  assert (Hvalid : AnomalyDetectionInfo.validate_analysis_method rt param ∈ ["classic"; "llm"]
                   ∧ (truthy_str param = false →
                      AnomalyDetectionInfo.validate_analysis_method rt param = "classic")).
  { unfold AnomalyDetectionInfo.validate_analysis_method.
    destruct (truthy_str param); simpl.
    - split; [|discriminate]. case_bool_decide; [done|apply list_elem_of_here].
    - split; [apply list_elem_of_here|done]. }
  destruct Hvalid as [Hin Hempty].
  unfold AnomalyDetectionService.init, RecommendationService.init,
    AnomalyDetectionInfo.is_llm_available, RecommendationService.is_llm_available,
    AnomalyDetectionInfo.get_method_info, RecommendationService.get_method_info, selected.
  destruct (selected_cases s) as [(-> & _ & _) | [(-> & _ & _) | [Hc Hl]]].
  - repeat split; done.
  - repeat split; try done; cbn; by rewrite lookup_insert_eq.
  - rewrite Hc, Hl. repeat split; done.
Qed.

End Selectors.

(** ** The other requests of the AI generator *)

Section Requests.
Import RecommendationEngineRequests LLMGeneratorRequests.

Lemma marked_dict_truthy (k : string) (v : json) (d : gmap string json) :
  truthy (JObj (<[k := v]> d)) = true.
Proof.
  unfold truthy. rewrite bool_decide_eq_false_2; [done|]. apply insert_non_empty.
Qed.

Lemma emergency_of_engine (rt : runtime) (client : option unit) (reply : outcome string) :
  match generate_emergency_recommendations rt client reply with
  | Some v =>
      ∃ d, v = JObj d ∧ truthy v = true
           ∧ d !! "priority_level" = Some (JStr "critical")
           ∧ d !! "analysis_type" = Some (JStr "emergency_response")
           ∧ d !! "implementation_timeframe" = Some (JStr "Immédiat (< 30 min)")
  | None => True
  end.
Proof.
  unfold generate_emergency_recommendations.
  destruct (negb _); [exact I|].
  destruct (AzureOpenAIService.call_json_completion rt client reply) as [[response|]|];
    try exact I; cbn [mbind outcome_bind truthy_opt default].
  destruct (truthy response); [|exact I].
  destruct response as [| | | | | |m]; try exact I.
  cbn [py_setitem mbind outcome_bind].
  eexists. split; [reflexivity|]. split; [apply marked_dict_truthy|].
  split; [|split].
  - by rewrite !lookup_insert_ne, lookup_insert_eq by done.
  - by rewrite lookup_insert_ne, lookup_insert_eq by done.
  - by rewrite lookup_insert_eq.
Qed.

(** X25.  An emergency response is always critical: whatever the model
    answers, and also without a client or an answer, the generator returns a
    dict whose overall priority is ['critical'], either the answer of the
    model with the three fields of an emergency forced on it, or the fixed
    fallback that names the issue. *)
Theorem emergency_response_is_critical (rt : runtime) (client : option unit)
  (reply : outcome string) (critical_issue : string) :
  ∃ d, generate_emergency_response rt client reply critical_issue = JObj d
       ∧ d !! "priority_level" = Some (JStr "critical")
       ∧ (d = _get_emergency_fallback critical_issue
          ∨ d !! "analysis_type" = Some (JStr "emergency_response")
            ∧ d !! "implementation_timeframe" = Some (JStr "Immédiat (< 30 min)"))
       ∧ (client = None → d = _get_emergency_fallback critical_issue).
Proof.
  unfold generate_emergency_response.
  assert (Hfallback : ∃ d, JObj (_get_emergency_fallback critical_issue) = JObj d
       ∧ d !! "priority_level" = Some (JStr "critical")
       ∧ (d = _get_emergency_fallback critical_issue
          ∨ d !! "analysis_type" = Some (JStr "emergency_response")
            ∧ d !! "implementation_timeframe" = Some (JStr "Immédiat (< 30 min)"))
       ∧ (client = None → d = _get_emergency_fallback critical_issue)).
  { eexists. split; [reflexivity|]. split; [|split; [by left|done]].
    unfold _get_emergency_fallback.
    by rewrite !lookup_insert_ne, lookup_insert_eq by done. }
  destruct client as [c|]; [|exact Hfallback]. cbn [AzureOpenAIService.is_available negb].
  pose proof (emergency_of_engine rt (Some c) reply) as Hengine.
  destruct (generate_emergency_recommendations rt (Some c) reply) as [v|];
    [|exact Hfallback].
  destruct Hengine as (d & -> & -> & Hlevel & Htype & Htime).
  exists d. split; [reflexivity|]. split; [exact Hlevel|].
  split; [right; by split|discriminate].
Qed.

Lemma capacity_of_engine (rt : runtime) (client : option unit) (reply : outcome string)
  (projection_days : Z) :
  match generate_capacity_planning rt client reply projection_days with
  | Some v =>
      ∃ d, v = JObj d ∧ truthy v = true
           ∧ d !! "analysis_type" = Some (JStr "capacity_planning")
           ∧ d !! "projection_horizon_days" = Some (JInt projection_days)
  | None => True
  end.
Proof.
  unfold generate_capacity_planning.
  destruct (negb _); [exact I|].
  destruct (AzureOpenAIService.call_json_completion rt client reply) as [[response|]|];
    try exact I; cbn [mbind outcome_bind truthy_opt default].
  destruct (truthy response); [|exact I].
  destruct response as [| | | | | |m]; try exact I.
  cbn [py_setitem mbind outcome_bind].
  eexists. split; [reflexivity|]. split; [apply marked_dict_truthy|]. split.
  - by rewrite lookup_insert_ne, lookup_insert_eq by done.
  - by rewrite lookup_insert_eq.
Qed.

Lemma focused_of_engine (rt : runtime) (client : option unit) (r : rec_replies)
  (focus_area : string) :
  match RecommendationEngine.generate_focused_recommendations rt client r focus_area with
  | Some v =>
      ∃ d, v = JObj d ∧ truthy v = true
           ∧ d !! "analysis_type" = Some (JStr "focused_optimization")
           ∧ d !! "focus_area" = Some (JStr focus_area)
  | None => True
  end.
Proof.
  unfold RecommendationEngine.generate_focused_recommendations.
  destruct (negb _); [exact I|].
  destruct (AzureOpenAIService.call_json_completion rt client _) as [[response|]|];
    try exact I; cbn [mbind outcome_bind truthy_opt default].
  destruct (truthy response); [|exact I].
  destruct response as [| | | | | |m]; try exact I.
  cbn [py_setitem mbind outcome_bind].
  eexists. split; [reflexivity|]. split; [apply marked_dict_truthy|]. split.
  - by rewrite lookup_insert_eq.
  - by rewrite lookup_insert_ne, lookup_insert_eq by done.
Qed.

(** X26.  The capacity analysis and the focused recommendations always
    come back as a dict that carries what was asked for: the horizon of the
    projection, the area of the focus, under the same keys in the answer of
    the model and in the fallback.  A maintenance plan, when there is one,
    carries its window. *)
Theorem requests_carry_their_arguments (rt : runtime) (client : option unit)
  (r : rec_replies) (reply : outcome string) (projection_days : Z)
  (focus_area maintenance_window : string) :
  (∃ d, generate_capacity_analysis rt client reply projection_days = JObj d
        ∧ d !! "projection_horizon_days" = Some (JInt projection_days)
        ∧ (d = _get_capacity_fallback rt projection_days
           ∨ d !! "analysis_type" = Some (JStr "capacity_planning")))
  ∧ (∃ d, generate_focused_recommendations rt client r focus_area = JObj d
          ∧ d !! "focus_area" = Some (JStr focus_area)
          ∧ (d = _get_focused_fallback focus_area
             ∨ d !! "analysis_type" = Some (JStr "focused_optimization")))
  ∧ match generate_maintenance_plan rt client reply maintenance_window with
    | Some v =>
        ∃ d, v = JObj d
             ∧ d !! "maintenance_window" = Some (JStr maintenance_window)
             ∧ d !! "analysis_type" = Some (JStr "maintenance_planning")
    | None => True
    end.
Proof.
  split; [|split].
  - unfold generate_capacity_analysis.
    assert (Hfallback : ∃ d, JObj (_get_capacity_fallback rt projection_days) = JObj d
        ∧ d !! "projection_horizon_days" = Some (JInt projection_days)
        ∧ (d = _get_capacity_fallback rt projection_days
           ∨ d !! "analysis_type" = Some (JStr "capacity_planning"))).
    { eexists. split; [reflexivity|]. split; [|by left].
      unfold _get_capacity_fallback.
      by rewrite !lookup_insert_ne, lookup_insert_eq by done. }
    destruct (negb _); [exact Hfallback|].
    pose proof (capacity_of_engine rt client reply projection_days) as Hengine.
    destruct (generate_capacity_planning rt client reply projection_days) as [v|];
      [|exact Hfallback].
    destruct Hengine as (d & -> & -> & Htype & Hdays).
    exists d. split; [reflexivity|]. split; [exact Hdays|by right].
  - unfold generate_focused_recommendations.
    assert (Hfallback : ∃ d, JObj (_get_focused_fallback focus_area) = JObj d
        ∧ d !! "focus_area" = Some (JStr focus_area)
        ∧ (d = _get_focused_fallback focus_area
           ∨ d !! "analysis_type" = Some (JStr "focused_optimization"))).
    { eexists. split; [reflexivity|]. split; [|by left].
      unfold _get_focused_fallback.
      by rewrite !lookup_insert_ne, lookup_insert_eq by done. }
    destruct (negb _); [exact Hfallback|].
    pose proof (focused_of_engine rt client r focus_area) as Hengine.
    destruct (RecommendationEngine.generate_focused_recommendations rt client r focus_area)
      as [v|]; [|exact Hfallback].
    destruct Hengine as (d & -> & -> & Htype & Harea).
    exists d. split; [reflexivity|]. split; [exact Harea|by right].
  - unfold generate_maintenance_plan.
    destruct (negb _); [exact I|].
    destruct (AzureOpenAIService.call_json_completion rt client reply) as [[response|]|];
      try exact I; cbn [mbind outcome_bind truthy_opt default].
    destruct (truthy response); [|exact I].
    destruct response as [| | | | | |m]; try exact I.
    cbn [py_setitem mbind outcome_bind].
    eexists. split; [reflexivity|]. split.
    + by rewrite lookup_insert_eq.
    + by rewrite lookup_insert_ne, lookup_insert_eq by done.
Qed.

End Requests.

(** ** The view of the reports *)

Section ReportView.

Lemma service_report_some (rt : runtime) (cfg : config) (method : string) (r : rec_replies)
  (write_fails : bool) (metrics : InfrastructureMetrics)
  (existing : option AnomalyDetection) (rep : RecommendationReport) :
  RecommendationService.generate_recommendation_report rt
    (RecommendationService.init rt cfg method) r write_fails metrics existing = Some rep →
  generation_method rep = selected method ∧ report_metrics_id rep = id metrics.
Proof.
  unfold RecommendationService.generate_recommendation_report, RecommendationService.init,
    selected.
  destruct (selected_cases method) as [(-> & _ & _) | [(-> & _ & _) | [Hc Hl]]];
    cbn [String.eqb Ascii.eqb Bool.eqb RecommendationService.the_generator];
    rewrite ?Hc, ?Hl; cbn [RecommendationService.the_generator].
  - unfold classic_generate_report. cbv zeta. intros Hrep.
    eapply report_of_fields; [|exact Hrep]. intros field. apply classic_generated_fields.
  - unfold LLMGeneration.generate_report. cbv zeta.
    set (summary := match existing with Some _ => _ | None => _ end).
    destruct (llm_generated_fields rt (AzureOpenAIService._initialize_client rt (settings cfg))
                r metrics summary) as (d & -> & Hfields).
    intros Hrep. by eapply report_of_fields.
  - unfold classic_generate_report. cbv zeta. intros Hrep.
    eapply report_of_fields; [|exact Hrep]. intros field. apply classic_generated_fields.
Qed.

(** X27.  The view of the reports refuses a snapshot that is not analysed
    and returns the report of the method asked for when there is one, both
    without a write.  Otherwise a report of the other method is deleted
    first, and the request fails exactly when the write of the new report
    fails: the answer then blames the configuration of the AI when the method
    is ['llm'], although the AI generator falls back to the rules, and the old
    report is gone.  On success the snapshot has the new report, labelled
    with the method used. *)
Theorem report_view_outcomes (rt : runtime) (cfg : config) (r : rec_replies)
  (write_fails : bool) (metrics : InfrastructureMetrics) (method : string)
  (db : database) (reports : gmap nat RecommendationReport) :
  let out := RecommendationView._generate_single_recommendation rt cfg r write_fails
               metrics method db reports in
  (analysis_completed metrics = false → out = (MetricsNotAnalyzed, reports))
  ∧ (analysis_completed metrics = true →
     (∀ existing, reports !! id metrics = Some existing →
                  generation_method existing = method →
                  out = (ReportAlreadyExists existing, reports))
     ∧ ((∀ existing, reports !! id metrics = Some existing →
                     generation_method existing ≠ method) →
        if write_fails
        then out = (if String.eqb method "llm" then ReportLlmNotConfigured
                    else GenerationFailed, delete (id metrics) reports)
        else ∃ report, out = (GenerationSuccess report, <[id metrics := report]> reports)
                       ∧ generation_method report = selected method
                       ∧ report_metrics_id report = id metrics)).
Proof.
  cbv zeta. unfold RecommendationView._generate_single_recommendation.
  split; [by intros ->|]. intros ->. cbn [negb]. split.
  - intros existing -> ->. by rewrite String.eqb_refl.
  - intros Hother.
    set (svc := RecommendationService.init rt cfg method).
    pose proof (service_report_none rt svc r write_fails metrics
                  (anomaly_detection_of db metrics)) as Hnone.
    pose proof (service_report_some rt cfg method r write_fails metrics
                  (anomaly_detection_of db metrics)) as Hsome.
    fold svc in Hsome.
    assert (Hgen : ∀ store : gmap nat RecommendationReport,
      if write_fails
      then match RecommendationService.generate_recommendation_report rt svc r write_fails
                   metrics (anomaly_detection_of db metrics) with
           | Some report => (GenerationSuccess report, <[id metrics := report]> store)
           | None => if String.eqb method "llm" then (ReportLlmNotConfigured, store)
                     else (GenerationFailed, store)
           end
           = (if String.eqb method "llm" then ReportLlmNotConfigured else GenerationFailed,
              store)
      else ∃ report,
           match RecommendationService.generate_recommendation_report rt svc r write_fails
                   metrics (anomaly_detection_of db metrics) with
           | Some report => (GenerationSuccess report, <[id metrics := report]> store)
           | None => if String.eqb method "llm" then (ReportLlmNotConfigured, store)
                     else (GenerationFailed, store)
           end
           = (GenerationSuccess report, <[id metrics := report]> store)
           ∧ generation_method report = selected method
           ∧ report_metrics_id report = id metrics).
    { intros store.
      destruct (RecommendationService.generate_recommendation_report rt svc r write_fails
                  metrics (anomaly_detection_of db metrics)) as [report|].
      - destruct write_fails; [by destruct Hnone as [_ Hn]; discriminate Hn|].
        exists report. split; [reflexivity|]. by apply Hsome.
      - destruct write_fails; [|by destruct Hnone as [Hn _]; discriminate Hn].
        by destruct (String.eqb method "llm"). }
    destruct (reports !! id metrics) as [existing|] eqn:Hfind.
    + specialize (Hother existing eq_refl). apply String.eqb_neq in Hother.
      rewrite Hother.
      specialize (Hgen (delete (id metrics) reports)).
      destruct write_fails; [exact Hgen|].
      destruct Hgen as (report & -> & Hmethod & Hid). exists report.
      split; [|by split]. by rewrite insert_delete_eq.
    + specialize (Hgen reports).
      destruct write_fails.
      * rewrite Hgen. by rewrite delete_id.
      * exact Hgen.
Qed.

End ReportView.
